(** * test-tool plugins: REST assertion engine and SSH file copy

    A shallow embedding of [test_tool_rest_plugin/main.py] and
    [test_tool_copy_files_ssh_plugin/main.py].

    Python objects are modelled as follows.
    - Values read from the configuration or parsed from a response body
      are [PyVal]s; numbers are restricted to integers.
    - A [dict] is an association list in insertion order ([Dict]), since
      the code iterates over [.items()] and the first offending key is the
      one reported.
    - Exceptions are the constructors of [PyExn]; a computation that can
      raise, mutate the call and log is an [Exec].
    - Library functions ([json.dumps], [xml.dom.minidom], [requests],
      [pathlib], [paramiko]) are interfaces (type classes) of the model. *)

From Stdlib Require Import List String ZArith Bool Lia.
Import ListNotations.
Local Open Scope string_scope.
Local Open Scope Z_scope.
Local Open Scope list_scope.

Set Implicit Arguments.
Set Warnings "-register-all".

(** ** Python values *)

Inductive PyVal : Type :=
| PNone
| PBool (b : bool)
| PInt (z : Z)
| PStr (s : string)
| PList (l : list PyVal)
| PDict (d : list (string * PyVal)).

(** ** Dictionaries: string keys, insertion order *)

Definition Dict (V : Type) : Type := list (string * V).

Section DictOps.
Context {V : Type}.

(** [d.get(k)]: [None] when the key is absent. *)
Fixpoint dict_get (k : string) (d : Dict V) : option V :=
  match d with
  | [] => None
  | (k', v) :: r => if String.eqb k k' then Some v else dict_get k r
  end.

(** [d[k] = v]: an existing key keeps its position, a new key goes last. *)
Fixpoint dict_set (k : string) (v : V) (d : Dict V) : Dict V :=
  match d with
  | [] => [(k, v)]
  | (k', v') :: r =>
      if String.eqb k k' then (k', v) :: r else (k', v') :: dict_set k v r
  end.

(** [del d[k]] on a dict that has the key: no binding of [k] is left. *)
Fixpoint dict_remove (k : string) (d : Dict V) : Dict V :=
  match d with
  | [] => []
  | (k', v') :: r =>
      if String.eqb k k' then dict_remove k r else (k', v') :: dict_remove k r
  end.

Definition dict_mem (k : string) (d : Dict V) : bool :=
  match dict_get k d with Some _ => true | None => false end.

(** Truth value of a dict: non-empty. *)
Definition dict_truthy (d : Dict V) : bool :=
  match d with [] => false | _ :: _ => true end.

Definition dict_keys (d : Dict V) : list string := map fst d.
End DictOps.

(** ** Python equality [==] on values

    Sequences compare element-wise and in order; mappings compare by
    size and by the value found under each key, whatever the insertion
    order; [bool] is a subclass of [int], so [True == 1]. *)

Definition b2z (b : bool) : Z := if b then 1 else 0.

Fixpoint py_eq (a b : PyVal) {struct a} : bool :=
  match a, b with
  | PNone, PNone => true
  | PBool x, PBool y => Bool.eqb x y
  | PBool x, PInt y => Z.eqb (b2z x) y
  | PInt x, PBool y => Z.eqb x (b2z y)
  | PInt x, PInt y => Z.eqb x y
  | PStr x, PStr y => String.eqb x y
  | PList l1, PList l2 =>
      (fix eq_items (l1 l2 : list PyVal) {struct l1} : bool :=
         match l1, l2 with
         | [], [] => true
         | x :: xs, y :: ys => py_eq x y && eq_items xs ys
         | _, _ => false
         end) l1 l2
  | PDict d1, PDict d2 =>
      Nat.eqb (List.length d1) (List.length d2)
      && (fix eq_entries (d : list (string * PyVal)) {struct d} : bool :=
            match d with
            | [] => true
            | (k, v) :: r =>
                match dict_get k d2 with
                | Some w => py_eq v w
                | None => false
                end && eq_entries r
            end) d1
  | _, _ => false
  end.

(** Truth value of a Python value, as tested by [if x:]. *)
Definition py_truthy (v : PyVal) : bool :=
  match v with
  | PNone => false
  | PBool b => b
  | PInt z => negb (Z.eqb z 0)
  | PStr s => negb (String.eqb s "")
  | PList l => match l with [] => false | _ => true end
  | PDict d => dict_truthy d
  end.

(** ** Exceptions *)

Inductive AssertMsg : Type :=
| NoMessage
  (* f'Key "{key}": "{value}" not equal to "{response_json[key]}".' *)
| KeyNotEqual (key : string) (value actual : PyVal)
  (* f'Key "{key}" not found in response.' *)
| KeyNotFound (key : string).

Inductive PyExn : Type :=
| AssertionError (msg : AssertMsg)
| ValueError (msg : string)
| KeyError (key : string)
| TypeError (msg : string)
| AttributeError (msg : string)
| JSONDecodeError
| ExpatError
| FileNotFoundError
| RecursionError
| LibraryError (name : string).

Definition is_AssertionError (e : PyExn) : bool :=
  match e with AssertionError _ => true | _ => false end.

(** ** Computations: mutable state [S], emitted events [E], exceptions

    The state survives an exception (a dict mutated before a [raise]
    stays mutated), and events are only ever appended. *)

Definition Exec (S E A : Type) : Type := S -> (PyExn + A) * S * list E.

Section ExecOps.
Context {S E : Type}.

Definition ret {A} (a : A) : Exec S E A := fun s => (inr a, s, []).

Definition bind {A B} (m : Exec S E A) (f : A -> Exec S E B) : Exec S E B :=
  fun s =>
    match m s with
    | (inl e, s1, t1) => (inl e, s1, t1)
    | (inr a, s1, t1) =>
        match f a s1 with
        | (r, s2, t2) => (r, s2, t1 ++ t2)
        end
    end.

Definition raise {A} (e : PyExn) : Exec S E A := fun s => (inl e, s, []).

Definition emit (ev : E) : Exec S E unit := fun s => (inr tt, s, [ev]).

Definition get : Exec S E S := fun s => (inr s, s, []).

Definition modify (f : S -> S) : Exec S E unit := fun s => (inr tt, f s, []).

(** Lift a library call that may raise but touches neither state nor log. *)
Definition lift {A} (r : PyExn + A) : Exec S E A := fun s => (r, s, []).

(** [assert cond, msg] *)
Definition py_assert (cond : bool) (msg : AssertMsg) : Exec S E unit :=
  if cond then ret tt else raise (AssertionError msg).

(** [try: m except <caught>: handler e]; other exceptions pass through. *)
Definition try_except {A} (m : Exec S E A) (caught : PyExn -> bool)
    (handler : PyExn -> Exec S E A) : Exec S E A :=
  fun s =>
    match m s with
    | (inl e, s1, t1) =>
        if caught e then
          match handler e s1 with
          | (r, s2, t2) => (r, s2, t1 ++ t2)
          end
        else (inl e, s1, t1)
    | (inr a, s1, t1) => (inr a, s1, t1)
    end.

(** [try: m finally: fin]; an exception of [fin] replaces the pending one. *)
Definition try_finally {A} (m : Exec S E A) (fin : Exec S E unit) : Exec S E A :=
  fun s =>
    match m s with
    | (r, s1, t1) =>
        match fin s1 with
        | (inl e, s2, t2) => (inl e, s2, t1 ++ t2)
        | (inr _, s2, t2) => (r, s2, t1 ++ t2)
        end
    end.

(** [for x in xs: body x] *)
Fixpoint for_each {A} (xs : list A) (body : A -> Exec S E unit) : Exec S E unit :=
  match xs with
  | [] => ret tt
  | x :: r => bind (body x) (fun _ => for_each r body)
  end.
End ExecOps.

Declare Scope exec_scope.
Delimit Scope exec_scope with exec.
Notation "x <- m ;; k" := (bind m (fun x => k))
  (at level 61, m at next level, right associativity) : exec_scope.
Notation "m ;; k" := (bind m (fun _ => k))
  (at level 61, right associativity) : exec_scope.
Local Open Scope exec_scope.

(** A computation that leaves the state as it found it. *)
Definition keeps_state {S E A} (m : Exec S E A) : Prop :=
  forall s, snd (fst (m s)) = s.

Definition outcome {S E A} (r : (PyExn + A) * S * list E) : PyExn + A := fst (fst r).
Definition final {S E A} (r : (PyExn + A) * S * list E) : S := snd (fst r).
Definition events {S E A} (r : (PyExn + A) * S * list E) : list E := snd r.

(** No event of the computation satisfies [p]. *)
Definition never {S E A} (p : E -> bool) (m : Exec S E A) : Prop :=
  forall s, existsb p (events (m s)) = false.

(** ** Library interfaces *)

(** [pathlib.Path] *)
Class Pathlib : Type := {
  Path : Type;
  Path_of : string -> Path;              (* Path(s) *)
  is_absolute : Path -> bool;            (* p.is_absolute() *)
  joinpath : Path -> Path -> Path;       (* p.joinpath(q) *)
  as_posix : Path -> string;             (* p.as_posix() *)
  path_name : Path -> string             (* p.name *)
}.

(** [json.dumps], [str] and [xml.dom.minidom] *)
Class Printers : Type := {
  dumps : PyVal -> string;               (* dumps(x) *)
  dumps_indent : PyVal -> string;        (* dumps(x, indent=2) *)
  py_str : PyVal -> string;              (* str(x) *)
  Dom : Type;
  parseString : string -> PyExn + Dom;   (* raises ExpatError on ill-formed input *)
  toprettyxml : Dom -> string
}.

(** * The REST plugin *)

Module Rest.

Inductive Method : Type := POST | GET | PUT | DELETE.

(** The enum [Type] of the response. *)
Inductive Type_ : Type := XML | JSON | TEXT.

Record Assertion : Type := {
  value : PyVal;
  only_defined : bool
}.

(** The assertion as the dict it is in the call: [call["assertion"]]. *)
Definition assertion_dict (a : Assertion) : PyVal :=
  PDict [("value", value a); ("only_defined", PBool (only_defined a))].

(** An opened file object. *)
Inductive Handle : Type := FileObject (name : string) (mode : string).

(** The values of [call["files"]] once augmented: [LoadedFile] is
    [(path, open_file, media)], [EmptyFile] is [(None, content, media)]. *)
Inductive FileEntry : Type :=
| LoadedFile (path : PyVal) (handle : Handle) (media : PyVal)
| EmptyFile (content : string) (media : string).

Inductive LogMsg : Type :=
| MakeCall (m : Method) (url : string)   (* f'Make {method.name} to {url}' *)
| ResponseStatus (code : Z)              (* f'Response Status: {code}' *)
| ResponseJson (rendered : string)       (* f'Response:\n{dumps(json, indent=2)}' *)
| ResponseText (text : string)           (* f'Response: "{text}"' *)
| Expected (rendered : string)           (* f'Expexted:\n{rendered}' *)
| UnsupportedAssertion.                  (* 'Assertion type ... not supported yet.' *)

(** Keyword arguments as the transport receives them. *)
Inductive KwVal : Type :=
| KwHeaders (h : Dict PyVal)
| KwFiles (f : Dict FileEntry)
| KwData (body : string)
| KwTimeout (t : Z)
| KwVerify (b : bool).

Inductive Event : Type :=
| Info (m : LogMsg)
| Error (m : LogMsg)
| Sent (m : Method) (url : string) (kwargs : Dict KwVal).

Definition is_Sent (ev : Event) : bool :=
  match ev with Sent _ _ _ => true | _ => false end.

(** The request carries a [Content-Type] entry in its headers. *)
Definition carries_content_type (ev : Event) : bool :=
  match ev with
  | Sent _ _ kwargs =>
      match dict_get "headers" kwargs with
      | Some (KwHeaders h) => dict_mem "Content-Type" h
      | _ => false
      end
  | _ => false
  end.

Record Response : Type := {
  status_code : Z;
  text : string;
  json : option PyVal      (* [None]: response.json() raises JSONDecodeError *)
}.

(** [requests.get/post/put/delete], called once the keyword arguments
    have been bound. *)
Class Requests : Type := {
  request : Method -> string -> Dict KwVal -> PyExn + Response
}.

(** The builtin [open]. *)
Class FileSystem {paths : Pathlib} : Type := {
  open_ : Path -> string -> PyExn + Handle
}.

Section Model.
Context {paths : Pathlib} {printers : Printers} {requests : Requests}
        {fs : FileSystem}.

Record Cert : Type := {
  cert_path : Path;
  key : option string
}.

(** An augmented call. *)
Record RestCall : Type := {
  base_url : string;
  path : string;
  url : string;
  method : Method;
  data : option PyVal;
  files : option (Dict FileEntry);
  multipart : option (Dict FileEntry);
  timeout : Z;
  headers : Dict PyVal;
  verify : bool;
  cert : option Cert;
  response_type : Type_;
  assertion : option Assertion;
  hide_logs : bool;
  status_codes : list Z
}.

(** [call["files"] = f] *)
Definition set_files (f : option (Dict FileEntry)) (c : RestCall) : RestCall :=
  {| base_url := base_url c; path := path c; url := url c;
     method := method c; data := data c; files := f;
     multipart := multipart c; timeout := timeout c;
     headers := headers c; verify := verify c; cert := cert c;
     response_type := response_type c; assertion := assertion c;
     hide_logs := hide_logs c; status_codes := status_codes c |}.

(** [call["headers"] = h] *)
Definition set_headers (h : Dict PyVal) (c : RestCall) : RestCall :=
  {| base_url := base_url c; path := path c; url := url c;
     method := method c; data := data c; files := files c;
     multipart := multipart c; timeout := timeout c;
     headers := h; verify := verify c; cert := cert c;
     response_type := response_type c; assertion := assertion c;
     hide_logs := hide_logs c; status_codes := status_codes c |}.

Definition pretty_xml (xml : string) : PyExn + string :=
  match parseString xml with
  | inl e => inl e
  | inr dom => inr (toprettyxml dom)
  end.

Definition pretty_json (json : string) : string := dumps_indent (PStr json).

(** The local dict [data] of [assert_response]. Its ["headers"] and
    ["files"] entries are the very objects held by the call, so they
    are kept as references into the call and read when the request is
    made. *)
Inductive DataVal : Type :=
| RefHeaders
| RefFiles
| DStr (s : string)
| DInt (z : Z)
| DBool (b : bool).

Definition deref (c : RestCall) (v : DataVal) : KwVal :=
  match v with
  | RefHeaders => KwHeaders (headers c)
  | RefFiles => KwFiles (match files c with Some f => f | None => [] end)
  | DStr s => KwData s
  | DInt z => KwTimeout z
  | DBool b => KwVerify b
  end.

(** Binding [f(url, timeout=10, **data)]: a key of [data] that repeats an
    explicit keyword is a [TypeError], raised before [f] runs. *)
Definition bind_kwargs (explicit star : Dict KwVal) : PyExn + Dict KwVal :=
  match find (fun k => dict_mem k explicit) (dict_keys star) with
  | Some k => inl (TypeError ("got multiple values for keyword argument '" ++ k ++ "'")%string)
  | None => inr (explicit ++ star)
  end.

Local Abbreviation M := (Exec RestCall Event).

(** [del data["headers"]["Content-Type"]], on the call's own dict. *)
Definition del_header (k : string) : M unit :=
  call <- get ;;
  if dict_mem k (headers call)
  then modify (set_headers (dict_remove k (headers call)))
  else raise (KeyError k).

(** [call["files"][key] = value] *)
Definition files_setitem (kv : string * FileEntry) : M unit :=
  modify (fun c =>
    match files c with
    | Some f => set_files (Some (dict_set (fst kv) (snd kv) f)) c
    | None => c
    end).

Definition merge_multipart : M unit :=
  call <- get ;;
  match multipart call with
  | Some mp =>
      if dict_truthy mp then
        (if match files call with None => true | Some _ => false end
         then modify (set_files (Some []))
         else ret tt) ;;
        for_each mp files_setitem
      else ret tt
  | None => ret tt
  end.

Definition files_truthy (c : RestCall) : bool :=
  match files c with Some f => dict_truthy f | None => false end.

(** Lines 215-244: the keyword arguments. *)
Definition build_data : M (Dict DataVal) :=
  let data0 := [("headers", RefHeaders)] in
  merge_multipart ;;
  call <- get ;;
  data1 <-
    (if files_truthy call then
       let with_files := dict_set "files" RefFiles data0 in
       del_header "Content-Type" ;;
       ret with_files
     else
       match data call with
       | Some d => ret (dict_set "data" (DStr (dumps d)) data0)
       | None => ret data0
       end) ;;
  let data2 :=
    if negb (Z.eqb (timeout call) 0)
    then dict_set "timeout" (DInt (timeout call)) data1
    else data1 in
  ret (dict_set "verify" (DBool (verify call)) data2).

(** Lines 262-270: every verb is called as [verb(url, timeout=10, **data)]. *)
Definition dispatch (data_ : Dict DataVal) : M Response :=
  call <- get ;;
  emit (Info (MakeCall (method call) (url call))) ;;
  kwargs <- lift (bind_kwargs [("timeout", KwTimeout 10)]
                    (map (fun kv => (fst kv, deref call (snd kv))) data_)) ;;
  emit (Sent (method call) (url call) kwargs) ;;
  lift (request (method call) (url call) kwargs).

Definition response_json (r : Response) : M PyVal :=
  match json r with
  | Some j => ret j
  | None => raise JSONDecodeError
  end.

Definition is_KeyError (e : PyExn) : bool :=
  match e with KeyError _ => true | _ => false end.

(** [response_json[key]] *)
Definition getitem (d : Dict PyVal) (k : string) : M PyVal :=
  match dict_get k d with
  | Some v => ret v
  | None => raise (KeyError k)
  end.

(** Lines 289-297: one round of the loop over the declared keys. *)
Definition check_key (body : Dict PyVal) (kv : string * PyVal) : M unit :=
  try_except
    (actual <- getitem body (fst kv) ;;
     py_assert (py_eq actual (snd kv)) (KeyNotEqual (fst kv) (snd kv) actual))
    is_KeyError
    (fun _ => py_assert false (KeyNotFound (fst kv))).

(** Lines 282-307: the body assertion. *)
Definition check_body (a : Assertion) (response : Response) : M unit :=
  match value a with
  | PStr s => py_assert (String.eqb (text response) s) NoMessage
  | PDict expected =>
      if only_defined a then
        rj <- response_json response ;;
        match rj with
        | PDict body => for_each expected (check_key body)
        | _ => py_assert false NoMessage
        end
      else
        rj <- response_json response ;;
        py_assert (py_eq rj (assertion_dict a)) NoMessage
  | PList _ =>
      rj <- response_json response ;;
      py_assert (py_eq rj (assertion_dict a)) NoMessage
  | _ =>
      emit (Error UnsupportedAssertion) ;;
      py_assert false NoMessage
  end.

(** Lines 272-307: logging and checking the response. *)
Definition check_response (response : Response) : M unit :=
  call <- get ;;
  emit (Info (ResponseStatus (status_code response))) ;;
  (if hide_logs call then ret tt
   else match json response with
        | Some j => emit (Info (ResponseJson (dumps_indent j)))
        | None => emit (Info (ResponseText (text response)))
        end) ;;
  py_assert (existsb (Z.eqb (status_code response)) (status_codes call)) NoMessage ;;
  match assertion call with
  | Some a => check_body a response
  | None => ret tt
  end.

(** Lines 215-270: the request is built and sent. *)
Definition exchange : M Response :=
  data_ <- build_data ;;
  dispatch data_.

Definition assert_response : M unit :=
  response <- exchange ;;
  check_response response.

(** Lines 331-339: the handler of [make_rest_call]; [raise e] belongs to
    the block guarded by [call["assertion"] is not None]. *)
Definition log_expected (e : PyExn) : M unit :=
  call <- get ;;
  match assertion call with
  | Some a =>
      (match response_type call with
       | XML =>
           rendered <- lift (pretty_xml (py_str (assertion_dict a))) ;;
           emit (Error (Expected rendered))
       | JSON => emit (Error (Expected (pretty_json (py_str (assertion_dict a)))))
       | TEXT => emit (Error (Expected (py_str (assertion_dict a))))
       end) ;;
      raise e
  | None => ret tt
  end.

Definition make_rest_call : M unit :=
  try_except assert_response is_AssertionError log_expected.

(** *** Augmentation *)

(** The call as merged from the configuration and the default template:
    every key is present, with any value. *)
Record RawRestCall : Type := {
  raw_base_url : PyVal;
  raw_path : PyVal;
  raw_url : PyVal;
  raw_method : PyVal;
  raw_data : PyVal;
  raw_files : PyVal;
  raw_multipart : PyVal;
  raw_timeout : PyVal;
  raw_headers : PyVal;
  raw_verify : PyVal;
  raw_cert : PyVal;
  raw_response_type : PyVal;
  raw_assertion : PyVal;
  raw_hide_logs : PyVal;
  raw_status_codes : PyVal
}.

(** Augmentation opens files: the events are the handles opened. *)
Local Abbreviation Aug := (Exec unit Handle).

Definition require_str (v : PyVal) (msg : string) : Aug string :=
  match v with
  | PStr s => ret s
  | _ => raise (ValueError msg)
  end.

Definition require_bool (v : PyVal) (msg : string) : Aug bool :=
  match v with
  | PBool b => ret b
  | _ => raise (ValueError msg)
  end.

(** [v[k]] for a string key. *)
Definition subscript (v : PyVal) (k : string) : Aug PyVal :=
  match v with
  | PDict d =>
      match dict_get k d with
      | Some x => ret x
      | None => raise (KeyError k)
      end
  | _ => raise (TypeError "object is not subscriptable by a string key")
  end.

(** [v.items()] *)
Definition items (v : PyVal) : Aug (Dict PyVal) :=
  match v with
  | PDict d => ret d
  | _ => raise (AttributeError "object has no attribute 'items'")
  end.

(** [Method[name]] *)
Definition Method_of_name (name : string) : option Method :=
  if String.eqb name "POST" then Some POST
  else if String.eqb name "GET" then Some GET
  else if String.eqb name "PUT" then Some PUT
  else if String.eqb name "DELETE" then Some DELETE
  else None.

(** [Type[name]] *)
Definition Type_of_name (name : string) : option Type_ :=
  if String.eqb name "XML" then Some XML
  else if String.eqb name "JSON" then Some JSON
  else if String.eqb name "TEXT" then Some TEXT
  else None.

Definition augment_url (call : RawRestCall) (base path_ : string) : Aug string :=
  match raw_url call with
  | PNone => ret (base ++ path_)%string
  | PStr u => ret u
  | _ => raise (ValueError "URL must be a string.")
  end.

Definition augment_method (call : RawRestCall) : Aug Method :=
  name <- require_str (raw_method call) "Method must be a string." ;;
  match Method_of_name name with
  | Some m => ret m
  | None => raise (ValueError "Method is not supported.")
  end.

(** [path.joinpath(v)] and [Path(v)] take a string. *)
Definition as_path_arg (v : PyVal) : Aug Path :=
  match v with
  | PStr s => ret (Path_of s)
  | _ => raise (TypeError "expected str, bytes or os.PathLike object")
  end.

(** Lines 385-397: one round of the loop over the files. *)
Definition augment_file (project : Path) (kv : string * PyVal)
    : Aug (string * FileEntry) :=
  match snd kv with
  | PDict _ =>
      binary <- subscript (snd kv) "binary" ;;
      let file_type := if py_truthy binary then "rb" else "r" in
      p <- subscript (snd kv) "path" ;;
      rel <- as_path_arg p ;;
      open_file <- lift (open_ (joinpath project rel) file_type) ;;
      emit open_file ;;
      media <- subscript (snd kv) "media" ;;
      ret (fst kv, LoadedFile p open_file media)
  | _ => raise (ValueError "File is not a dict.")
  end.

(** [for x in xs], collecting what each round stores. *)
Fixpoint map_each {A B} (f : A -> Aug B) (xs : list A) : Aug (list B) :=
  match xs with
  | [] => ret []
  | x :: r => y <- f x ;; ys <- map_each f r ;; ret (y :: ys)
  end.

Definition augment_files (project : Path) (call : RawRestCall)
    : Aug (option (Dict FileEntry)) :=
  match raw_files call with
  | PNone => ret None
  | v =>
      entries <- items v ;;
      loaded <- map_each (augment_file project) entries ;;
      ret (Some loaded)
  end.

Definition augment_multipart (call : RawRestCall) : Aug (option (Dict FileEntry)) :=
  match raw_multipart call with
  | PNone => ret None
  | v =>
      entries <- items v ;;
      ret (Some (map (fun kv => (fst kv, EmptyFile (dumps (snd kv)) "application/json"))
                     entries))
  end.

(** [isinstance(v, int)]; [bool] is a subclass of [int]. *)
Definition as_int (v : PyVal) : option Z :=
  match v with
  | PInt z => Some z
  | PBool b => Some (b2z b)
  | _ => None
  end.

Definition augment_timeout (call : RawRestCall) : Aug Z :=
  match as_int (raw_timeout call) with
  | Some z => ret z
  | None => raise (ValueError "Timeout must be an integer, set 0 to disable.")
  end.

Definition augment_headers (call : RawRestCall) : Aug (Dict PyVal) :=
  match raw_headers call with
  | PNone => raise (ValueError "Headers are requiered.")
  | PDict d => ret d
  | _ => raise (ValueError "Headers must be a dict.")
  end.

Definition augment_cert (project : Path) (call : RawRestCall) : Aug (option Cert) :=
  match raw_cert call with
  | PNone => ret None
  | c =>
      p <- subscript c "path" ;;
      resolved <-
        match p with
        | PNone => raise (ValueError "Cert path is requiered for cert.")
        | _ => rel <- as_path_arg p ;; ret (joinpath project rel)
        end ;;
      k <- subscript c "key" ;;
      match k with
      | PNone => ret (Some {| cert_path := resolved; key := None |})
      | PStr ks => ret (Some {| cert_path := resolved; key := Some ks |})
      | _ => raise (ValueError "Cert key must be a string.")
      end
  end.

Definition augment_response_type (call : RawRestCall) : Aug Type_ :=
  name <- require_str (raw_response_type call) "Response type must be a string." ;;
  match Type_of_name name with
  | Some t => ret t
  | None => raise (ValueError "Response type is not supported.")
  end.

(** Lines 445-465. *)
Definition augment_assertion (call : RawRestCall) : Aug (option Assertion) :=
  match raw_assertion call with
  | PNone => ret None
  | PDict d =>
      od <-
        match dict_get "only_defined" d with
        | None | Some PNone => ret false
        | Some (PBool b) => ret b
        | Some _ => raise (ValueError "Only defined must be a boolean.")
        end ;;
      match dict_get "value" d with
      | None | Some PNone => raise (ValueError "Assertion value is requiered.")
      | Some (PStr s) => ret (Some {| value := PStr s; only_defined := od |})
      | Some (PDict m) => ret (Some {| value := PDict m; only_defined := od |})
      | Some _ => raise (ValueError "Assertion must be a string or a dict.")
      end
  | _ => raise (ValueError "Assertion must be a dict.")
  end.

Definition augment_status_codes (call : RawRestCall) : Aug (list Z) :=
  match raw_status_codes call with
  | PList l =>
      map_each (fun status_code =>
                  match as_int status_code with
                  | Some z => ret z
                  | None => raise (ValueError "Status codes must be integers.")
                  end) l
  | _ => raise (ValueError "Status codes must be a list.")
  end.

Definition augment_rest_call (call : RawRestCall) (project : Path) : Aug RestCall :=
  base <- require_str (raw_base_url call) "Base URL must be a string." ;;
  path_ <- require_str (raw_path call) "Path must be a string." ;;
  url_ <- augment_url call base path_ ;;
  method_ <- augment_method call ;;
  files_ <- augment_files project call ;;
  multipart_ <- augment_multipart call ;;
  timeout_ <- augment_timeout call ;;
  headers_ <- augment_headers call ;;
  verify_ <- require_bool (raw_verify call) "Verify must be a boolean." ;;
  cert_ <- augment_cert project call ;;
  response_type_ <- augment_response_type call ;;
  assertion_ <- augment_assertion call ;;
  hide_logs_ <- require_bool (raw_hide_logs call) "Hide logs must be a boolean." ;;
  status_codes_ <- augment_status_codes call ;;
  ret {| base_url := base; path := path_; url := url_; method := method_;
         data := match raw_data call with PNone => None | d => Some d end;
         files := files_; multipart := multipart_; timeout := timeout_;
         headers := headers_; verify := verify_; cert := cert_;
         response_type := response_type_; assertion := assertion_;
         hide_logs := hide_logs_; status_codes := status_codes_ |}.

(** *** Execution in closed form

    The functions below say what [assert_response] amounts to; the
    lemmas of the second half of the file relate them to the code. *)

(** [call["files"]] once the multipart fields have been written into it. *)
Definition merged_files (c : RestCall) : option (Dict FileEntry) :=
  match multipart c with
  | Some mp =>
      if dict_truthy mp
      then Some (fold_left (fun f kv => dict_set (fst kv) (snd kv) f) mp
                   (match files c with Some f => f | None => [] end))
      else files c
  | None => files c
  end.

Definition merged (c : RestCall) : RestCall := set_files (merged_files c) c.

(** The call as execution leaves it. *)
Definition executed (c : RestCall) : RestCall :=
  if files_truthy (merged c) && dict_mem "Content-Type" (headers c)
  then set_headers (dict_remove "Content-Type" (headers c)) (merged c)
  else merged c.

(** The local dict [data] when it is complete (line 244). *)
Definition data_of (c : RestCall) : Dict DataVal :=
  let data0 := [("headers", RefHeaders)] in
  let data1 :=
    if files_truthy (merged c) then dict_set "files" RefFiles data0
    else match data c with
         | Some d => dict_set "data" (DStr (dumps d)) data0
         | None => data0
         end in
  let data2 :=
    if negb (Z.eqb (timeout c) 0)
    then dict_set "timeout" (DInt (timeout c)) data1
    else data1 in
  dict_set "verify" (DBool (verify c)) data2.

(** The keyword arguments bound from [data] (the [**data] of line 264). *)
Definition star_kwargs (c : RestCall) : Dict KwVal :=
  map (fun kv => (fst kv, deref (executed c) (snd kv))) (data_of c).

(** The declared key exists in the body with an equal value. *)
Definition key_matches (body : Dict PyVal) (kv : string * PyVal) : Prop :=
  exists w, dict_get (fst kv) body = Some w /\ py_eq w (snd kv) = true.

End Model.
End Rest.

(** * The copy-files-over-SSH plugin *)

Module CopyFilesSsh.

(** What the plugin logs and what it asks of the SSH client, the SFTP
    session and the local file system, in the order it happens. *)
Inductive Event : Type :=
| Info (msg : string)
| Debug (msg : string)
| Error (msg : string)
| Connect (host user password : string)   (* client.connect(host, username=, password=) *)
| Close                                   (* client.close() *)
| OpenSftp                                (* client.open_sftp() *)
| CloseSftp                               (* leaving the [with] block *)
| Stat (remote : string)                  (* sftp.stat(p) *)
| Mkdir (remote : string)                 (* sftp.mkdir(p) *)
| Listdir (remote : string)               (* sftp.listdir_attr(p) *)
| Put (local remote : string)             (* sftp.put(l, r) *)
| Get (remote local : string)             (* sftp.get(r, l) *)
| LocalMkdir (local : string).            (* p.mkdir(parents=True, exist_ok=True) *)

Definition is_transfer_to_remote (ev : Event) : bool :=
  match ev with Put _ _ => true | _ => false end.

(** An entry of [sftp.listdir_attr]. *)
Record SFTPAttributes : Type := {
  filename : string;
  st_mode : Z
}.

(** [stat.S_ISDIR]: [(mode & 0o170000) == 0o040000]. *)
Definition S_ISDIR (mode : Z) : bool := Z.eqb (Z.land mode 61440) 16384.

(** The remote host, the network and the local file system: a state
    [World] and what each library call does to it. *)
Class Paramiko {paths : Pathlib} : Type := {
  World : Type;
  ssh_connect : string -> string -> string -> World -> (PyExn + unit) * World;
  ssh_close : World -> World;
  ssh_open_sftp : World -> (PyExn + unit) * World;
  sftp_close : World -> World;
  sftp_stat : string -> World -> (PyExn + Z) * World;
  sftp_mkdir : string -> World -> (PyExn + unit) * World;
  sftp_listdir_attr : string -> World -> (PyExn + list SFTPAttributes) * World;
  sftp_put : string -> string -> World -> (PyExn + unit) * World;
  sftp_get : string -> string -> World -> (PyExn + unit) * World;
  path_is_dir : Path -> World -> bool;
  path_mkdir : Path -> World -> (PyExn + unit) * World;
  (** Nested calls the interpreter still allows before [RecursionError]. *)
  recursion_limit : nat
}.

(** [upload_directory] (lines 44-62) is called from nowhere in the module,
    its only call site being commented out (line 91): it is not part of
    any execution, and is modelled on its own in [Upload]. *)

Section Model.
Context {paths : Pathlib} {paramiko : Paramiko}.

Local Abbreviation M := (Exec World Event).

(** A library call: logged in the trace, then run on the world. *)
Definition call_lib {A} (ev : Event) (op : World -> (PyExn + A) * World) : M A :=
  emit ev ;; (fun w => (op w, [])).

Definition client_connect (host user password : string) : M unit :=
  call_lib (Connect host user password) (ssh_connect host user password).

Definition client_close : M unit :=
  call_lib Close (fun w => (inr tt, ssh_close w)).

Definition stat (p : string) : M Z := call_lib (Stat p) (sftp_stat p).
Definition mkdir (p : string) : M unit := call_lib (Mkdir p) (sftp_mkdir p).
Definition listdir_attr (p : string) : M (list SFTPAttributes) :=
  call_lib (Listdir p) (sftp_listdir_attr p).
Definition put (l r : string) : M unit := call_lib (Put l r) (sftp_put l r).
Definition get_ (r l : string) : M unit := call_lib (Get r l) (sftp_get r l).
Definition local_mkdir (p : Path) : M unit :=
  call_lib (LocalMkdir (as_posix p)) (path_mkdir p).
Definition is_dir (p : Path) : M bool := fun w => (inr (path_is_dir p w), w, []).

(** [with client.open_sftp() as sftp: body] *)
Definition with_sftp {A} (body : M A) : M A :=
  call_lib OpenSftp ssh_open_sftp ;;
  try_finally body (call_lib CloseSftp (fun w => (inr tt, sftp_close w))).

(** An augmented call; [remote_path] stays [None] when not configured. *)
Record CopyFilesSshCall : Type := {
  user : string;
  password : string;
  host : string;
  local_path : Path;
  remote_path : option Path;
  download : bool
}.

(** The call before augmentation. *)
Record RawCopyFilesSshCall : Type := {
  raw_user : string;
  raw_password : string;
  raw_host : string;
  raw_local_path : option string;
  raw_remote_path : option string;
  raw_download : bool
}.

Definition default_copy_files_ssh_call : RawCopyFilesSshCall :=
  {| raw_user := "${REMOTE_CMD_USER}";
     raw_password := "${REMOTE_CMD_PASSWORD}";
     raw_host := "${REMOTE_CMD_HOST}";
     raw_local_path := None;
     raw_remote_path := None;
     raw_download := false |}.

Definition run_with_ssh_client (user_ host_ password_ : string)
    (callable : M unit) : M unit :=
  emit (Info ("Connect to " ++ user_ ++ "@" ++ host_)%string) ;;
  try_finally
    (client_connect host_ user_ password_ ;;
     callable)
    client_close.

(** [remote_path.as_posix()], where [remote_path] may be [None]. *)
Definition remote_posix (remote : option Path) : M string :=
  match remote with
  | Some p => ret (as_posix p)
  | None => raise (AttributeError "'NoneType' object has no attribute 'as_posix'")
  end.

Definition is_FileNotFoundError (e : PyExn) : bool :=
  match e with FileNotFoundError => true | _ => false end.

Fixpoint download_directory (depth : nat) (remote local : Path) : M unit :=
  match depth with
  | O => raise RecursionError
  | S depth' =>
      emit (Debug ("Download directory " ++ as_posix remote ++ " to "
                     ++ as_posix local)%string) ;;
      entries <- listdir_attr (as_posix remote) ;;
      for_each entries (fun item =>
        let remote_item := joinpath remote (Path_of (filename item)) in
        let local_item := joinpath local (Path_of (filename item)) in
        if S_ISDIR (st_mode item) then
          local_mkdir local_item ;;
          download_directory depth' remote_item local_item
        else
          get_ (as_posix remote_item) (as_posix local_item))
  end.

Definition copy_remote_file (local : Path) (remote : option Path)
    (download_ : bool) : M unit :=
  with_sftp
    (if negb download_ then
       r <- remote_posix remote ;;
       emit (Info ("Copy the file " ++ as_posix local ++ " to " ++ r)%string) ;;
       try_except (stat r ;; ret tt) is_FileNotFoundError (fun _ => mkdir r) ;;
       d <- is_dir local ;;
       if d then
         emit (Error "Can not copy a directory from local to remote") ;;
         py_assert false NoMessage
       else
         match remote with
         | Some rp =>
             put (as_posix local)
                 (as_posix (joinpath rp (Path_of (path_name local))))
         | None =>
             raise (AttributeError "'NoneType' object has no attribute 'joinpath'")
         end
     else
       r <- remote_posix remote ;;
       emit (Info ("Copy the file " ++ r ++ " to " ++ as_posix local)%string) ;;
       local_mkdir local ;;
       mode <- stat r ;;
       match remote with
       | Some rp =>
           if S_ISDIR mode then download_directory recursion_limit rp local
           else get_ r (as_posix (joinpath local (Path_of (path_name rp))))
       | None =>
           raise (AttributeError "'NoneType' object has no attribute 'name'")
       end).

Definition make_copy_files_ssh_call (call : CopyFilesSshCall) : M unit :=
  run_with_ssh_client (user call) (host call) (password call)
    (copy_remote_file (local_path call) (remote_path call) (download call)).

(** Lines 110-118. [call['local_path']] is only replaced when it is not
    [None]; [is_absolute] is then called on whatever it holds. *)
Definition augment_copy_files_ssh_call (call : RawCopyFilesSshCall)
    (project : Path) : PyExn + CopyFilesSshCall :=
  let local1 := option_map Path_of (raw_local_path call) in
  match local1 with
  | None => inl (AttributeError "'NoneType' object has no attribute 'is_absolute'")
  | Some p =>
      let local2 := if negb (is_absolute p) then joinpath project p else p in
      inr {| user := raw_user call; password := raw_password call;
             host := raw_host call; local_path := local2;
             remote_path := option_map Path_of (raw_remote_path call);
             download := raw_download call |}
  end.

End Model.
End CopyFilesSsh.

(** * Concrete libraries for running the model on examples *)

Module Fixture.

(** Paths as POSIX strings. *)
Definition posix : Pathlib :=
  {| Path := string;
     Path_of := fun s => s;
     is_absolute := fun p => String.prefix "/" p;
     joinpath := fun p q => if String.prefix "/" q then q else (p ++ "/" ++ q)%string;
     as_posix := fun p => p;
     path_name := fun p => p |}.

(** Printers that keep the text; every document is rejected by the XML
    parser. *)
Definition plain : Printers :=
  {| dumps := fun _ => "<json>";
     dumps_indent := fun _ => "<json>";
     py_str := fun _ => "{...}";
     Dom := unit;
     parseString := fun _ => inl ExpatError;
     toprettyxml := fun _ => "" |}.

(** A server that answers every request with [r]. *)
Definition server (r : Rest.Response) : Rest.Requests :=
  {| Rest.request := fun _ _ _ => inr r |}.

(** Every file can be opened. *)
Definition disk : Rest.FileSystem (paths := posix) :=
  {| Rest.open_ := fun (p : @Path posix) mode => inr (Rest.FileObject (@as_posix posix p) mode) |}.

Definition rest_call (m : Rest.Method) (t : Z) (h : Dict PyVal)
    (f mp : option (Dict Rest.FileEntry)) (ty : Rest.Type_)
    (a : option Rest.Assertion) : Rest.RestCall (paths := posix) :=
  {| Rest.base_url := "http://localhost"; Rest.path := "/status";
     Rest.url := "http://localhost/status"; Rest.method := m;
     Rest.data := None; Rest.files := f; Rest.multipart := mp;
     Rest.timeout := t; Rest.headers := h; Rest.verify := false;
     Rest.cert := None; Rest.response_type := ty; Rest.assertion := a;
     Rest.hide_logs := false; Rest.status_codes := [200] |}.

Definition raw_rest_call (a : PyVal) : Rest.RawRestCall :=
  {| Rest.raw_base_url := PStr "http://localhost"; Rest.raw_path := PStr "/status";
     Rest.raw_url := PNone; Rest.raw_method := PStr "GET";
     Rest.raw_data := PNone; Rest.raw_files := PNone;
     Rest.raw_multipart := PNone; Rest.raw_timeout := PInt 0;
     Rest.raw_headers := PDict []; Rest.raw_verify := PBool false;
     Rest.raw_cert := PNone; Rest.raw_response_type := PStr "JSON";
     Rest.raw_assertion := a; Rest.raw_hide_logs := PBool false;
     Rest.raw_status_codes := PList [PInt 200] |}.

Definition ok200 (body : PyVal) : Rest.Response :=
  {| Rest.status_code := 200; Rest.text := "body"; Rest.json := Some body |}.

Definition err500 : Rest.Response :=
  {| Rest.status_code := 500; Rest.text := "oops"; Rest.json := None |}.

Definition a_file : Dict Rest.FileEntry :=
  [("file", Rest.LoadedFile (PStr "a.txt") (Rest.FileObject "/project/a.txt" "r")
              (PStr "text/plain"))].

Definition a_part : Dict Rest.FileEntry :=
  [("meta", Rest.EmptyFile "{}" "application/json")].

Definition expect (v : PyVal) (only : bool) : option Rest.Assertion :=
  Some {| Rest.value := v; Rest.only_defined := only |}.

(** A remote host on which every operation succeeds and every path,
    local or remote, is a directory ([0o040755]). *)
Definition host_of_directories : CopyFilesSsh.Paramiko (paths := posix) :=
  {| CopyFilesSsh.World := unit;
     CopyFilesSsh.ssh_connect := fun _ _ _ w => (inr tt, w);
     CopyFilesSsh.ssh_close := fun w => w;
     CopyFilesSsh.ssh_open_sftp := fun w => (inr tt, w);
     CopyFilesSsh.sftp_close := fun w => w;
     CopyFilesSsh.sftp_stat := fun _ w => (inr 16877, w);
     CopyFilesSsh.sftp_mkdir := fun _ w => (inr tt, w);
     CopyFilesSsh.sftp_listdir_attr := fun _ w => (inr [], w);
     CopyFilesSsh.sftp_put := fun _ _ w => (inr tt, w);
     CopyFilesSsh.sftp_get := fun _ _ w => (inr tt, w);
     CopyFilesSsh.path_is_dir := fun _ _ => true;
     CopyFilesSsh.path_mkdir := fun _ w => (inr tt, w);
     CopyFilesSsh.recursion_limit := 1000 |}.

Definition upload_of_a_directory : CopyFilesSsh.CopyFilesSshCall (paths := posix) :=
  {| CopyFilesSsh.user := "tester"; CopyFilesSsh.password := "secret";
     CopyFilesSsh.host := "example.org";
     CopyFilesSsh.local_path := @Path_of posix "/project/out";
     CopyFilesSsh.remote_path := Some (@Path_of posix "/srv/in");
     CopyFilesSsh.download := false |}.

End Fixture.

(** * Observations on traces and results *)

(** [m.name] for a member of [Method], and of [Type]. *)
Definition Method_name (m : Rest.Method) : string :=
  match m with
  | Rest.POST => "POST"
  | Rest.GET => "GET"
  | Rest.PUT => "PUT"
  | Rest.DELETE => "DELETE"
  end.

Definition Type_name (t : Rest.Type_) : string :=
  match t with
  | Rest.XML => "XML"
  | Rest.JSON => "JSON"
  | Rest.TEXT => "TEXT"
  end.

(** The log lines that show the body of the response. *)
Definition is_body_log (ev : Rest.Event) : bool :=
  match ev with
  | Rest.Info (Rest.ResponseJson _) | Rest.Info (Rest.ResponseText _) => true
  | _ => false
  end.

(** The log line that shows the expected value. *)
Definition is_expected_log (ev : Rest.Event) : bool :=
  match ev with
  | Rest.Error (Rest.Expected _) => true
  | _ => false
  end.


(** What the plugin asks of the remote host: everything but its own log
    lines. *)
Definition changes_remote (ev : CopyFilesSsh.Event) : bool :=
  match ev with
  | CopyFilesSsh.Put _ _ | CopyFilesSsh.Mkdir _ => true
  | _ => false
  end.

Definition is_Get (ev : CopyFilesSsh.Event) : bool :=
  match ev with CopyFilesSsh.Get _ _ => true | _ => false end.

Definition changes_local (ev : CopyFilesSsh.Event) : bool :=
  match ev with
  | CopyFilesSsh.Get _ _ | CopyFilesSsh.LocalMkdir _ => true
  | _ => false
  end.

(** A step that opens no file. *)
Definition opens_nothing {A} (m : Exec unit Rest.Handle A) : Prop := forall s, events (m s) = [].

Section AugmentationSummaries.
Import Rest.
Context {paths : Pathlib} {printers : Printers} {fs : FileSystem}.

Local Abbreviation Aug := (Exec unit Handle).

(** The checks that follow the opening of the files. *)
Definition after_files (call : RawRestCall) (project : Path)
    (base path_ url_ : string) (method_ : Method)
    (files_ : option (Dict FileEntry)) : Aug RestCall :=
  multipart_ <- augment_multipart call ;;
  timeout_ <- augment_timeout call ;;
  headers_ <- augment_headers call ;;
  verify_ <- require_bool (raw_verify call) "Verify must be a boolean." ;;
  cert_ <- augment_cert project call ;;
  response_type_ <- augment_response_type call ;;
  assertion_ <- augment_assertion call ;;
  hide_logs_ <- require_bool (raw_hide_logs call) "Hide logs must be a boolean." ;;
  status_codes_ <- augment_status_codes call ;;
  ret {| base_url := base; path := path_; url := url_; method := method_;
         data := match raw_data call with PNone => None | d => Some d end;
         files := files_; multipart := multipart_; timeout := timeout_;
         headers := headers_; verify := verify_; cert := cert_;
         response_type := response_type_; assertion := assertion_;
         hide_logs := hide_logs_; status_codes := status_codes_ |}.


End AugmentationSummaries.

(** ** Remote directory trees

    A directory as [sftp.listdir_attr] shows it, level by level: the
    entries of a listing, each a file or a directory with its own
    entries. *)

Inductive RemoteEntry : Type :=
| RemoteFile (name : string) (mode : Z)
| RemoteDir (name : string) (mode : Z) (entries : list RemoteEntry).

Definition attributes (t : RemoteEntry) : CopyFilesSsh.SFTPAttributes :=
  match t with
  | RemoteFile n m => {| CopyFilesSsh.filename := n; CopyFilesSsh.st_mode := m |}
  | RemoteDir n m _ => {| CopyFilesSsh.filename := n; CopyFilesSsh.st_mode := m |}
  end.

(** Number of nested directory levels below a listing. *)
Fixpoint levels (t : RemoteEntry) : nat :=
  match t with
  | RemoteFile _ _ => 0
  | RemoteDir _ _ entries => S (fold_right (fun e n => Nat.max (levels e) n) 0%nat entries)
  end.

Definition levels_of (entries : list RemoteEntry) : nat :=
  fold_right (fun e n => Nat.max (levels e) n) 0%nat entries.

Section RemoteTrees.
Context {paths : Pathlib} {paramiko : CopyFilesSsh.Paramiko}.

(** The remote host shows [entries] under [remote], whenever it is asked:
    the listing of [remote] is that of [entries], the mode of a file is
    not that of a directory, the mode of a directory is, and the host
    shows the entries of each directory under its path. *)
Fixpoint shows (remote : Path) (t : RemoteEntry) {struct t} : Prop :=
  match t with
  | RemoteFile n m => CopyFilesSsh.S_ISDIR m = false
  | RemoteDir n m entries =>
      CopyFilesSsh.S_ISDIR m = true
      /\ (forall w, fst (CopyFilesSsh.sftp_listdir_attr
                           (as_posix (joinpath remote (Path_of n))) w)
                    = inr (map attributes entries))
      /\ (fix all (l : list RemoteEntry) : Prop :=
            match l with
            | [] => True
            | e :: r => shows (joinpath remote (Path_of n)) e /\ all r
            end) entries
  end.

Definition shows_all (remote : Path) (entries : list RemoteEntry) : Prop :=
  (forall w, fst (CopyFilesSsh.sftp_listdir_attr (as_posix remote) w)
             = inr (map attributes entries))
  /\ Forall (shows remote) entries.

(** The transfers that mirror [entries] from [remote] to [local]: one
    [sftp.get] per file, depth first, in the order of the listings. *)
Fixpoint mirror_gets (remote local : Path) (t : RemoteEntry) {struct t}
    : list CopyFilesSsh.Event :=
  match t with
  | RemoteFile n _ =>
      [CopyFilesSsh.Get (as_posix (joinpath remote (Path_of n)))
                        (as_posix (joinpath local (Path_of n)))]
  | RemoteDir n _ entries =>
      flat_map (mirror_gets (joinpath remote (Path_of n)) (joinpath local (Path_of n)))
               entries
  end.

(** The local directories made while mirroring, in the order they are made. *)
Fixpoint mirror_mkdirs (local : Path) (t : RemoteEntry) {struct t}
    : list CopyFilesSsh.Event :=
  match t with
  | RemoteFile _ _ => []
  | RemoteDir n _ entries =>
      CopyFilesSsh.LocalMkdir (as_posix (joinpath local (Path_of n)))
      :: flat_map (mirror_mkdirs (joinpath local (Path_of n))) entries
  end.

Definition is_LocalMkdir (ev : CopyFilesSsh.Event) : bool :=
  match ev with CopyFilesSsh.LocalMkdir _ => true | _ => false end.

(** What a run of the download leaves in the trace. *)
Definition mirrored (r : (PyExn + unit) * CopyFilesSsh.World * list CopyFilesSsh.Event)
    (gets mkdirs : list CopyFilesSsh.Event) : Prop :=
  outcome r = inr tt
  /\ filter is_Get (events r) = gets
  /\ filter is_LocalMkdir (events r) = mkdirs
  /\ existsb changes_remote (events r) = false.

(** The transfer of the listed file [item] from [remote] to [local]. *)
Definition get_of (remote local : Path) (item : CopyFilesSsh.SFTPAttributes) : CopyFilesSsh.Event :=
  CopyFilesSsh.Get (as_posix (joinpath remote (Path_of (CopyFilesSsh.filename item))))
      (as_posix (joinpath local (Path_of (CopyFilesSsh.filename item)))).


End RemoteTrees.

(** * The unused [upload_directory] *)

Module Upload.
Import CopyFilesSsh.

Inductive PrintMsg : Type :=
| LocalDirectoryNotFound (local : string)   (* f"Local directory '{local_path}' not found." *)
| ErrorUploading (e : PyExn).               (* f"Error uploading directory: {e}" *)

(** What [upload_directory] does: calls as in [CopyFilesSsh.Event], and
    lines printed. *)
Inductive Event : Type :=
| Lib (ev : CopyFilesSsh.Event)
| Print (msg : PrintMsg).

(** [p.iterdir()] and [p.is_file()] on the local file system. *)
Class LocalDirs {paths : Pathlib} {paramiko : Paramiko} : Type := {
  path_iterdir : Path -> World -> (PyExn + list Path) * World;
  path_is_file : Path -> World -> bool
}.

Section Model.
Context {paths : Pathlib} {paramiko : Paramiko} {dirs : LocalDirs}.

Local Abbreviation U := (Exec World Event).

(** A computation of the plugin, its events marked as library calls. *)
Definition lib {A} (m : Exec World CopyFilesSsh.Event A) : U A :=
  fun w => match m w with (r, w1, t) => (r, w1, map Lib t) end.

Definition iterdir (p : Path) : U (list Path) := fun w => (path_iterdir p w, []).

Definition is_file (p : Path) : U bool := fun w => (inr (path_is_file p w), w, []).

(** Lines 47-58, the body of the [try]; [nested] is the call of
    [upload_directory] itself. *)
Definition upload_entries (nested : Path -> Path -> U unit) (local remote : Path)
    : U unit :=
  try_except (lib (stat (as_posix remote)) ;; ret tt) is_FileNotFoundError
    (fun _ => lib (mkdir (as_posix remote))) ;;
  listing <- iterdir local ;;
  for_each listing (fun item =>
    f <- is_file item ;;
    if f then
      lib (put (as_posix item)
               (as_posix (joinpath remote (Path_of (path_name item)))))
    else
      d <- lib (is_dir item) ;;
      if d then nested (joinpath remote (Path_of (path_name item))) item
      else ret tt).

(** Lines 59-62, the two handlers. *)
Definition report (local : Path) (e : PyExn) : U unit :=
  if is_FileNotFoundError e
  then emit (Print (LocalDirectoryNotFound (as_posix local)))
  else emit (Print (ErrorUploading e)).

(** Lines 44-62. The [debug] call precedes the [try]; the handlers catch
    [FileNotFoundError] and every other [Exception]. [depth] is the number
    of nested calls the interpreter still allows. *)
Fixpoint upload_directory (depth : nat) (local remote : Path) : U unit :=
  match depth with
  | O => raise RecursionError
  | S depth' =>
      lib (emit (Debug ("Upload directory " ++ as_posix local ++ " to "
                          ++ as_posix remote)%string)) ;;
      try_except (upload_entries (upload_directory depth') local remote)
        (fun _ => true) (report local)
  end.

End Model.
End Upload.

(** * More concrete libraries, calls and hosts *)

Module Scenario.
Import Fixture.

(** A transport that cannot reach the server. *)
Definition offline : Rest.Requests :=
  {| Rest.request := fun _ _ _ => inl (LibraryError "ConnectionError") |}.

Definition text_response (code : Z) (body : string) : Rest.Response :=
  {| Rest.status_code := code; Rest.text := body; Rest.json := None |}.

Definition content_type : Dict PyVal := [("Content-Type", PStr "application/json")].

(** A configured call with one file and one multipart field. *)
Definition raw_call (method_ url_ timeout_ assertion_ : PyVal) : Rest.RawRestCall :=
  {| Rest.raw_base_url := PStr "http://localhost"; Rest.raw_path := PStr "/upload";
     Rest.raw_url := url_; Rest.raw_method := method_;
     Rest.raw_data := PNone;
     Rest.raw_files :=
       PDict [("file", PDict [("path", PStr "a.txt"); ("binary", PBool false);
                              ("media", PStr "text/plain")])];
     Rest.raw_multipart := PDict [("meta", PDict [("k", PInt 1)])];
     Rest.raw_timeout := timeout_;
     Rest.raw_headers := PDict content_type; Rest.raw_verify := PBool false;
     Rest.raw_cert := PNone; Rest.raw_response_type := PStr "JSON";
     Rest.raw_assertion := assertion_; Rest.raw_hide_logs := PBool true;
     Rest.raw_status_codes := PList [PInt 200; PBool true] |}.

Definition good_raw_call : Rest.RawRestCall :=
  raw_call (PStr "POST") PNone (PInt 0)
    (PDict [("value", PDict [("a", PInt 1)]); ("only_defined", PBool true)]).

(** A remote host without the probed directory: [stat] says not found;
    local paths are files. *)
Definition empty_host : CopyFilesSsh.Paramiko (paths := posix) :=
  {| CopyFilesSsh.World := unit;
     CopyFilesSsh.ssh_connect := fun _ _ _ w => (inr tt, w);
     CopyFilesSsh.ssh_close := fun w => w;
     CopyFilesSsh.ssh_open_sftp := fun w => (inr tt, w);
     CopyFilesSsh.sftp_close := fun w => w;
     CopyFilesSsh.sftp_stat := fun _ w => (inl FileNotFoundError, w);
     CopyFilesSsh.sftp_mkdir := fun _ w => (inr tt, w);
     CopyFilesSsh.sftp_listdir_attr := fun _ w => (inr [], w);
     CopyFilesSsh.sftp_put := fun _ _ w => (inr tt, w);
     CopyFilesSsh.sftp_get := fun _ _ w => (inr tt, w);
     CopyFilesSsh.path_is_dir := fun _ _ => false;
     CopyFilesSsh.path_mkdir := fun _ w => (inr tt, w);
     CopyFilesSsh.recursion_limit := 1000 |}.

(** A remote host that refuses to be probed. *)
Definition locked_host : CopyFilesSsh.Paramiko (paths := posix) :=
  {| CopyFilesSsh.World := unit;
     CopyFilesSsh.ssh_connect := fun _ _ _ w => (inr tt, w);
     CopyFilesSsh.ssh_close := fun w => w;
     CopyFilesSsh.ssh_open_sftp := fun w => (inr tt, w);
     CopyFilesSsh.sftp_close := fun w => w;
     CopyFilesSsh.sftp_stat := fun _ w => (inl (LibraryError "PermissionError"), w);
     CopyFilesSsh.sftp_mkdir := fun _ w => (inr tt, w);
     CopyFilesSsh.sftp_listdir_attr := fun _ w => (inr [], w);
     CopyFilesSsh.sftp_put := fun _ _ w => (inr tt, w);
     CopyFilesSsh.sftp_get := fun _ _ w => (inr tt, w);
     CopyFilesSsh.path_is_dir := fun _ _ => false;
     CopyFilesSsh.path_mkdir := fun _ w => (inr tt, w);
     CopyFilesSsh.recursion_limit := 1000 |}.

Definition file_attr (n : string) : CopyFilesSsh.SFTPAttributes :=
  {| CopyFilesSsh.filename := n; CopyFilesSsh.st_mode := 33188 |}.

(** The tree under [/srv/data]: a file, and a directory with one file. *)
Definition data_tree : list RemoteEntry :=
  [RemoteFile "a.txt" 33188; RemoteDir "sub" 16877 [RemoteFile "b.txt" 33188]].

(** A host that shows [data_tree] under [/srv/data], and three files
    under every other path; fetching a file fails when [refused] says so. *)
Definition host_refusing (refused : string -> bool)
    : CopyFilesSsh.Paramiko (paths := posix) :=
  {| CopyFilesSsh.World := unit;
     CopyFilesSsh.ssh_connect := fun _ _ _ w => (inr tt, w);
     CopyFilesSsh.ssh_close := fun w => w;
     CopyFilesSsh.ssh_open_sftp := fun w => (inr tt, w);
     CopyFilesSsh.sftp_close := fun w => w;
     CopyFilesSsh.sftp_stat := fun _ w => (inr 16877, w);
     CopyFilesSsh.sftp_mkdir := fun _ w => (inr tt, w);
     CopyFilesSsh.sftp_listdir_attr := fun p w =>
       if String.eqb p "/srv/data" then (inr (map attributes data_tree), w)
       else if String.eqb p "/srv/data/sub" then (inr [file_attr "b.txt"], w)
       else (inr [file_attr "a.txt"; file_attr "b.txt"; file_attr "c.txt"], w);
     CopyFilesSsh.sftp_put := fun _ _ w => (inr tt, w);
     CopyFilesSsh.sftp_get := fun r _ w =>
       if refused r then (inl (LibraryError "IOError"), w) else (inr tt, w);
     CopyFilesSsh.path_is_dir := fun _ _ => false;
     CopyFilesSsh.path_mkdir := fun _ w => (inr tt, w);
     CopyFilesSsh.recursion_limit := 1000 |}.

Definition data_host : CopyFilesSsh.Paramiko (paths := posix) :=
  host_refusing (fun _ => false).

(** The same host, where [b.txt] cannot be fetched from [/srv/in]. *)
Definition flaky_host : CopyFilesSsh.Paramiko (paths := posix) :=
  host_refusing (fun r => String.eqb r "/srv/in/b.txt").

(** A local directory whose only entry is a sub-directory. *)
Definition nested_dirs : Upload.LocalDirs (paramiko := host_of_directories) :=
  {| Upload.path_iterdir := fun _ w => (inr [@Path_of posix "sub"], w);
     Upload.path_is_file := fun _ _ => false |}.

Definition download_call : CopyFilesSsh.CopyFilesSshCall (paths := posix) :=
  {| CopyFilesSsh.user := "tester"; CopyFilesSsh.password := "secret";
     CopyFilesSsh.host := "example.org";
     CopyFilesSsh.local_path := @Path_of posix "/project/in";
     CopyFilesSsh.remote_path := Some (@Path_of posix "/srv/data");
     CopyFilesSsh.download := true |}.

Definition raw_copy_call (remote : option string) : CopyFilesSsh.RawCopyFilesSshCall :=
  {| CopyFilesSsh.raw_user := "tester"; CopyFilesSsh.raw_password := "secret";
     CopyFilesSsh.raw_host := "example.org";
     CopyFilesSsh.raw_local_path := Some "out/report.txt";
     CopyFilesSsh.raw_remote_path := remote;
     CopyFilesSsh.raw_download := false |}.

End Scenario.

(** * Python values on examples *)

Example py_eq_dict_order :
  py_eq (PDict [("a", PInt 1); ("b", PInt 2)]) (PDict [("b", PInt 2); ("a", PInt 1)])
  = true.
Proof. reflexivity. Qed.

Example py_eq_dict_extra_key :
  py_eq (PDict [("a", PInt 1)]) (PDict [("a", PInt 1); ("b", PInt 2)]) = false.
Proof. reflexivity. Qed.

Example py_eq_list_order :
  py_eq (PList [PInt 1; PInt 2]) (PList [PInt 2; PInt 1]) = false.
Proof. reflexivity. Qed.

Example py_eq_nested :
  py_eq (PDict [("a", PList [PDict [("x", PStr "y")]; PNone])])
        (PDict [("a", PList [PDict [("x", PStr "y")]; PNone])]) = true.
Proof. reflexivity. Qed.

Example py_eq_bool_int : py_eq (PBool true) (PInt 1) = true.
Proof. reflexivity. Qed.

Example py_eq_list_dict : py_eq (PList []) (PDict []) = false.
Proof. reflexivity. Qed.

Example dict_set_keeps_position :
  dict_set "a" 3 [("a", 1); ("b", 2)] = [("a", 3); ("b", 2)]
  /\ dict_set "c" 3 [("a", 1); ("b", 2)] = [("a", 1); ("b", 2); ("c", 3)].
Proof. split; reflexivity. Qed.

(** * Facts about the REST plugin *)

Section RestFacts.
Import Rest.
Context {paths : Pathlib} {printers : Printers} {requests : Requests}.

Local Abbreviation M := (Exec RestCall Rest.Event).

(** ** What execution does to the call *)

Lemma set_files_same (c : RestCall) : set_files (files c) c = c.
Proof. destruct c; reflexivity. Qed.

Lemma for_each_files_setitem (mp : Dict FileEntry) :
  forall (f : Dict FileEntry) (c : RestCall),
    files c = Some f ->
    for_each mp files_setitem c
    = (inr tt,
       set_files (Some (fold_left (fun f kv => dict_set (fst kv) (snd kv) f) mp f)) c,
       []).
Proof.
  induction mp as [|kv mp IH]; intros f c Hf; simpl.
  - unfold ret. rewrite <- Hf, set_files_same. reflexivity.
  - unfold bind at 1. unfold files_setitem at 1, modify. rewrite Hf.
    rewrite (IH (dict_set (fst kv) (snd kv) f)) by reflexivity.
    reflexivity.
Qed.

Lemma merge_multipart_run (c : RestCall) :
  merge_multipart c = (inr tt, merged c, []).
Proof.
  unfold merge_multipart, merged, merged_files, bind, get.
  destruct (multipart c) as [mp|] eqn:Hmp.
  - destruct (dict_truthy mp) eqn:Ht.
    + destruct (files c) as [f|] eqn:Hf; unfold ret, modify.
      * rewrite (for_each_files_setitem mp (f := f)) by exact Hf.
        reflexivity.
      * rewrite (for_each_files_setitem mp (f := [])) by reflexivity.
        reflexivity.
    + unfold ret. rewrite set_files_same. reflexivity.
  - unfold ret. rewrite set_files_same. reflexivity.
Qed.

Lemma build_data_run (c : RestCall) :
  build_data c
  = if files_truthy (merged c) && negb (dict_mem "Content-Type" (headers c))
    then (inl (KeyError "Content-Type"), merged c, [])
    else (inr (data_of c), executed c, []).
Proof.
  unfold build_data, bind. rewrite merge_multipart_run.
  unfold get, executed, data_of.
  destruct (files_truthy (merged c)) eqn:Ht; simpl.
  - unfold del_header, bind, get. simpl.
    destruct (dict_mem "Content-Type" (headers c)); reflexivity.
  - destruct (data c); reflexivity.
Qed.

(** ** Computations that do not touch the call *)

Lemma keeps_ret {A} (a : A) : keeps_state (ret a : M A).
Proof. intro s; reflexivity. Qed.

Lemma keeps_raise {A} (e : PyExn) : keeps_state (raise e : M A).
Proof. intro s; reflexivity. Qed.

Lemma keeps_emit (ev : Rest.Event) : keeps_state (emit ev : M unit).
Proof. intro s; reflexivity. Qed.

Lemma keeps_lift {A} (r : PyExn + A) : keeps_state (lift r : M A).
Proof. intro s; reflexivity. Qed.

Lemma keeps_get : keeps_state (get : M RestCall).
Proof. intro s; reflexivity. Qed.

Lemma keeps_assert (b : bool) (msg : AssertMsg) : keeps_state (py_assert b msg : M unit).
Proof. intro s; destruct b; reflexivity. Qed.

Lemma keeps_bind {A B} (m : M A) (f : A -> M B) :
  keeps_state m -> (forall a, keeps_state (f a)) -> keeps_state (bind m f).
Proof.
  intros Hm Hf s. unfold bind.
  specialize (Hm s). destruct (m s) as [[[e|a] s1] t1]; simpl in *; subst s1.
  - reflexivity.
  - specialize (Hf a s). destruct (f a s) as [[r s2] t2]; simpl in *. exact Hf.
Qed.

Lemma keeps_try_except {A} (m : M A) (caught : PyExn -> bool) (h : PyExn -> M A) :
  keeps_state m -> (forall e, keeps_state (h e)) -> keeps_state (try_except m caught h).
Proof.
  intros Hm Hh s. unfold try_except.
  specialize (Hm s). destruct (m s) as [[[e|a] s1] t1]; simpl in *; subst s1.
  - destruct (caught e); [|reflexivity].
    specialize (Hh e s). destruct (h e s) as [[r s2] t2]; simpl in *. exact Hh.
  - reflexivity.
Qed.

Lemma keeps_for_each {A} (xs : list A) (body : A -> M unit) :
  (forall x, keeps_state (body x)) -> keeps_state (for_each xs body).
Proof.
  intros Hb. induction xs as [|x xs IH]; simpl.
  - apply keeps_ret.
  - apply keeps_bind; [apply Hb | intros _; exact IH].
Qed.

Lemma keeps_getitem (d : Dict PyVal) (k : string) : keeps_state (getitem d k).
Proof. intro s; unfold getitem; destruct (dict_get k d); reflexivity. Qed.

Lemma keeps_response_json (r : Response) : keeps_state (response_json r).
Proof. intro s; unfold response_json; destruct (json r); reflexivity. Qed.

Create HintDb keeps.
Hint Resolve keeps_ret keeps_raise keeps_emit keeps_lift keeps_get
  keeps_assert keeps_getitem keeps_response_json : keeps.

Ltac keeps :=
  repeat first
    [ apply keeps_bind; [|intro]
    | apply keeps_try_except; [|intro]
    | apply keeps_for_each; intro
    | solve [auto with keeps]
    | match goal with
      | |- keeps_state (match ?x with _ => _ end) => destruct x
      | |- keeps_state (if ?x then _ else _) => destruct x
      end ].

Lemma keeps_dispatch (d : Dict DataVal) : keeps_state (dispatch d).
Proof. unfold dispatch. keeps. Qed.

Lemma keeps_check_key (body : Dict PyVal) (kv : string * PyVal) :
  keeps_state (check_key body kv).
Proof. unfold check_key. keeps. Qed.

Lemma keeps_check_body (a : Assertion) (r : Response) : keeps_state (check_body a r).
Proof. unfold check_body. destruct (value a); keeps. Qed.

Lemma keeps_check_response (r : Response) : keeps_state (check_response r).
Proof. unfold check_response. keeps; apply keeps_check_body. Qed.

Lemma keeps_log_expected (e : PyExn) : keeps_state (log_expected e).
Proof. unfold log_expected. keeps. Qed.

Lemma final_build_data (c : RestCall) : final (build_data c) = executed c.
Proof.
  rewrite build_data_run. unfold executed.
  destruct (files_truthy (merged c)), (dict_mem "Content-Type" (headers c));
    reflexivity.
Qed.

Lemma final_exchange (c : RestCall) : final (exchange c) = executed c.
Proof.
  unfold exchange, bind.
  pose proof (final_build_data c) as Hb.
  destruct (build_data c) as [[[e|d] s1] t1]; unfold final in *; simpl in *.
  - exact Hb.
  - pose proof (keeps_dispatch d s1) as Hd.
    destruct (dispatch d s1) as [[r s2] t2]; simpl in *. congruence.
Qed.

Lemma final_assert_response (c : RestCall) : final (assert_response c) = executed c.
Proof.
  unfold assert_response, bind.
  pose proof (final_exchange c) as Hx.
  destruct (exchange c) as [[[e|r] s1] t1]; unfold final in *; simpl in *.
  - exact Hx.
  - pose proof (keeps_check_response r s1) as Hc.
    destruct (check_response r s1) as [[r2 s2] t2]; simpl in *. congruence.
Qed.

Lemma final_make_rest_call (c : RestCall) : final (make_rest_call c) = executed c.
Proof.
  unfold make_rest_call, try_except.
  pose proof (final_assert_response c) as Ha.
  destruct (assert_response c) as [[[e|a] s1] t1]; unfold final in *; simpl in *.
  - destruct (is_AssertionError e); [|exact Ha].
    pose proof (keeps_log_expected e s1) as Hl.
    destruct (log_expected e s1) as [[r2 s2] t2]; simpl in *. congruence.
  - exact Ha.
Qed.

(** ** The call is mutated by execution *)

Lemma dict_remove_absent {V} (k : string) (d : Dict V) :
  dict_mem k d = false -> dict_remove k d = d.
Proof.
  unfold dict_mem. induction d as [|[k' v] d IH]; simpl; [reflexivity|].
  destruct (String.eqb k k'); [discriminate|].
  intros Hd. rewrite IH by exact Hd. reflexivity.
Qed.

Lemma dict_get_remove {V} (k : string) (d : Dict V) :
  dict_get k (dict_remove k d) = None.
Proof.
  induction d as [|[k' v] d IH]; simpl; [reflexivity|].
  destruct (String.eqb k k') eqn:E; [exact IH|].
  simpl. rewrite E. exact IH.
Qed.

Lemma headers_executed (c : RestCall) :
  headers (executed c)
  = if files_truthy (merged c)
    then dict_remove "Content-Type" (headers c)
    else headers c.
Proof.
  unfold executed.
  destruct (files_truthy (merged c)); simpl; [|reflexivity].
  destruct (dict_mem "Content-Type" (headers c)) eqn:Hm; simpl.
  - reflexivity.
  - symmetry. apply dict_remove_absent. exact Hm.
Qed.

(** C9, as amended. Execution rewrites two fields of the call and no
    other: [files] receives the multipart entries (and is created when
    absent) whenever [multipart] is non-empty, and [headers] loses its
    [Content-Type] entry whenever [files] is then non-empty. [multipart]
    and every other field are as augmentation left them. *)
Theorem execute_rewrites_files_and_headers_only (c : RestCall) :
  let c' := final (make_rest_call c) in
  files c' = merged_files c
  /\ headers c' = (if files_truthy (merged c)
                   then dict_remove "Content-Type" (headers c)
                   else headers c)
  /\ multipart c' = multipart c
  /\ base_url c' = base_url c /\ path c' = path c /\ url c' = url c
  /\ method c' = method c /\ data c' = data c /\ timeout c' = timeout c
  /\ verify c' = verify c /\ cert c' = cert c
  /\ response_type c' = response_type c /\ assertion c' = assertion c
  /\ hide_logs c' = hide_logs c /\ status_codes c' = status_codes c.
Proof.
  intros c'. subst c'. rewrite final_make_rest_call.
  split; [|split; [apply headers_executed|]];
    unfold executed;
    destruct (files_truthy (merged c) && dict_mem "Content-Type" (headers c));
    simpl; repeat split; reflexivity.
Qed.

(** ** The request *)

Lemma method_executed (c : RestCall) : method (executed c) = method c.
Proof.
  unfold executed.
  destruct (files_truthy (merged c) && dict_mem "Content-Type" (headers c));
    reflexivity.
Qed.

Lemma url_executed (c : RestCall) : url (executed c) = url c.
Proof.
  unfold executed.
  destruct (files_truthy (merged c) && dict_mem "Content-Type" (headers c));
    reflexivity.
Qed.

Lemma exchange_run (c : RestCall) :
  exchange c
  = if files_truthy (merged c) && negb (dict_mem "Content-Type" (headers c))
    then (inl (KeyError "Content-Type"), merged c, [])
    else
      match bind_kwargs [("timeout", KwTimeout 10)] (star_kwargs c) with
      | inl e => (inl e, executed c, [Info (MakeCall (method c) (url c))])
      | inr kwargs =>
          (request (method c) (url c) kwargs, executed c,
           [Info (MakeCall (method c) (url c)); Sent (method c) (url c) kwargs])
      end.
Proof.
  unfold exchange, bind at 1. rewrite build_data_run.
  destruct (files_truthy (merged c) && negb (dict_mem "Content-Type" (headers c)));
    [reflexivity|].
  unfold dispatch, bind, get, emit, lift, star_kwargs.
  rewrite method_executed, url_executed.
  destruct (bind_kwargs _ _); reflexivity.
Qed.

Lemma timeout_in_data (c : RestCall) :
  timeout c <> 0 ->
  bind_kwargs [("timeout", KwTimeout 10)] (star_kwargs c)
  = inl (TypeError "got multiple values for keyword argument 'timeout'").
Proof.
  intros Ht. apply Z.eqb_neq in Ht.
  unfold star_kwargs, data_of. rewrite Ht. simpl.
  destruct (files_truthy (merged c)); [reflexivity|].
  destruct (data c); reflexivity.
Qed.

Lemma no_timeout_in_data (c : RestCall) :
  timeout c = 0 ->
  bind_kwargs [("timeout", KwTimeout 10)] (star_kwargs c)
  = inr (("timeout", KwTimeout 10) :: star_kwargs c).
Proof.
  intros Ht. unfold star_kwargs, data_of. rewrite Ht. simpl.
  destruct (files_truthy (merged c)); [reflexivity|].
  destruct (data c); reflexivity.
Qed.

(** A call whose timeout is not [0] is never sent: binding the keyword
    arguments fails (unless the headers already made it fail). *)
Lemma nonzero_timeout_never_sent (c : RestCall) :
  timeout c <> 0 ->
  (outcome (exchange c) = inl (KeyError "Content-Type")
   \/ outcome (exchange c)
      = inl (TypeError "got multiple values for keyword argument 'timeout'"))
  /\ existsb is_Sent (events (exchange c)) = false.
Proof.
  intros Ht. rewrite exchange_run.
  destruct (files_truthy (merged c) && negb (dict_mem "Content-Type" (headers c))).
  - split; [left|]; reflexivity.
  - rewrite (timeout_in_data c Ht). split; [right|]; reflexivity.
Qed.

(** With timeout [0] the request goes out with [timeout=10]. *)
Lemma zero_timeout_sends_ten (c : RestCall) :
  timeout c = 0 ->
  forall ev, In ev (events (exchange c)) -> is_Sent ev = true ->
  exists m u kwargs, ev = Sent m u kwargs
                     /\ dict_get "timeout" kwargs = Some (KwTimeout 10).
Proof.
  intros Ht ev Hin Hs. rewrite exchange_run in Hin.
  destruct (files_truthy (merged c) && negb (dict_mem "Content-Type" (headers c)));
    [contradiction|].
  rewrite (no_timeout_in_data c Ht) in Hin. simpl in Hin.
  destruct Hin as [<-|[<-|[]]]; [discriminate|].
  eexists _, _, _. split; reflexivity.
Qed.

(** Whatever is sent for a call with attachments has no [Content-Type]
    among its headers. *)
Lemma attachments_sent_without_content_type (c : RestCall) :
  files_truthy (merged c) = true ->
  existsb carries_content_type (events (exchange c)) = false.
Proof.
  intros Hf. rewrite exchange_run, Hf.
  destruct (dict_mem "Content-Type" (headers c)) eqn:Hm; simpl; [|reflexivity].
  assert (Hh : forall kw,
             dict_get "headers" (("timeout", KwTimeout 10) :: star_kwargs c) = Some kw ->
             kw = KwHeaders (dict_remove "Content-Type" (headers c))).
  { intros kw. unfold star_kwargs, data_of. rewrite Hf.
    pose proof (headers_executed c) as He. rewrite Hf in He.
    destruct (negb (timeout c =? 0)); simpl; rewrite He; congruence. }
  destruct (bind_kwargs _ _) as [e|kwargs] eqn:Hb; simpl; [reflexivity|].
  unfold bind_kwargs in Hb.
  destruct (find _ _); [discriminate|]. injection Hb as <-.
  destruct (dict_get "headers" _) as [kw|] eqn:Hk; [|reflexivity].
  rewrite (Hh kw eq_refl). unfold dict_mem. rewrite dict_get_remove. reflexivity.
Qed.

(** ** Checking the response *)

Lemma assertion_executed (c : RestCall) : assertion (executed c) = assertion c.
Proof.
  unfold executed.
  destruct (files_truthy (merged c) && dict_mem "Content-Type" (headers c));
    reflexivity.
Qed.

Lemma status_codes_executed (c : RestCall) :
  status_codes (executed c) = status_codes c.
Proof.
  unfold executed.
  destruct (files_truthy (merged c) && dict_mem "Content-Type" (headers c));
    reflexivity.
Qed.

Lemma response_type_executed (c : RestCall) :
  response_type (executed c) = response_type c.
Proof.
  unfold executed.
  destruct (files_truthy (merged c) && dict_mem "Content-Type" (headers c));
    reflexivity.
Qed.

Lemma assert_response_after_exchange (c : RestCall) (response : Response) :
  outcome (exchange c) = inr response ->
  outcome (assert_response c) = outcome (check_response response (executed c)).
Proof.
  intros Hx. unfold assert_response, bind.
  pose proof (final_exchange c) as Hf.
  destruct (exchange c) as [[[e|r] s1] t1]; unfold outcome, final in *;
    simpl in *; [discriminate|].
  injection Hx as ->. subst s1.
  destruct (check_response response (executed c)) as [[r2 s2] t2]. reflexivity.
Qed.

Lemma assert_response_exchange_failed (c : RestCall) (e : PyExn) :
  outcome (exchange c) = inl e -> outcome (assert_response c) = inl e.
Proof.
  intros Hx. unfold assert_response, bind.
  destruct (exchange c) as [[[e'|r] s1] t1]; unfold outcome in *; simpl in *;
    [congruence|discriminate].
Qed.

Lemma check_response_outcome (response : Response) (s : RestCall) :
  outcome (check_response response s)
  = if existsb (Z.eqb (status_code response)) (status_codes s)
    then match assertion s with
         | Some a => outcome (check_body a response s)
         | None => inr tt
         end
    else inl (AssertionError NoMessage).
Proof.
  unfold check_response, bind, get, emit, outcome.
  destruct (hide_logs s); [|destruct (json response)]; simpl;
    (destruct (existsb _ _); simpl; [|reflexivity]);
    (destruct (assertion s) as [a|]; simpl; [|reflexivity]);
    destruct (check_body a response s) as [[r2 s2] t2]; reflexivity.
Qed.

Lemma check_key_run (body : Dict PyVal) (kv : string * PyVal) (s : RestCall) :
  check_key body kv s
  = match dict_get (fst kv) body with
    | Some w =>
        if py_eq w (snd kv) then (inr tt, s, [])
        else (inl (AssertionError (KeyNotEqual (fst kv) (snd kv) w)), s, [])
    | None => (inl (AssertionError (KeyNotFound (fst kv))), s, [])
    end.
Proof.
  unfold check_key, try_except, bind, getitem.
  destruct (dict_get (fst kv) body) as [w|]; simpl; [|reflexivity].
  destruct (py_eq w (snd kv)); reflexivity.
Qed.

Lemma check_key_pass (body : Dict PyVal) (kv : string * PyVal) (s : RestCall) :
  key_matches body kv -> check_key body kv s = (inr tt, s, []).
Proof.
  intros [w [Hg He]]. rewrite check_key_run, Hg, He. reflexivity.
Qed.

Lemma check_key_passed (body : Dict PyVal) (kv : string * PyVal) (s : RestCall) :
  outcome (check_key body kv s) = inr tt -> key_matches body kv.
Proof.
  rewrite check_key_run. unfold key_matches.
  destruct (dict_get (fst kv) body) as [w|]; [|discriminate].
  destruct (py_eq w (snd kv)) eqn:He; [|discriminate].
  intros _. exists w. split; [reflexivity|exact He].
Qed.

Lemma check_keys_skip (body : Dict PyVal) (pre rest : Dict PyVal) (s : RestCall) :
  (forall kv, In kv pre -> key_matches body kv) ->
  for_each (pre ++ rest) (check_key body) s = for_each rest (check_key body) s.
Proof.
  induction pre as [|kv pre IH]; intros Hpre; simpl; [reflexivity|].
  unfold bind. rewrite (check_key_pass s (Hpre kv (or_introl eq_refl))).
  rewrite IH by (intros kv' Hin; apply Hpre; right; exact Hin).
  destruct (for_each rest (check_key body) s) as [[r s2] t2]. reflexivity.
Qed.

Lemma check_keys_pass_iff (body expected : Dict PyVal) (s : RestCall) :
  outcome (for_each expected (check_key body) s) = inr tt
  <-> (forall kv, In kv expected -> key_matches body kv).
Proof.
  split.
  - induction expected as [|kv expected IH]; simpl; [intros _ ? []|].
    unfold bind. intros Hrun kv' [<-|Hin].
    + apply (check_key_passed body kv s).
      destruct (check_key body kv s) as [[[e|u] s1] t1]; [exact Hrun|].
      destruct u. reflexivity.
    + apply IH; [|exact Hin].
      rewrite check_key_run in Hrun.
      destruct (dict_get (fst kv) body) as [w|]; [|discriminate].
      destruct (py_eq w (snd kv)); [|discriminate].
      destruct (for_each expected (check_key body) s) as [[r s2] t2].
      exact Hrun.
  - intros Hall. rewrite <- (app_nil_r expected).
    rewrite check_keys_skip by exact Hall. reflexivity.
Qed.

Lemma check_keys_first_failure (body pre post : Dict PyVal) (kv : string * PyVal)
    (s : RestCall) :
  (forall kv', In kv' pre -> key_matches body kv') ->
  outcome (for_each (pre ++ kv :: post) (check_key body) s)
  = match dict_get (fst kv) body with
    | Some w =>
        if py_eq w (snd kv)
        then outcome (for_each post (check_key body) s)
        else inl (AssertionError (KeyNotEqual (fst kv) (snd kv) w))
    | None => inl (AssertionError (KeyNotFound (fst kv)))
    end.
Proof.
  intros Hpre. rewrite check_keys_skip by exact Hpre. simpl.
  unfold bind. rewrite check_key_run.
  destruct (dict_get (fst kv) body) as [w|]; [|reflexivity].
  destruct (py_eq w (snd kv)); [|reflexivity].
  destruct (for_each post (check_key body) s) as [[r s2] t2]. reflexivity.
Qed.

(** What [make_rest_call] returns, from what [assert_response] returns. *)
Lemma make_rest_call_outcome (c : RestCall) :
  outcome (make_rest_call c)
  = match outcome (assert_response c) with
    | inr u => inr u
    | inl e =>
        if is_AssertionError e then
          match assertion c with
          | None => inr tt
          | Some a =>
              match response_type c with
              | XML =>
                  match pretty_xml (py_str (assertion_dict a)) with
                  | inl parse_error => inl parse_error
                  | inr _ => inl e
                  end
              | _ => inl e
              end
          end
        else inl e
    end.
Proof.
  unfold make_rest_call, try_except.
  pose proof (final_assert_response c) as Hf.
  destruct (assert_response c) as [[[e|u] s1] t1]; unfold outcome, final in *;
    simpl in *; [|reflexivity].
  subst s1. destruct (is_AssertionError e); [|reflexivity].
  unfold log_expected, bind, get.
  rewrite assertion_executed, response_type_executed.
  destruct (assertion c) as [a|]; [|reflexivity].
  destruct (response_type c); simpl; try reflexivity.
  unfold lift. destruct (pretty_xml _); reflexivity.
Qed.

Lemma status_accepted (response : Response) (codes : list Z) :
  In (status_code response) codes ->
  existsb (Z.eqb (status_code response)) codes = true.
Proof.
  intros Hin. apply existsb_exists. exists (status_code response).
  split; [exact Hin|apply Z.eqb_refl].
Qed.

Lemma only_defined_outcome (c : RestCall) (response : Response) (a : Assertion)
    (expected body : Dict PyVal) :
  outcome (exchange c) = inr response ->
  In (status_code response) (status_codes c) ->
  assertion c = Some a -> value a = PDict expected -> only_defined a = true ->
  json response = Some (PDict body) ->
  outcome (assert_response c)
  = outcome (for_each expected (check_key body) (executed c)).
Proof.
  intros Hx Hst Ha Hv Ho Hb.
  rewrite (assert_response_after_exchange c Hx), check_response_outcome.
  rewrite status_codes_executed, (status_accepted response _ Hst).
  rewrite assertion_executed, Ha.
  unfold check_body. rewrite Hv, Ho.
  unfold bind, response_json. rewrite Hb. simpl.
  destruct (for_each expected (check_key body) (executed c)) as [[r s2] t2].
  reflexivity.
Qed.

(** C6. With a mapping as expected value and [only_defined] set, a call
    whose request was answered with an accepted status and a body that
    parses as a mapping passes exactly when every declared key is in the
    body with an equal value, whatever else the body holds. Otherwise
    the first declared key that is absent raises an assertion error
    naming it as not found, and the first declared key whose value
    differs raises an assertion error naming it with both values. *)
Theorem only_defined_checks_declared_keys
    (c : RestCall) (response : Response) (a : Assertion)
    (expected body : Dict PyVal) :
  outcome (exchange c) = inr response ->
  In (status_code response) (status_codes c) ->
  assertion c = Some a -> value a = PDict expected -> only_defined a = true ->
  json response = Some (PDict body) ->
  (outcome (assert_response c) = inr tt
   <-> forall k v, In (k, v) expected ->
                   exists w, dict_get k body = Some w /\ py_eq w v = true)
  /\ (forall pre k v post,
        expected = pre ++ (k, v) :: post ->
        (forall k' v', In (k', v') pre ->
                       exists w, dict_get k' body = Some w /\ py_eq w v' = true) ->
        (dict_get k body = None ->
         outcome (assert_response c) = inl (AssertionError (KeyNotFound k)))
        /\ (forall w, dict_get k body = Some w -> py_eq w v = false ->
                      outcome (assert_response c)
                      = inl (AssertionError (KeyNotEqual k v w)))).
Proof.
  intros Hx Hst Ha Hv Ho Hb.
  rewrite (only_defined_outcome c Hx Hst Ha Hv Ho Hb).
  split.
  - rewrite check_keys_pass_iff. unfold key_matches.
    split; intros Hall.
    + intros k v Hin. exact (Hall (k, v) Hin).
    + intros [k v] Hin. exact (Hall k v Hin).
  - intros pre k v post -> Hpre.
    assert (Hpre' : forall kv, In kv pre -> key_matches body kv).
    { intros [k' v'] Hin. exact (Hpre k' v' Hin). }
    rewrite check_keys_first_failure by exact Hpre'.
    simpl. split.
    + intros ->. reflexivity.
    + intros w -> ->. reflexivity.
Qed.

(** ** Failures and the handler of [make_rest_call] *)

(** Without a body assertion the handler returns normally. *)
Lemma failure_swallowed_without_assertion (c : RestCall) (msg : AssertMsg) :
  assertion c = None ->
  outcome (assert_response c) = inl (AssertionError msg) ->
  outcome (make_rest_call c) = inr tt.
Proof.
  intros Ha Hr. rewrite make_rest_call_outcome, Hr, Ha. reflexivity.
Qed.

(** With response type XML, an expected value that is not an XML
    document makes the handler raise the parser's error instead. *)
Lemma xml_diagnostic_replaces_failure (c : RestCall) (a : Assertion)
    (msg : AssertMsg) (parse_error : PyExn) :
  assertion c = Some a -> response_type c = XML ->
  parseString (py_str (assertion_dict a)) = inl parse_error ->
  outcome (assert_response c) = inl (AssertionError msg) ->
  outcome (make_rest_call c) = inl parse_error.
Proof.
  intros Ha Ht Hp Hr. rewrite make_rest_call_outcome, Hr, Ha, Ht.
  unfold pretty_xml. rewrite Hp. reflexivity.
Qed.

(** With a body assertion and response type JSON or TEXT the failure is
    raised again as it was. *)
Lemma failure_reraised (c : RestCall) (a : Assertion) (e : PyExn) :
  assertion c = Some a -> response_type c <> XML ->
  outcome (assert_response c) = inl e ->
  outcome (make_rest_call c) = inl e.
Proof.
  intros Ha Ht Hr. rewrite make_rest_call_outcome, Hr, Ha.
  destruct (is_AssertionError e); [|reflexivity].
  destruct (response_type c); congruence.
Qed.

(** ** Full comparison *)

(** A mapping without [only_defined], and a sequence, are compared with
    [call["assertion"]], the dict that holds [value] and [only_defined]. *)
Lemma full_comparison_outcome (c : RestCall) (response : Response)
    (a : Assertion) (rj : PyVal) :
  outcome (exchange c) = inr response ->
  In (status_code response) (status_codes c) ->
  assertion c = Some a ->
  ((exists m, value a = PDict m) /\ only_defined a = false
   \/ exists l, value a = PList l) ->
  json response = Some rj ->
  outcome (assert_response c)
  = if py_eq rj (assertion_dict a) then inr tt else inl (AssertionError NoMessage).
Proof.
  intros Hx Hst Ha Hv Hb.
  rewrite (assert_response_after_exchange c Hx), check_response_outcome.
  rewrite status_codes_executed, (status_accepted response _ Hst).
  rewrite assertion_executed, Ha.
  unfold check_body, bind, response_json, outcome.
  destruct Hv as [[[m Hm] Ho]|[l Hl]].
  - rewrite Hm, Ho, Hb. simpl. destruct (py_eq rj (assertion_dict a)); reflexivity.
  - rewrite Hl, Hb. simpl. destruct (py_eq rj (assertion_dict a)); reflexivity.
Qed.

End RestFacts.

(** ** Augmentation of a REST call *)

Section AugmentFacts.
Import Rest.
Context {paths : Pathlib} {printers : Printers} {fs : FileSystem}.

Local Abbreviation Aug := (Exec unit Handle).

Lemma bind_returns {A B} (m : Aug A) (f : A -> Aug B) (s : unit) (b : B) :
  outcome (bind m f s) = inr b ->
  exists a s1, outcome (m s) = inr a /\ outcome (f a s1) = inr b.
Proof.
  unfold bind, outcome.
  destruct (m s) as [[[e|a] s1] t1]; simpl; [discriminate|].
  intros Hf. exists a, s1. split; [reflexivity|].
  destruct (f a s1) as [[r s2] t2]. exact Hf.
Qed.

(** Lines 445-465 on an assertion whose value is a list. *)
Lemma augment_assertion_sequence (call : RawRestCall) (d : Dict PyVal)
    (l : list PyVal) (s : unit) :
  raw_assertion call = PDict d ->
  dict_get "value" d = Some (PList l) ->
  outcome (augment_assertion call s)
  = match dict_get "only_defined" d with
    | None | Some PNone | Some (PBool _) =>
        inl (ValueError "Assertion must be a string or a dict.")
    | Some _ => inl (ValueError "Only defined must be a boolean.")
    end.
Proof.
  intros Ha Hv. unfold augment_assertion. rewrite Ha.
  unfold bind, outcome. rewrite Hv.
  destruct (dict_get "only_defined" d) as [[ | | | | | ]|]; reflexivity.
Qed.

(** C5, as amended. A call whose assertion value is a sequence is
    rejected by augmentation: [augment_rest_call] raises and yields no
    call, and the check of the assertion raises a [ValueError], which
    says that the assertion must be a string or a dict unless
    [only_defined] is itself ill-typed. *)
Theorem sequence_assertion_rejected (call : RawRestCall) (project : Path)
    (d : Dict PyVal) (l : list PyVal) :
  raw_assertion call = PDict d ->
  dict_get "value" d = Some (PList l) ->
  (exists e, outcome (augment_rest_call call project tt) = inl e)
  /\ (outcome (augment_assertion call tt)
      = inl (ValueError "Assertion must be a string or a dict.")
      \/ outcome (augment_assertion call tt)
         = inl (ValueError "Only defined must be a boolean.")).
Proof.
  intros Ha Hv. split.
  - destruct (outcome (augment_rest_call call project tt)) as [e|c] eqn:Hr;
      [exists e; reflexivity|exfalso].
    unfold augment_rest_call in Hr.
    repeat match type of Hr with
           | outcome (bind (augment_assertion _) _ _) = inr _ => fail 1
           | outcome (bind _ _ _) = inr _ =>
               apply bind_returns in Hr; destruct Hr as (? & ? & _ & Hr)
           end.
    apply bind_returns in Hr. destruct Hr as (a & s1 & Hr & _).
    rewrite (augment_assertion_sequence call _ Ha Hv) in Hr.
    destruct (dict_get "only_defined" d) as [[ | | | | | ]|]; discriminate.
  - rewrite (augment_assertion_sequence call tt Ha Hv).
    destruct (dict_get "only_defined" d) as [[ | | | | | ]|]; auto.
Qed.

End AugmentFacts.

(** * Facts about the copy-files-over-SSH plugin *)

Section CopyFilesSshFacts.
Import CopyFilesSsh.
Context {paths : Pathlib} {paramiko : Paramiko}.

Local Abbreviation M := (Exec World CopyFilesSsh.Event).

(** [try: body finally: client.close()] *)
Lemma finally_close_run (body : M unit) (w : World) :
  try_finally body client_close w
  = (outcome (body w), ssh_close (final (body w)), events (body w) ++ [Close]).
Proof.
  unfold try_finally, client_close, call_lib, bind, emit, outcome, final, events.
  destruct (body w) as [[r w1] t1]. reflexivity.
Qed.

Lemma run_with_ssh_client_run (user_ host_ password_ : string) (callable : M unit)
    (w : World) :
  let body := (client_connect host_ user_ password_ ;; callable) in
  run_with_ssh_client user_ host_ password_ callable w
  = (outcome (body w), ssh_close (final (body w)),
     Info ("Connect to " ++ user_ ++ "@" ++ host_)%string :: events (body w) ++ [Close]).
Proof.
  intros body. unfold run_with_ssh_client. unfold bind at 1, emit at 1.
  rewrite finally_close_run. reflexivity.
Qed.

Lemma connect_then_run (user_ host_ password_ : string) (callable : M unit)
    (w : World) :
  (client_connect host_ user_ password_ ;; callable) w
  = match ssh_connect host_ user_ password_ w with
    | (inl e, w1) => (inl e, w1, [Connect host_ user_ password_])
    | (inr _, w1) =>
        (outcome (callable w1), final (callable w1),
         Connect host_ user_ password_ :: events (callable w1))
    end.
Proof.
  unfold bind, client_connect, call_lib, bind, emit, outcome, final, events.
  destruct (ssh_connect host_ user_ password_ w) as [[e|u] w1]; simpl;
    [reflexivity|].
  destruct (callable w1) as [[r w2] t2]. reflexivity.
Qed.

(** C7. Whatever connecting and the callable do, [run_with_ssh_client]
    passes their outcome on to its caller and the last thing it does is
    to close the client: the trace is that of connecting and of the
    callable, followed by [Close]. In particular this holds when
    connecting raises, when the callable raises, and for the callable of
    [make_copy_files_ssh_call]. *)
Theorem session_closed_on_every_exit_path
    (user_ host_ password_ : string) (callable : M unit) (w : World) :
  let body := (client_connect host_ user_ password_ ;; callable) in
  let run := run_with_ssh_client user_ host_ password_ callable w in
  events run
  = Info ("Connect to " ++ user_ ++ "@" ++ host_)%string :: events (body w) ++ [Close]
  /\ outcome run = outcome (body w)
  /\ final run = ssh_close (final (body w))
  /\ (forall e, outcome (client_connect host_ user_ password_ w) = inl e ->
                outcome run = inl e
                /\ events run
                   = [Info ("Connect to " ++ user_ ++ "@" ++ host_)%string;
                      Connect host_ user_ password_; Close])
  /\ (forall call,
        exists before, events (make_copy_files_ssh_call call w) = before ++ [Close]).
Proof.
  intros body run. subst run body.
  rewrite run_with_ssh_client_run.
  do 3 (split; [reflexivity|]).
  split.
  - intros e. rewrite connect_then_run.
    unfold client_connect, call_lib, bind, emit, outcome, events.
    destruct (ssh_connect host_ user_ password_ w) as [[e'|u] w1]; simpl;
      [|discriminate].
    intros He. split; [exact He|reflexivity].
  - intros call. unfold make_copy_files_ssh_call.
    rewrite run_with_ssh_client_run.
    eexists (_ :: _). reflexivity.
Qed.

(** C10. Augmenting a call whose [local_path] is [None], as in the
    default template, raises the [AttributeError] of calling
    [is_absolute] on [None]; no augmented call is produced. *)
Theorem absent_local_path_raises_attribute_error
    (call : RawCopyFilesSshCall) (project : Path) :
  raw_local_path call = None ->
  augment_copy_files_ssh_call call project
  = inl (AttributeError "'NoneType' object has no attribute 'is_absolute'").
Proof.
  intros Hl. unfold augment_copy_files_ssh_call. rewrite Hl. reflexivity.
Qed.

(** The upload branch of [copy_remote_file] on a local directory. *)
Lemma upload_of_directory (local : Path) (remote : option Path) (w : World) :
  (forall w', path_is_dir local w' = true) ->
  (exists e, outcome (copy_remote_file local remote false w) = inl e)
  /\ existsb is_transfer_to_remote (events (copy_remote_file local remote false w))
     = false.
Proof.
  intros Hdir.
  unfold copy_remote_file, with_sftp, try_finally, try_except, remote_posix,
    stat, mkdir, is_dir, call_lib, py_assert, bind, emit, ret, raise,
    outcome, events.
  simpl.
  destruct (ssh_open_sftp w) as [[e|u] w1]; simpl; [eauto|].
  destruct remote as [rp|]; simpl; [|eauto].
  destruct (sftp_stat (as_posix rp) w1) as [[e|mode] w2]; simpl.
  - destruct (is_FileNotFoundError e); simpl; [|eauto].
    destruct (sftp_mkdir (as_posix rp) w2) as [[e2|u2] w3]; simpl; [eauto|].
    rewrite Hdir. simpl. eauto.
  - rewrite Hdir. simpl. eauto.
Qed.

(** C8. When [download] is false and the local path is a directory,
    [make_copy_files_ssh_call] raises and never calls [sftp.put]: nothing
    of the directory is transferred. *)
Theorem directory_upload_fails_fast (call : CopyFilesSshCall) (w : World) :
  download call = false ->
  (forall w', path_is_dir (local_path call) w' = true) ->
  (exists e, outcome (make_copy_files_ssh_call call w) = inl e)
  /\ existsb is_transfer_to_remote (events (make_copy_files_ssh_call call w)) = false.
Proof.
  intros Hd Hdir.
  unfold make_copy_files_ssh_call.
  rewrite run_with_ssh_client_run, connect_then_run, Hd.
  destruct (ssh_connect (host call) (user call) (password call) w) as [[e|u] w1].
  - split; [exists e|]; reflexivity.
  - destruct (@upload_of_directory (local_path call) (remote_path call) w1 Hdir)
      as [[e He] Hev].
    split; [exists e; exact He|].
    unfold events at 1. simpl. rewrite existsb_app, Hev. reflexivity.
Qed.

End CopyFilesSshFacts.

(** * The claims on concrete calls *)

Section OnConcreteCalls.
Import Rest Fixture.
Existing Instance plain.

(** C1 (defect of [make_rest_call]). The server answers 500 to a call
    that accepts only 200 and declares no body assertion:
    [assert_response] raises the assertion failure, and [make_rest_call]
    catches it, logs nothing and returns normally, because its [raise e]
    sits inside [if call["assertion"] is not None]. *)
Theorem status_failure_swallowed_without_assertion :
  let c := rest_call GET 0 [] None None JSON None in
  outcome (assert_response (requests := server err500) c)
  = inl (AssertionError NoMessage)
  /\ outcome (make_rest_call (requests := server err500) c) = inr tt
  /\ events (make_rest_call (requests := server err500) c)
     = events (assert_response (requests := server err500) c).
Proof. repeat split; reflexivity. Qed.

(** C2 (defect of [assert_response]). With timeout 5 the keyword
    [timeout] is given twice, once as [timeout=10] and once through
    [**data]: the call raises [TypeError] and nothing is sent. With
    timeout 0 the request is sent with [timeout=10]. *)
Theorem positive_timeout_never_dispatched :
  let c5 := rest_call GET 5 [] None None JSON None in
  let c0 := rest_call GET 0 [] None None JSON None in
  outcome (make_rest_call (requests := server (ok200 PNone)) c5)
  = inl (TypeError "got multiple values for keyword argument 'timeout'")
  /\ existsb is_Sent (events (make_rest_call (requests := server (ok200 PNone)) c5))
     = false
  /\ events (exchange (requests := server (ok200 PNone)) c0)
     = [Info (MakeCall GET "http://localhost/status");
        Sent GET "http://localhost/status"
          [("timeout", KwTimeout 10); ("headers", KwHeaders []);
           ("verify", KwVerify false)]].
Proof. repeat split; reflexivity. Qed.

(** C3 (defect of [assert_response]). Expected mapping [{a: 1}] without
    [only_defined], body [{a: 1}]: the body is compared with the whole
    assertion dict and the call fails; the body that passes is
    [{value: {a: 1}, only_defined: False}]. *)
Theorem equal_mapping_body_fails_full_comparison :
  let expected := PDict [("a", PInt 1)] in
  let c := rest_call GET 0 [] None None JSON (expect expected false) in
  outcome (make_rest_call (requests := server (ok200 expected)) c)
  = inl (AssertionError NoMessage)
  /\ outcome (make_rest_call
                (requests := server (ok200 (PDict [("value", expected);
                                                   ("only_defined", PBool false)]))) c)
     = inr tt.
Proof. split; reflexivity. Qed.

(** C4 (defect of [assert_response]). A call with a file and the empty
    headers of the default template: [del data["headers"]["Content-Type"]]
    raises [KeyError], and no request goes out. *)
Theorem attachment_without_content_type_header_raises :
  let c := rest_call POST 0 [] (Some a_file) None JSON None in
  make_rest_call (requests := server (ok200 PNone)) c
  = (inl (KeyError "Content-Type"), c, []).
Proof. reflexivity. Qed.

(** C5 fails as stated: augmentation does not accept an assertion whose
    value is the sequence [[1, 2]]. *)
Lemma sequence_assertion_not_accepted :
  outcome (augment_rest_call (fs := disk)
             (raw_rest_call (PDict [("value", PList [PInt 1; PInt 2])]))
             (Path_of "/project") tt)
  = inl (ValueError "Assertion must be a string or a dict.").
Proof. reflexivity. Qed.

Lemma sequence_assertion_rejected_witness :
  exists e,
    outcome (augment_rest_call (fs := disk)
               (raw_rest_call (PDict [("value", PList [PInt 1; PInt 2])]))
               (Path_of "/project") tt) = inl e.
Proof.
  exact (proj1 (sequence_assertion_rejected (fs := disk)
                  (raw_rest_call (PDict [("value", PList [PInt 1; PInt 2])]))
                  (Path_of "/project") (d := [("value", PList [PInt 1; PInt 2])])
                  eq_refl eq_refl)).
Defined.

(** C9 fails as stated: a call with a multipart field and a
    [Content-Type] header has other [files] and other [headers] after
    execution. *)
Lemma execution_rewrites_files_and_headers :
  let c := rest_call POST 0 [("Content-Type", PStr "application/json")]
             None (Some a_part) JSON None in
  let c' := final (make_rest_call (requests := server (ok200 PNone)) c) in
  files c = None /\ files c' = Some a_part
  /\ headers c = [("Content-Type", PStr "application/json")] /\ headers c' = [].
Proof. repeat split; reflexivity. Qed.

Lemma only_defined_checks_declared_keys_witness :
  outcome (assert_response
             (requests := server (ok200 (PDict [("a", PInt 1); ("b", PInt 2)])))
             (rest_call GET 0 [] None None JSON
                (expect (PDict [("a", PInt 1)]) true)))
  = inr tt.
Proof.
  apply (proj1 (only_defined_checks_declared_keys
                  (requests := server (ok200 (PDict [("a", PInt 1); ("b", PInt 2)])))
                  (rest_call GET 0 [] None None JSON
                     (expect (PDict [("a", PInt 1)]) true))
                  (a := {| value := PDict [("a", PInt 1)]; only_defined := true |})
                  (expected := [("a", PInt 1)])
                  (body := [("a", PInt 1); ("b", PInt 2)])
                  eq_refl (or_introl eq_refl) eq_refl eq_refl eq_refl eq_refl)).
  intros k v [Hkv|[]]. injection Hkv as <- <-.
  exists (PInt 1). split; reflexivity.
Defined.

End OnConcreteCalls.

Section OnConcreteHosts.
Import CopyFilesSsh Fixture.

Lemma session_closed_on_every_exit_path_witness :
  exists before,
    events (make_copy_files_ssh_call (paramiko := host_of_directories)
              upload_of_a_directory tt) = before ++ [Close].
Proof.
  exact (proj2 (proj2 (proj2 (proj2
           (session_closed_on_every_exit_path (paramiko := host_of_directories)
              "tester" "example.org" "secret" (ret tt) tt))))
           upload_of_a_directory).
Defined.

Lemma directory_upload_fails_fast_witness :
  (exists e, outcome (make_copy_files_ssh_call (paramiko := host_of_directories)
                        upload_of_a_directory tt) = inl e)
  /\ existsb is_transfer_to_remote
       (events (make_copy_files_ssh_call (paramiko := host_of_directories)
                  upload_of_a_directory tt)) = false.
Proof.
  apply (directory_upload_fails_fast (paramiko := host_of_directories)
           upload_of_a_directory tt eq_refl).
  intros w'. reflexivity.
Defined.

Lemma absent_local_path_raises_attribute_error_witness :
  augment_copy_files_ssh_call (paths := posix)
    default_copy_files_ssh_call (Path_of "/project")
  = inl (AttributeError "'NoneType' object has no attribute 'is_absolute'").
Proof.
  apply (absent_local_path_raises_attribute_error (paths := posix)).
  reflexivity.
Defined.

End OnConcreteHosts.


(** * More on the execution of a REST call *)

Section RestTraces.
Import Rest.
Context {paths : Pathlib} {printers : Printers} {requests : Requests}.

Lemma hide_logs_executed (c : RestCall) : hide_logs (executed c) = hide_logs c.
Proof.
  unfold executed.
  destruct (files_truthy (merged c) && dict_mem "Content-Type" (headers c));
    reflexivity.
Qed.

Lemma check_keys_events (body expected : Dict PyVal) (s : RestCall) :
  events (for_each expected (check_key body) s) = [].
Proof.
  induction expected as [|kv expected IH]; simpl; [reflexivity|].
  unfold bind. rewrite check_key_run.
  destruct (dict_get (fst kv) body) as [w|]; [|reflexivity].
  destruct (py_eq w (snd kv)); [|reflexivity].
  unfold events in *.
  destruct (for_each expected (check_key body) s) as [[r s2] t2].
  simpl in *. exact IH.
Qed.

Lemma check_body_events (a : Assertion) (r : Response) (s : RestCall) :
  events (check_body a r s)
  = match value a with
    | PStr _ | PDict _ | PList _ => []
    | _ => [Error UnsupportedAssertion]
    end.
Proof.
  unfold check_body.
  destruct (value a) as [ |b|z|str|l|d]; try reflexivity.
  - unfold py_assert. destruct (String.eqb (text r) str); reflexivity.
  - unfold bind, response_json, py_assert.
    destruct (json r) as [rj|]; simpl; [|reflexivity].
    destruct (py_eq rj (assertion_dict a)); reflexivity.
  - destruct (only_defined a).
    + unfold bind, response_json.
      destruct (json r) as [rj|]; simpl; [|reflexivity].
      destruct rj; try reflexivity.
      pose proof (check_keys_events d0 d s) as He. unfold events in *.
      destruct (for_each d (check_key d0) s) as [[r2 s2] t2]. simpl in *.
      exact He.
    + unfold bind, response_json, py_assert.
      destruct (json r) as [rj|]; simpl; [|reflexivity].
      destruct (py_eq rj (assertion_dict a)); reflexivity.
Qed.

Lemma check_response_events (r : Response) (s : RestCall) :
  events (check_response r s)
  = Info (ResponseStatus (status_code r))
    :: (if hide_logs s then []
        else [Info (match json r with
                    | Some j => ResponseJson (dumps_indent j)
                    | None => ResponseText (text r)
                    end)])
    ++ (if existsb (Z.eqb (status_code r)) (status_codes s)
        then match assertion s with
             | Some a => events (check_body a r s)
             | None => []
             end
        else []).
Proof.
  unfold check_response, bind, get, emit, events.
  destruct (hide_logs s); [|destruct (json r)]; simpl;
    (destruct (existsb _ _); simpl; [|reflexivity]);
    (destruct (assertion s) as [a|]; simpl; [|reflexivity]);
    destruct (check_body a r s) as [[r2 s2] t2]; reflexivity.
Qed.

Lemma assert_response_answered (c : RestCall) (response : Response) :
  outcome (exchange c) = inr response ->
  assert_response c
  = (outcome (check_response response (executed c)), executed c,
     events (exchange c) ++ events (check_response response (executed c))).
Proof.
  intros Hx. unfold assert_response, bind.
  pose proof (final_exchange c) as Hf.
  pose proof (keeps_check_response response (executed c)) as Hk.
  destruct (exchange c) as [[[e|r] s1] t1]; unfold outcome, final, events in *;
    simpl in *; [discriminate|].
  injection Hx as ->. subst s1.
  destruct (check_response response (executed c)) as [[r2 s2] t2].
  simpl in *. subst s2. reflexivity.
Qed.

Lemma assert_response_unanswered (c : RestCall) (e : PyExn) :
  outcome (exchange c) = inl e ->
  assert_response c = (inl e, final (exchange c), events (exchange c)).
Proof.
  intros Hx. unfold assert_response, bind.
  destruct (exchange c) as [[[e'|r] s1] t1]; unfold outcome, final, events in *;
    simpl in *; [|discriminate].
  injection Hx as ->. reflexivity.
Qed.

(** The handler logs at most the expected value. *)
Lemma log_expected_events (e : PyExn) (s : RestCall) :
  events (log_expected e s)
  = match assertion s with
    | None => []
    | Some a =>
        match response_type s with
        | XML => match pretty_xml (py_str (assertion_dict a)) with
                 | inl _ => []
                 | inr x => [Error (Expected x)]
                 end
        | JSON => [Error (Expected (pretty_json (py_str (assertion_dict a))))]
        | TEXT => [Error (Expected (py_str (assertion_dict a)))]
        end
    end.
Proof.
  unfold log_expected, bind, get, emit, lift, raise, events.
  destruct (assertion s) as [a|]; [|reflexivity].
  destruct (response_type s); simpl; try reflexivity.
  destruct (pretty_xml _); reflexivity.
Qed.

Lemma make_rest_call_events (c : RestCall) :
  events (make_rest_call c)
  = events (assert_response c)
    ++ match outcome (assert_response c) with
       | inl e => if is_AssertionError e
                  then events (log_expected e (executed c))
                  else []
       | inr _ => []
       end.
Proof.
  unfold make_rest_call, try_except.
  pose proof (final_assert_response c) as Hf.
  destruct (assert_response c) as [[[e|u] s1] t1]; unfold outcome, final, events in *;
    simpl in *; [|rewrite app_nil_r; reflexivity].
  subst s1. destruct (is_AssertionError e); [|rewrite app_nil_r; reflexivity].
  destruct (log_expected e (executed c)) as [[r2 s2] t2]. reflexivity.
Qed.

End RestTraces.

Section RestBehaviour.
Import Rest.
Context {paths : Pathlib} {printers : Printers} {requests : Requests}.

Lemma status_accepted_iff (code : Z) (codes : list Z) :
  existsb (Z.eqb code) codes = true <-> In code codes.
Proof.
  rewrite existsb_exists. split.
  - intros [x [Hin Hx]]. apply Z.eqb_eq in Hx. subst x. exact Hin.
  - intros Hin. exists code. split; [exact Hin|apply Z.eqb_refl].
Qed.

(** X1. The status code is checked first and whatever the assertion: a
    status outside [status_codes] (so any status, when the list is empty)
    fails the call; a status inside it passes a call without assertion,
    whatever the body. *)
Theorem status_is_checked_first (c : RestCall) (response : Response) :
  outcome (exchange c) = inr response ->
  (~ In (status_code response) (status_codes c) ->
   outcome (assert_response c) = inl (AssertionError NoMessage))
  /\ (assertion c = None ->
      In (status_code response) (status_codes c) ->
      outcome (assert_response c) = inr tt).
Proof.
  intros Hx.
  rewrite (assert_response_after_exchange c Hx), check_response_outcome.
  rewrite status_codes_executed, assertion_executed.
  split.
  - intros Hn.
    destruct (existsb _ _) eqn:He; [|reflexivity].
    apply status_accepted_iff in He. contradiction.
  - intros Ha Hin. apply status_accepted_iff in Hin. rewrite Hin, Ha. reflexivity.
Qed.

(** X2. A string assertion compares the text of the response with the
    expected string, character for character. *)
Theorem text_assertion_is_exact (c : RestCall) (response : Response)
    (a : Assertion) (expected : string) :
  outcome (exchange c) = inr response ->
  In (status_code response) (status_codes c) ->
  assertion c = Some a -> value a = PStr expected ->
  (outcome (assert_response c) = inr tt <-> text response = expected)
  /\ (text response <> expected ->
      outcome (assert_response c) = inl (AssertionError NoMessage)).
Proof.
  intros Hx Hst Ha Hv.
  rewrite (assert_response_after_exchange c Hx), check_response_outcome.
  rewrite status_codes_executed, (status_accepted response _ Hst).
  rewrite assertion_executed, Ha.
  unfold check_body, py_assert, outcome. rewrite Hv.
  destruct (String.eqb (text response) expected) eqn:He; simpl.
  - apply String.eqb_eq in He. split; [tauto|contradiction].
  - apply String.eqb_neq in He. split; [|reflexivity].
    split; [discriminate|contradiction].
Qed.

(** X3. What a request carries: [timeout=10], the call's headers as
    execution left them, the [verify] flag, the merged attachments when
    there are any, and otherwise the JSON text of [data] when [data] is
    not [None]; never both attachments and a body. *)
Theorem request_contents (c : RestCall) (ev : Rest.Event) :
  In ev (events (exchange c)) -> is_Sent ev = true ->
  exists kwargs,
    ev = Sent (method c) (url c) kwargs
    /\ dict_get "timeout" kwargs = Some (KwTimeout 10)
    /\ dict_get "headers" kwargs = Some (KwHeaders (headers (executed c)))
    /\ dict_get "verify" kwargs = Some (KwVerify (verify c))
    /\ dict_get "files" kwargs
       = (if files_truthy (merged c) then option_map KwFiles (merged_files c)
          else None)
    /\ dict_get "data" kwargs
       = (if files_truthy (merged c) then None
          else option_map (fun d => KwData (dumps d)) (data c)).
Proof.
  intros Hin Hs. rewrite exchange_run in Hin.
  destruct (files_truthy (merged c) && negb (dict_mem "Content-Type" (headers c)))
    eqn:Hk; [contradiction|].
  destruct (Z.eq_dec (timeout c) 0) as [Ht|Ht].
  - rewrite (no_timeout_in_data c Ht) in Hin. simpl in Hin.
    destruct Hin as [<-|[<-|[]]]; [discriminate|].
    eexists. split; [reflexivity|].
    assert (Hfiles : files (executed c) = merged_files c).
    { unfold executed.
      destruct (files_truthy (merged c) && dict_mem "Content-Type" (headers c));
        reflexivity. }
    assert (Hverify : verify (executed c) = verify c).
    { unfold executed.
      destruct (files_truthy (merged c) && dict_mem "Content-Type" (headers c));
        reflexivity. }
    unfold star_kwargs, data_of. rewrite Ht. simpl.
    destruct (files_truthy (merged c)) eqn:Hf; simpl.
    + rewrite Hfiles. unfold files_truthy, merged in Hf. simpl in Hf.
      destruct (merged_files c) as [f|]; [|discriminate].
      repeat split; reflexivity.
    + destruct (data c); simpl; repeat split; reflexivity.
  - rewrite (timeout_in_data c Ht) in Hin. simpl in Hin.
    destruct Hin as [<-|[]]. discriminate.
Qed.

Lemma no_request_in_check_response (r : Response) (s : RestCall) :
  filter is_Sent (events (check_response r s)) = [].
Proof.
  rewrite check_response_events. simpl.
  rewrite filter_app.
  assert (H1 : filter is_Sent
                 (if hide_logs s then []
                  else [Info (match json r with
                              | Some j => ResponseJson (dumps_indent j)
                              | None => ResponseText (text r)
                              end)]) = []).
  { destruct (hide_logs s); reflexivity. }
  rewrite H1. simpl.
  destruct (existsb _ _); [|reflexivity].
  destruct (assertion s) as [a|]; [|reflexivity].
  rewrite check_body_events. destruct (value a); reflexivity.
Qed.

Lemma no_request_in_log_expected (e : PyExn) (s : RestCall) :
  filter is_Sent (events (log_expected e s)) = [].
Proof.
  rewrite log_expected_events.
  destruct (assertion s); [|reflexivity].
  destruct (response_type s); try reflexivity.
  destruct (pretty_xml _); reflexivity.
Qed.

Lemma requests_of_assert_response (c : RestCall) :
  filter is_Sent (events (assert_response c)) = filter is_Sent (events (exchange c)).
Proof.
  destruct (outcome (exchange c)) as [e|response] eqn:Hx.
  - rewrite (assert_response_unanswered c Hx). reflexivity.
  - rewrite (assert_response_answered c Hx). unfold events at 1. simpl.
    rewrite filter_app, no_request_in_check_response, app_nil_r. reflexivity.
Qed.

(** X4. One execution sends at most one request: nothing is retried,
    whatever fails. *)
Theorem at_most_one_request (c : RestCall) :
  (List.length (filter is_Sent (events (make_rest_call c))) <= 1)%nat.
Proof.
  rewrite make_rest_call_events, filter_app, requests_of_assert_response.
  assert (Hh : filter is_Sent
                 match outcome (assert_response c) with
                 | inl e => if is_AssertionError e
                            then events (log_expected e (executed c))
                            else []
                 | inr _ => []
                 end = []).
  { destruct (outcome (assert_response c)) as [e|u]; [|reflexivity].
    destruct (is_AssertionError e); [|reflexivity].
    apply no_request_in_log_expected. }
  rewrite Hh, app_nil_r, exchange_run.
  destruct (files_truthy (merged c) && negb (dict_mem "Content-Type" (headers c)));
    [simpl; lia|].
  destruct (bind_kwargs _ _); simpl; lia.
Qed.

(** X5. [make_rest_call] handles assertion failures only: when
    [assert_response] returns, or raises anything else, [make_rest_call]
    does exactly what [assert_response] does. *)
Theorem only_assertion_failures_are_handled (c : RestCall) :
  (forall msg, outcome (assert_response c) <> inl (AssertionError msg)) ->
  make_rest_call c = assert_response c.
Proof.
  intros Hn. unfold make_rest_call, try_except. unfold outcome in Hn.
  destruct (assert_response c) as [[[e|u] s1] t1]; simpl in *; [|reflexivity].
  destruct e; try reflexivity.
  exfalso. exact (Hn msg eq_refl).
Qed.

(** X6. An exception of the transport is raised to the caller as it is,
    once the request has been logged and handed over; no response is
    logged. *)
Theorem transport_failure_propagates (c : RestCall) (e : PyExn) :
  timeout c = 0 ->
  (files_truthy (merged c) = true -> dict_mem "Content-Type" (headers c) = true) ->
  request (method c) (url c) (("timeout", KwTimeout 10) :: star_kwargs c) = inl e ->
  outcome (assert_response c) = inl e
  /\ events (assert_response c)
     = [Info (MakeCall (method c) (url c));
        Sent (method c) (url c) (("timeout", KwTimeout 10) :: star_kwargs c)]
  /\ (is_AssertionError e = false -> make_rest_call c = assert_response c).
Proof.
  intros Ht Hh Hr.
  assert (Hx : exchange c
               = (inl e, executed c,
                  [Info (MakeCall (method c) (url c));
                   Sent (method c) (url c) (("timeout", KwTimeout 10) :: star_kwargs c)])).
  { rewrite exchange_run.
    destruct (files_truthy (merged c)) eqn:Hf; simpl.
    - rewrite (Hh eq_refl). simpl. rewrite (no_timeout_in_data c Ht), Hr. reflexivity.
    - rewrite (no_timeout_in_data c Ht), Hr. reflexivity. }
  assert (Ha : assert_response c
               = (inl e, executed c,
                  [Info (MakeCall (method c) (url c));
                   Sent (method c) (url c) (("timeout", KwTimeout 10) :: star_kwargs c)])).
  { rewrite (@assert_response_unanswered _ _ _ c e); rewrite Hx; reflexivity. }
  rewrite Ha. repeat split.
  intros He. unfold make_rest_call, try_except. rewrite Ha, He. reflexivity.
Qed.

End RestBehaviour.

Section RestBehaviour2.
Import Rest.
Context {paths : Pathlib} {printers : Printers} {requests : Requests}.

(** ** Writing into a dict and reading it back *)

Lemma dict_get_set_eq {V} (k : string) (v : V) (d : Dict V) :
  dict_get k (dict_set k v d) = Some v.
Proof.
  induction d as [|[k' v'] d IH]; simpl.
  - rewrite String.eqb_refl. reflexivity.
  - destruct (String.eqb k k') eqn:E; simpl; rewrite E; [reflexivity|exact IH].
Qed.

Lemma dict_get_set_ne {V} (k k0 : string) (v : V) (d : Dict V) :
  k <> k0 -> dict_get k (dict_set k0 v d) = dict_get k d.
Proof.
  intros Hne. induction d as [|[k' v'] d IH]; simpl.
  - apply String.eqb_neq in Hne. rewrite Hne. reflexivity.
  - destruct (String.eqb k0 k') eqn:E; simpl.
    + apply String.eqb_eq in E. subst k'.
      apply String.eqb_neq in Hne. rewrite Hne. reflexivity.
    + destruct (String.eqb k k'); [reflexivity|exact IH].
Qed.

Lemma dict_set_truthy {V} (k : string) (v : V) (d : Dict V) :
  dict_truthy (dict_set k v d) = true.
Proof.
  destruct d as [|[k' v'] d]; simpl; [reflexivity|].
  destruct (String.eqb k k'); reflexivity.
Qed.

Lemma merge_truthy (mp f : Dict FileEntry) :
  dict_truthy f = true ->
  dict_truthy (fold_left (fun f kv => dict_set (fst kv) (snd kv) f) mp f) = true.
Proof.
  revert f. induction mp as [|kv mp IH]; intros f Hf; simpl; [exact Hf|].
  apply IH. apply dict_set_truthy.
Qed.

Lemma merge_get_other (k : string) (mp f : Dict FileEntry) :
  dict_get k mp = None ->
  dict_get k (fold_left (fun f kv => dict_set (fst kv) (snd kv) f) mp f)
  = dict_get k f.
Proof.
  revert f. induction mp as [|[k' v'] mp IH]; intros f Hk; simpl in *;
    [reflexivity|].
  destruct (String.eqb k k') eqn:E; [discriminate|].
  rewrite (IH _ Hk). apply dict_get_set_ne.
  apply String.eqb_neq. exact E.
Qed.

Lemma merge_get_declared (k : string) (v : FileEntry) (mp f : Dict FileEntry) :
  NoDup (dict_keys mp) ->
  dict_get k mp = Some v ->
  dict_get k (fold_left (fun f kv => dict_set (fst kv) (snd kv) f) mp f) = Some v.
Proof.
  revert f. induction mp as [|[k' v'] mp IH]; intros f Hnd Hk; simpl in *;
    [discriminate|].
  inversion Hnd as [|? ? Hnotin Hnd']; subst.
  destruct (String.eqb k k') eqn:E.
  - apply String.eqb_eq in E. subst k'. injection Hk as ->.
    rewrite merge_get_other.
    + apply dict_get_set_eq.
    + clear -Hnotin. induction mp as [|[k2 v2] mp IH]; simpl; [reflexivity|].
      destruct (String.eqb k k2) eqn:E2.
      * apply String.eqb_eq in E2. subst k2. exfalso. apply Hnotin. left. reflexivity.
      * apply IH. intros Hin. apply Hnotin. right. exact Hin.
  - apply IH; assumption.
Qed.

(** X7. A call that was executed with attachments cannot be executed
    again: the first execution removed [Content-Type] from the call's own
    headers, so the second one raises [KeyError] before anything is logged
    or sent. *)
Theorem second_execution_raises_key_error (c : RestCall) :
  files_truthy (merged c) = true ->
  outcome (make_rest_call (final (make_rest_call c))) = inl (KeyError "Content-Type")
  /\ events (make_rest_call (final (make_rest_call c))) = [].
Proof.
  intros Hf. rewrite final_make_rest_call.
  assert (Hfiles : files (executed c) = merged_files c).
  { unfold executed.
    destruct (files_truthy (merged c) && dict_mem "Content-Type" (headers c));
      reflexivity. }
  assert (Hmp : multipart (executed c) = multipart c).
  { unfold executed.
    destruct (files_truthy (merged c) && dict_mem "Content-Type" (headers c));
      reflexivity. }
  assert (Hf2 : files_truthy (merged (executed c)) = true).
  { unfold files_truthy, merged in *. simpl in *.
    unfold merged_files at 1. rewrite Hmp, Hfiles.
    destruct (merged_files c) as [f|]; [|discriminate].
    destruct (multipart c) as [mp|]; [|exact Hf].
    destruct (dict_truthy mp); [|exact Hf].
    apply merge_truthy. exact Hf. }
  assert (Hh : dict_mem "Content-Type" (headers (executed c)) = false).
  { rewrite headers_executed, Hf. unfold dict_mem.
    rewrite dict_get_remove. reflexivity. }
  assert (Hx : exchange (executed c)
               = (inl (KeyError "Content-Type"), merged (executed c), [])).
  { rewrite exchange_run, Hf2, Hh. reflexivity. }
  assert (Ha : assert_response (executed c)
               = (inl (KeyError "Content-Type"), merged (executed c), [])).
  { rewrite (@assert_response_unanswered _ _ _ (executed c) (KeyError "Content-Type"));
      rewrite Hx; reflexivity. }
  split.
  - rewrite make_rest_call_outcome, Ha. reflexivity.
  - rewrite make_rest_call_events, Ha. reflexivity.
Qed.

(** X8. After execution [call["files"]] holds every multipart field under
    its own name, in place of a file of the same name, and every other
    file as it was. *)
Theorem multipart_fields_replace_files (c : RestCall) (mp : Dict FileEntry)
    (k0 : string) (v0 : FileEntry) :
  multipart c = Some (((k0, v0) :: mp)) ->
  NoDup (dict_keys ((k0, v0) :: mp)) ->
  exists f,
    files (final (make_rest_call c)) = Some f
    /\ (forall k v, dict_get k ((k0, v0) :: mp) = Some v -> dict_get k f = Some v)
    /\ (forall k, dict_get k ((k0, v0) :: mp) = None ->
                  dict_get k f
                  = dict_get k (match files c with Some f0 => f0 | None => [] end)).
Proof.
  intros Hmp Hnd. rewrite final_make_rest_call.
  assert (Hfiles : files (executed c) = merged_files c).
  { unfold executed.
    destruct (files_truthy (merged c) && dict_mem "Content-Type" (headers c));
      reflexivity. }
  rewrite Hfiles. unfold merged_files. rewrite Hmp.
  change (dict_truthy ((k0, v0) :: mp)) with true. cbv iota.
  eexists. split; [reflexivity|]. split.
  - intros k v Hk. apply merge_get_declared; assumption.
  - intros k Hk. apply merge_get_other. exact Hk.
Qed.

End RestBehaviour2.

Section RestBehaviour3.
Import Rest.
Context {paths : Pathlib} {printers : Printers} {requests : Requests}.

Lemma exchange_logs_no_body (c : RestCall) :
  existsb is_body_log (events (exchange c)) = false.
Proof.
  rewrite exchange_run.
  destruct (files_truthy (merged c) && negb (dict_mem "Content-Type" (headers c)));
    [reflexivity|].
  destruct (bind_kwargs _ _); reflexivity.
Qed.

Lemma handler_logs_no_body (e : PyExn) (s : RestCall) :
  existsb is_body_log (events (log_expected e s)) = false.
Proof.
  rewrite log_expected_events.
  destruct (assertion s); [|reflexivity].
  destruct (response_type s); try reflexivity.
  destruct (pretty_xml _); reflexivity.
Qed.

Lemma make_rest_call_trace_answered (c : RestCall) (response : Response) :
  outcome (exchange c) = inr response ->
  exists handled,
    events (make_rest_call c)
    = events (exchange c) ++ events (check_response response (executed c)) ++ handled
    /\ (handled = []
        \/ exists e, outcome (assert_response c) = inl e
                     /\ is_AssertionError e = true
                     /\ handled = events (log_expected e (executed c))).
Proof.
  intros Hx. rewrite make_rest_call_events.
  assert (He : events (assert_response c)
               = events (exchange c) ++ events (check_response response (executed c))).
  { rewrite (assert_response_answered c Hx). reflexivity. }
  rewrite He, <- app_assoc.
  destruct (outcome (assert_response c)) as [e|u].
  - destruct (is_AssertionError e) eqn:Hi.
    + eexists. split; [reflexivity|]. right. exists e. repeat split. exact Hi.
    + exists []. split; [reflexivity|left; reflexivity].
  - exists []. split; [reflexivity|left; reflexivity].
Qed.

Lemma check_response_logs_body_only_once (r : Response) (s : RestCall) :
  hide_logs s = true -> existsb is_body_log (events (check_response r s)) = false.
Proof.
  intros Hh. rewrite check_response_events, Hh. simpl.
  destruct (existsb (Z.eqb (status_code r)) (status_codes s)); [|reflexivity].
  destruct (assertion s) as [a|]; [|reflexivity].
  rewrite check_body_events. destruct (value a); reflexivity.
Qed.

Lemma check_response_logs_no_expected (r : Response) (s : RestCall) :
  existsb is_expected_log (events (check_response r s)) = false.
Proof.
  rewrite check_response_events. simpl. rewrite existsb_app.
  assert (H1 : existsb is_expected_log
                 (if hide_logs s then []
                  else [Info (match json r with
                              | Some j => ResponseJson (dumps_indent j)
                              | None => ResponseText (text r)
                              end)]) = false).
  { destruct (hide_logs s); reflexivity. }
  rewrite H1. simpl.
  destruct (existsb (Z.eqb (status_code r)) (status_codes s)); [|reflexivity].
  destruct (assertion s) as [a|]; [|reflexivity].
  rewrite check_body_events. destruct (value a); reflexivity.
Qed.

(** X9. Once a response has come, its status is logged in every case;
    its body is logged, as JSON when it parses and as text otherwise,
    unless [hide_logs] is set, and then no line shows the body. *)
Theorem hide_logs_hides_the_body_only (c : RestCall) (response : Response) :
  outcome (exchange c) = inr response ->
  In (Info (ResponseStatus (status_code response))) (events (make_rest_call c))
  /\ (if hide_logs c
      then existsb is_body_log (events (make_rest_call c)) = false
      else In (Info (match json response with
                     | Some j => ResponseJson (dumps_indent j)
                     | None => ResponseText (text response)
                     end))
              (events (make_rest_call c))).
Proof.
  intros Hx.
  destruct (make_rest_call_trace_answered c Hx) as [handled [-> Hh]].
  split.
  - apply in_or_app. right. apply in_or_app. left.
    rewrite check_response_events. left. reflexivity.
  - destruct (hide_logs c) eqn:Hl.
    + rewrite !existsb_app, exchange_logs_no_body.
      rewrite check_response_logs_body_only_once
        by (rewrite hide_logs_executed; exact Hl).
      simpl. destruct Hh as [->|[e [_ [_ ->]]]]; [reflexivity|].
      apply handler_logs_no_body.
    + apply in_or_app. right. apply in_or_app. left.
      rewrite check_response_events, hide_logs_executed, Hl.
      right. left. reflexivity.
Qed.

(** X10. A body that does not parse, where a mapping or a sequence is
    expected, is not an assertion failure: [JSONDecodeError] reaches the
    caller of [make_rest_call], and the expected value is not logged. *)
Theorem unparsable_body_raises_decode_error (c : RestCall) (response : Response)
    (a : Assertion) :
  outcome (exchange c) = inr response ->
  In (status_code response) (status_codes c) ->
  assertion c = Some a ->
  (exists m, value a = PDict m) \/ (exists l, value a = PList l) ->
  json response = None ->
  outcome (make_rest_call c) = inl JSONDecodeError
  /\ existsb is_expected_log (events (make_rest_call c)) = false.
Proof.
  intros Hx Hst Ha Hv Hj.
  assert (Hc : outcome (check_body a response (executed c)) = inl JSONDecodeError).
  { unfold check_body, bind, response_json, outcome.
    destruct Hv as [[m Hm]|[l Hl]].
    - rewrite Hm, Hj. destruct (only_defined a); reflexivity.
    - rewrite Hl, Hj. reflexivity. }
  assert (Hr : outcome (assert_response c) = inl JSONDecodeError).
  { rewrite (assert_response_after_exchange c Hx), check_response_outcome.
    rewrite status_codes_executed, (status_accepted response _ Hst).
    rewrite assertion_executed, Ha. exact Hc. }
  split.
  - rewrite make_rest_call_outcome, Hr. reflexivity.
  - destruct (make_rest_call_trace_answered c Hx) as [handled [-> Hh]].
    rewrite !existsb_app, check_response_logs_no_expected.
    assert (H0 : existsb is_expected_log (events (exchange c)) = false).
    { rewrite exchange_run.
      destruct (files_truthy (merged c)
                && negb (dict_mem "Content-Type" (headers c))); [reflexivity|].
      destruct (bind_kwargs _ _); reflexivity. }
    rewrite H0. simpl.
    destruct Hh as [->|[e [He [Hi _]]]]; [reflexivity|].
    rewrite Hr in He. injection He as <-. discriminate.
Qed.

(** X11. With [only_defined], a body that parses to anything but a
    mapping fails the call, even when no key is declared; a mapping body
    passes when no key is declared. *)
Theorem only_defined_needs_a_mapping_body (c : RestCall) (response : Response)
    (a : Assertion) (expected : Dict PyVal) (rj : PyVal) :
  outcome (exchange c) = inr response ->
  In (status_code response) (status_codes c) ->
  assertion c = Some a -> value a = PDict expected -> only_defined a = true ->
  json response = Some rj ->
  ((forall body, rj <> PDict body) ->
   outcome (assert_response c) = inl (AssertionError NoMessage))
  /\ (expected = [] -> (exists body, rj = PDict body) ->
      outcome (assert_response c) = inr tt).
Proof.
  intros Hx Hst Ha Hv Ho Hj.
  rewrite (assert_response_after_exchange c Hx), check_response_outcome.
  rewrite status_codes_executed, (status_accepted response _ Hst).
  rewrite assertion_executed, Ha.
  unfold check_body, bind, response_json, outcome. rewrite Hv, Ho, Hj. simpl.
  split.
  - intros Hn. destruct rj; try reflexivity. exfalso. exact (Hn d eq_refl).
  - intros -> [body ->]. reflexivity.
Qed.

(** X12. An expected value that is neither a string, a mapping nor a
    sequence fails the call with an assertion error, after the error line
    about the unsupported assertion type. *)
Theorem unsupported_assertion_kind_fails (c : RestCall) (response : Response)
    (a : Assertion) :
  outcome (exchange c) = inr response ->
  In (status_code response) (status_codes c) ->
  assertion c = Some a ->
  match value a with PStr _ | PDict _ | PList _ => False | _ => True end ->
  outcome (assert_response c) = inl (AssertionError NoMessage)
  /\ In (Error UnsupportedAssertion) (events (assert_response c)).
Proof.
  intros Hx Hst Ha Hk. split.
  - rewrite (assert_response_after_exchange c Hx), check_response_outcome.
    rewrite status_codes_executed, (status_accepted response _ Hst).
    rewrite assertion_executed, Ha.
    unfold check_body. destruct (value a); try contradiction; reflexivity.
  - rewrite (assert_response_answered c Hx). unfold events at 1. simpl.
    rewrite check_response_events.
    rewrite status_codes_executed, (status_accepted response _ Hst).
    rewrite assertion_executed, Ha, check_body_events.
    apply in_or_app. right. right. apply in_or_app. right.
    destruct (value a); try contradiction; left; reflexivity.
Qed.

End RestBehaviour3.

(** * More on the augmentation of a REST call *)

Section AugmentSteps.
Import Rest.
Context {paths : Pathlib} {printers : Printers} {fs : FileSystem}.

Local Abbreviation Aug := (Exec unit Handle).

Lemma bind_after_quiet {A B} (m : Aug A) (f : A -> Aug B) (s : unit) :
  opens_nothing m ->
  bind m f s
  = match outcome (m s) with
    | inl e => (inl e, tt, [])
    | inr a => f a tt
    end.
Proof.
  intros Hq. unfold bind. specialize (Hq s). unfold events, outcome in *.
  destruct (m s) as [[[e|a] []] t1]; simpl in *; subst t1; [reflexivity|].
  destruct (f a tt) as [[r s2] t2]. reflexivity.
Qed.

Lemma require_str_quiet (v : PyVal) (msg : string) : opens_nothing (require_str v msg).
Proof. intros s. destruct v; reflexivity. Qed.

Lemma require_bool_quiet (v : PyVal) (msg : string) : opens_nothing (require_bool v msg).
Proof. intros s. destruct v; reflexivity. Qed.

Lemma augment_url_quiet (call : RawRestCall) (b p : string) :
  opens_nothing (augment_url call b p).
Proof. intros s. unfold augment_url. destruct (raw_url call); reflexivity. Qed.

Lemma augment_method_quiet (call : RawRestCall) : opens_nothing (augment_method call).
Proof.
  intros s. unfold augment_method, bind, require_str.
  destruct (raw_method call); try reflexivity.
  simpl. destruct (Method_of_name s0); reflexivity.
Qed.

Lemma augment_multipart_quiet (call : RawRestCall) :
  opens_nothing (augment_multipart call).
Proof.
  intros s. unfold augment_multipart, bind, items.
  destruct (raw_multipart call); reflexivity.
Qed.

Lemma augment_timeout_quiet (call : RawRestCall) : opens_nothing (augment_timeout call).
Proof.
  intros s. unfold augment_timeout. destruct (as_int (raw_timeout call)); reflexivity.
Qed.

Lemma augment_headers_quiet (call : RawRestCall) : opens_nothing (augment_headers call).
Proof. intros s. unfold augment_headers. destruct (raw_headers call); reflexivity. Qed.

Lemma subscript_quiet (v : PyVal) (k : string) : opens_nothing (subscript v k).
Proof.
  intros s. unfold subscript. destruct v; try reflexivity.
  destruct (dict_get k d); reflexivity.
Qed.

Lemma as_path_arg_quiet (v : PyVal) : opens_nothing (as_path_arg v).
Proof. intros s. destruct v; reflexivity. Qed.

Lemma augment_cert_quiet (project : Path) (call : RawRestCall) :
  opens_nothing (augment_cert project call).
Proof.
  intros s. unfold augment_cert.
  destruct (raw_cert call) eqn:Hc; try reflexivity;
    (rewrite (bind_after_quiet _ s (@subscript_quiet _ "path"));
     destruct (outcome (subscript _ "path" s)) as [e|p]; [reflexivity|];
     (destruct p; try reflexivity);
     unfold bind, as_path_arg, ret, raise, subscript, events; simpl;
     match goal with
     | |- context [dict_get "key" ?d] => destruct (dict_get "key" d) as [[ | | | | | ]|]
     | _ => idtac
     end; reflexivity).
Qed.

Lemma augment_response_type_quiet (call : RawRestCall) :
  opens_nothing (augment_response_type call).
Proof.
  intros s. unfold augment_response_type, bind, require_str.
  destruct (raw_response_type call); try reflexivity.
  simpl. destruct (Type_of_name s0); reflexivity.
Qed.

Lemma augment_assertion_quiet (call : RawRestCall) :
  opens_nothing (augment_assertion call).
Proof.
  intros s. unfold augment_assertion, bind.
  destruct (raw_assertion call); try reflexivity.
  destruct (dict_get "only_defined" d) as [[ | | | | | ]|]; simpl; try reflexivity;
    destruct (dict_get "value" d) as [[ | | | | | ]|]; reflexivity.
Qed.

Lemma status_codes_quiet (l : list PyVal) :
  opens_nothing
    (map_each (fun status_code =>
                 match as_int status_code with
                 | Some z => ret z
                 | None => raise (ValueError "Status codes must be integers.")
                 end) l : Aug (list Z)).
Proof.
  induction l as [|v l IH]; intros s; simpl; [reflexivity|].
  unfold bind. destruct (as_int v); simpl; [|reflexivity].
  specialize (IH s). unfold events in *.
  destruct (map_each _ l s) as [[[e|zs] s1] t1]; simpl in *; subst; reflexivity.
Qed.

Lemma augment_status_codes_quiet (call : RawRestCall) :
  opens_nothing (augment_status_codes call).
Proof.
  intros s. unfold augment_status_codes.
  destruct (raw_status_codes call); try reflexivity.
  apply status_codes_quiet.
Qed.

End AugmentSteps.

Section AugmentBehaviour.
Import Rest.
Context {paths : Pathlib} {printers : Printers} {fs : FileSystem}.

Local Abbreviation Aug := (Exec unit Handle).

Lemma bind_files_step {B} (m : Aug (option (Dict FileEntry)))
    (f : option (Dict FileEntry) -> Aug B) :
  (forall a, opens_nothing (f a)) ->
  bind m f tt
  = match outcome (m tt) with
    | inl e => (inl e, tt, events (m tt))
    | inr a => (outcome (f a tt), tt, events (m tt))
    end.
Proof.
  intros Hq. unfold bind, outcome, events.
  destruct (m tt) as [[[e|a] []] t1]; simpl; [reflexivity|].
  specialize (Hq a tt). unfold events in Hq.
  destruct (f a tt) as [[r []] t2]. simpl in *. subst t2.
  rewrite app_nil_r. reflexivity.
Qed.

Lemma bind_quiet {A B} (m : Aug A) (f : A -> Aug B) :
  opens_nothing m -> (forall a, opens_nothing (f a)) -> opens_nothing (bind m f).
Proof.
  intros Hm Hf [].
  rewrite (bind_after_quiet f tt Hm).
  destruct (outcome (m tt)); [reflexivity|apply Hf].
Qed.

Lemma ret_quiet {A} (a : A) : opens_nothing (ret a : Aug A).
Proof. intros s. reflexivity. Qed.

Lemma after_files_quiet (call : RawRestCall) (project : Path)
    (base path_ url_ : string) (method_ : Method) (files_ : option (Dict FileEntry)) :
  opens_nothing (after_files call project base path_ url_ method_ files_).
Proof.
  unfold after_files.
  repeat first
    [ apply ret_quiet
    | apply augment_multipart_quiet | apply augment_timeout_quiet
    | apply augment_headers_quiet | apply require_bool_quiet
    | apply augment_cert_quiet | apply augment_response_type_quiet
    | apply augment_assertion_quiet | apply augment_status_codes_quiet
    | apply bind_quiet; [|intro] ].
Qed.

(** [augment_rest_call], step by step: four checks that open nothing, the
    files, and the checks that follow. *)
Lemma augment_rest_call_run (call : RawRestCall) (project : Path) :
  augment_rest_call call project tt
  = match outcome (require_str (raw_base_url call) "Base URL must be a string." tt) with
    | inl e => (inl e, tt, [])
    | inr base =>
    match outcome (require_str (raw_path call) "Path must be a string." tt) with
    | inl e => (inl e, tt, [])
    | inr path_ =>
    match outcome (augment_url call base path_ tt) with
    | inl e => (inl e, tt, [])
    | inr url_ =>
    match outcome (augment_method call tt) with
    | inl e => (inl e, tt, [])
    | inr method_ =>
    match outcome (augment_files project call tt) with
    | inl e => (inl e, tt, events (augment_files project call tt))
    | inr files_ =>
        (outcome (after_files call project base path_ url_ method_ files_ tt), tt,
         events (augment_files project call tt))
    end end end end end.
Proof.
  unfold augment_rest_call.
  rewrite (bind_after_quiet _ tt (@require_str_quiet _ _)).
  destruct (outcome (require_str (raw_base_url call) _ tt)) as [e|base];
    [reflexivity|].
  rewrite (bind_after_quiet _ tt (@require_str_quiet _ _)).
  destruct (outcome (require_str (raw_path call) _ tt)) as [e|path_];
    [reflexivity|].
  rewrite (bind_after_quiet _ tt (@augment_url_quiet _ _ _)).
  destruct (outcome (augment_url call base path_ tt)) as [e|url_]; [reflexivity|].
  rewrite (bind_after_quiet _ tt (@augment_method_quiet _)).
  destruct (outcome (augment_method call tt)) as [e|method_]; [reflexivity|].
  change (bind (augment_files project call)
            (fun files_ => after_files call project base path_ url_ method_ files_) tt
          = match outcome (augment_files project call tt) with
            | inl e => (inl e, tt, events (augment_files project call tt))
            | inr files_ =>
                (outcome (after_files call project base path_ url_ method_ files_ tt),
                 tt, events (augment_files project call tt))
            end).
  apply bind_files_step.
  intros a. apply after_files_quiet.
Qed.

End AugmentBehaviour.

Section AugmentResults.
Import Rest.
Context {paths : Pathlib} {printers : Printers} {fs : FileSystem}.

Local Abbreviation Aug := (Exec unit Handle).

Lemma after_files_succeeded (call : RawRestCall) (project : Path)
    (base path_ url_ : string) (method_ : Method) (files_ : option (Dict FileEntry))
    (c : RestCall) :
  outcome (after_files call project base path_ url_ method_ files_ tt) = inr c ->
  base_url c = base /\ path c = path_ /\ url c = url_ /\ method c = method_
  /\ files c = files_
  /\ data c = match raw_data call with PNone => None | d => Some d end
  /\ outcome (augment_multipart call tt) = inr (multipart c)
  /\ outcome (augment_timeout call tt) = inr (timeout c)
  /\ outcome (augment_headers call tt) = inr (headers c)
  /\ outcome (require_bool (raw_verify call) "Verify must be a boolean." tt)
     = inr (verify c)
  /\ outcome (augment_cert project call tt) = inr (cert c)
  /\ outcome (augment_response_type call tt) = inr (response_type c)
  /\ outcome (augment_assertion call tt) = inr (assertion c)
  /\ outcome (require_bool (raw_hide_logs call) "Hide logs must be a boolean." tt)
     = inr (hide_logs c)
  /\ outcome (augment_status_codes call tt) = inr (status_codes c).
Proof.
  unfold after_files. intros H.
  repeat match type of H with
         | outcome (bind _ _ _) = inr _ =>
             let a := fresh "a" in
             let s := fresh "s" in
             let Ha := fresh "Ha" in
             apply bind_returns in H; destruct H as (a & s & Ha & H); destruct s
         end.
  unfold ret, outcome in H. simpl in H. injection H as <-. simpl.
  repeat split; assumption.
Qed.

(** Success of [augment_rest_call] and what each field then is. *)
Lemma augment_rest_call_succeeded (call : RawRestCall) (project : Path) (c : RestCall) :
  outcome (augment_rest_call call project tt) = inr c ->
  outcome (require_str (raw_base_url call) "Base URL must be a string." tt)
  = inr (base_url c)
  /\ outcome (require_str (raw_path call) "Path must be a string." tt) = inr (path c)
  /\ outcome (augment_url call (base_url c) (path c) tt) = inr (url c)
  /\ outcome (augment_method call tt) = inr (method c)
  /\ outcome (augment_files project call tt) = inr (files c)
  /\ events (augment_rest_call call project tt) = events (augment_files project call tt)
  /\ outcome (after_files call project (base_url c) (path c) (url c) (method c)
                (files c) tt) = inr c.
Proof.
  rewrite augment_rest_call_run.
  destruct (outcome (require_str (raw_base_url call) _ tt)) as [e|base];
    [discriminate|].
  destruct (outcome (require_str (raw_path call) _ tt)) as [e|path_];
    [discriminate|].
  destruct (outcome (augment_url call base path_ tt)) as [e|url_] eqn:Hu;
    [discriminate|].
  destruct (outcome (augment_method call tt)) as [e|method_]; [discriminate|].
  destruct (outcome (augment_files project call tt)) as [e|files_]; [discriminate|].
  unfold outcome at 1. simpl. intros Hc.
  destruct (after_files_succeeded _ _ _ _ _ _ _ Hc)
    as (<- & <- & <- & <- & <- & _).
  repeat split; try reflexivity; assumption.
Qed.

(** X13. The URL of an augmented call is the configured [url] when there
    is one, and otherwise [base_url] followed by [path]; the three must be
    strings. *)
Theorem augmented_url (call : RawRestCall) (project : Path) (c : RestCall) :
  outcome (augment_rest_call call project tt) = inr c ->
  raw_base_url call = PStr (base_url c)
  /\ raw_path call = PStr (path c)
  /\ (raw_url call = PNone /\ url c = (base_url c ++ path c)%string
      \/ raw_url call = PStr (url c)).
Proof.
  intros H. destruct (augment_rest_call_succeeded call project H)
    as (Hb & Hp & Hu & _).
  unfold require_str, augment_url, outcome in *.
  destruct (raw_base_url call); try discriminate.
  destruct (raw_path call); try discriminate.
  injection Hb as ->. injection Hp as ->.
  repeat split.
  destruct (raw_url call); try discriminate; simpl in Hu; injection Hu as <-;
    [left|right]; repeat split.
Qed.

Lemma Method_of_name_inv (name : string) (m : Method) :
  Method_of_name name = Some m -> name = Method_name m.
Proof.
  unfold Method_of_name.
  destruct (String.eqb name "POST") eqn:E1;
    [apply String.eqb_eq in E1; intros [= <-]; exact E1|].
  destruct (String.eqb name "GET") eqn:E2;
    [apply String.eqb_eq in E2; intros [= <-]; exact E2|].
  destruct (String.eqb name "PUT") eqn:E3;
    [apply String.eqb_eq in E3; intros [= <-]; exact E3|].
  destruct (String.eqb name "DELETE") eqn:E4;
    [apply String.eqb_eq in E4; intros [= <-]; exact E4|].
  discriminate.
Qed.

Lemma Type_of_name_inv (name : string) (t : Type_) :
  Type_of_name name = Some t -> name = Type_name t.
Proof.
  unfold Type_of_name.
  destruct (String.eqb name "XML") eqn:E1;
    [apply String.eqb_eq in E1; intros [= <-]; exact E1|].
  destruct (String.eqb name "JSON") eqn:E2;
    [apply String.eqb_eq in E2; intros [= <-]; exact E2|].
  destruct (String.eqb name "TEXT") eqn:E3;
    [apply String.eqb_eq in E3; intros [= <-]; exact E3|].
  discriminate.
Qed.

(** X14. Augmentation accepts for [method] and [response_type] exactly
    the names of the members of the two enumerations, written as the
    members are, and maps each name to its member. *)
Theorem augmented_enumerations (call : RawRestCall) (project : Path) (c : RestCall) :
  outcome (augment_rest_call call project tt) = inr c ->
  raw_method call = PStr (Method_name (method c))
  /\ raw_response_type call = PStr (Type_name (response_type c)).
Proof.
  intros H. destruct (augment_rest_call_succeeded call project H)
    as (_ & _ & _ & Hm & _ & _ & Ha).
  destruct (after_files_succeeded _ _ _ _ _ _ _ Ha)
    as (_ & _ & _ & _ & _ & _ & _ & _ & _ & _ & _ & Ht & _).
  split.
  - unfold augment_method, bind, require_str, outcome in Hm.
    destruct (raw_method call); try discriminate. simpl in Hm.
    destruct (Method_of_name s) eqn:Hn; [|discriminate].
    simpl in Hm. injection Hm as <-. rewrite (Method_of_name_inv s Hn). reflexivity.
  - unfold augment_response_type, bind, require_str, outcome in Ht.
    destruct (raw_response_type call); try discriminate. simpl in Ht.
    destruct (Type_of_name s) eqn:Hn; [|discriminate].
    simpl in Ht. injection Ht as <-. rewrite (Type_of_name_inv s Hn). reflexivity.
Qed.

End AugmentResults.

Section AugmentResults2.
Import Rest.
Context {paths : Pathlib} {printers : Printers} {fs : FileSystem}.

Local Abbreviation Aug := (Exec unit Handle).

(** X15. In an augmented call every multipart field has become the
    triple [(None, dumps(part), "application/json")], under the same name
    and in the same order. *)
Theorem augmented_multipart (call : RawRestCall) (project : Path) (c : RestCall) :
  outcome (augment_rest_call call project tt) = inr c ->
  (raw_multipart call = PNone /\ multipart c = None)
  \/ exists parts,
       raw_multipart call = PDict parts
       /\ multipart c
          = Some (map (fun kv => (fst kv, EmptyFile (dumps (snd kv)) "application/json"))
                      parts).
Proof.
  intros H. destruct (augment_rest_call_succeeded call project H)
    as (_ & _ & _ & _ & _ & _ & Ha).
  destruct (after_files_succeeded _ _ _ _ _ _ _ Ha)
    as (_ & _ & _ & _ & _ & _ & Hm & _).
  unfold augment_multipart, bind, items, outcome in Hm.
  destruct (raw_multipart call) as [ | | | | |parts]; try discriminate;
    simpl in Hm; injection Hm as Hm.
  - left. split; [reflexivity|symmetry; exact Hm].
  - right. exists parts. split; [reflexivity|symmetry; exact Hm].
Qed.

(** X16. The assertion of an augmented call: none when none is
    configured; otherwise its value is the configured one and is a string
    or a mapping, and [only_defined] is the configured boolean, or false
    when it is absent or [None]. *)
Theorem augmented_assertion (call : RawRestCall) (project : Path) (c : RestCall) :
  outcome (augment_rest_call call project tt) = inr c ->
  (raw_assertion call = PNone /\ assertion c = None)
  \/ exists d a,
       raw_assertion call = PDict d /\ assertion c = Some a
       /\ dict_get "value" d = Some (value a)
       /\ ((exists s, value a = PStr s) \/ (exists m, value a = PDict m))
       /\ match dict_get "only_defined" d with
          | None | Some PNone => only_defined a = false
          | Some (PBool b) => only_defined a = b
          | Some _ => False
          end.
Proof.
  intros H. destruct (augment_rest_call_succeeded call project H)
    as (_ & _ & _ & _ & _ & _ & Ha).
  destruct (after_files_succeeded _ _ _ _ _ _ _ Ha)
    as (_ & _ & _ & _ & _ & _ & _ & _ & _ & _ & _ & _ & Hs & _).
  unfold augment_assertion, bind, outcome in Hs.
  destruct (raw_assertion call) as [ | | | | |d]; try discriminate.
  - left. simpl in Hs. injection Hs as Hs. split; [reflexivity|symmetry; exact Hs].
  - right. exists d.
    destruct (dict_get "only_defined" d) as [[ |b| | | | ]|]; simpl in Hs;
      try discriminate;
      (destruct (dict_get "value" d) as [[ | | |s| |m]|]; simpl in Hs;
       try discriminate);
      injection Hs as Hs; rewrite <- Hs; eexists;
      repeat split;
      first [left; eexists; reflexivity | right; eexists; reflexivity].
Qed.


End AugmentResults2.

Section AugmentFiles.
Import Rest.
Context {paths : Pathlib} {printers : Printers} {fs : FileSystem}.

Local Abbreviation Aug := (Exec unit Handle).






(** X19. A check that fails after the files were opened rejects the call
    with the files open: with a [timeout] that is not an integer, and the
    checks before it passing, the call is rejected for its timeout and
    every configured file has been opened. *)
Theorem late_rejection_leaves_files_open (call : RawRestCall) (project : Path)
    (base path_ : string) (m : Method) (loaded : option (Dict FileEntry)) :
  raw_base_url call = PStr base -> raw_path call = PStr path_ ->
  (raw_url call = PNone \/ exists u, raw_url call = PStr u) ->
  raw_method call = PStr (Method_name m) ->
  outcome (augment_files project call tt) = inr loaded ->
  (raw_multipart call = PNone \/ exists parts, raw_multipart call = PDict parts) ->
  as_int (raw_timeout call) = None ->
  outcome (augment_rest_call call project tt)
  = inl (ValueError "Timeout must be an integer, set 0 to disable.")
  /\ events (augment_rest_call call project tt)
     = events (augment_files project call tt).
Proof.
  intros Hb Hp Hu Hm Hf Hmp Ht.
  rewrite augment_rest_call_run, Hb, Hp. simpl.
  assert (Hurl : exists u, outcome (augment_url call base path_ tt) = inr u).
  { unfold augment_url. destruct Hu as [->|[u ->]]; eexists; reflexivity. }
  destruct Hurl as [u ->].
  assert (Hmeth : outcome (augment_method call tt) = inr m).
  { unfold augment_method, bind, require_str, outcome. rewrite Hm. simpl.
    destruct m; reflexivity. }
  rewrite Hmeth, Hf.
  unfold outcome at 1, events at 1. simpl. split; [|reflexivity].
  unfold after_files.
  rewrite (bind_after_quiet _ tt (augment_multipart_quiet call)).
  assert (Hmulti : exists mp, outcome (augment_multipart call tt) = inr mp).
  { unfold augment_multipart, bind, items, outcome.
    destruct Hmp as [->|[parts ->]]; eexists; reflexivity. }
  destruct Hmulti as [mp ->].
  rewrite (bind_after_quiet _ tt (augment_timeout_quiet call)).
  unfold augment_timeout at 1. rewrite Ht. reflexivity.
Qed.

Lemma require_str_error (v : PyVal) (msg : string) (e : PyExn) :
  outcome (require_str v msg tt : _ * unit * list Handle) = inl e -> e = ValueError msg.
Proof. destruct v; simpl; intros [= <-]; reflexivity. Qed.

(** X20. A [method] that is not the name of a member is refused with a
    [ValueError] before any file is opened (as is a [base_url], a [path]
    or a [url] that is not a string). *)
Theorem unsupported_method_opens_nothing (call : RawRestCall) (project : Path) :
  (forall m, raw_method call <> PStr (Method_name m)) ->
  events (augment_rest_call call project tt) = []
  /\ exists msg, outcome (augment_rest_call call project tt) = inl (ValueError msg).
Proof.
  intros Hm. rewrite augment_rest_call_run.
  destruct (outcome (require_str (raw_base_url call) _ tt)) as [e|base] eqn:H1.
  { apply require_str_error in H1. subst e. split; [reflexivity|eexists; reflexivity]. }
  destruct (outcome (require_str (raw_path call) _ tt)) as [e|path_] eqn:H2.
  { apply require_str_error in H2. subst e. split; [reflexivity|eexists; reflexivity]. }
  destruct (outcome (augment_url call base path_ tt)) as [e|url_] eqn:H3.
  { split; [reflexivity|]. unfold augment_url, outcome in H3.
    destruct (raw_url call); simpl in H3; try discriminate;
      injection H3 as <-; eexists; reflexivity. }
  assert (H4 : exists msg, outcome (augment_method call tt) = inl (ValueError msg)).
  { unfold augment_method, bind, require_str, outcome.
    destruct (raw_method call) as [ | | |name| | ] eqn:Hr;
      try (eexists; reflexivity).
    simpl. destruct (Method_of_name name) as [m|] eqn:Hn; [|eexists; reflexivity].
    exfalso. apply (Hm m). rewrite (Method_of_name_inv name Hn). reflexivity. }
  destruct H4 as [msg ->]. split; [reflexivity|exists msg; reflexivity].
Qed.

End AugmentFiles.

(** * More on the copy of files over SSH *)

Section DownloadFacts.
Import CopyFilesSsh.
Context {paths : Pathlib} {paramiko : Paramiko}.

Local Abbreviation M := (Exec World CopyFilesSsh.Event).

Lemma shows_entries (remote : Path) (n : string) (m : Z) (entries : list RemoteEntry) :
  shows remote (RemoteDir n m entries) ->
  S_ISDIR m = true /\ shows_all (joinpath remote (Path_of n)) entries.
Proof.
  simpl. intros (Hm & Hl & Ha). split; [exact Hm|]. split; [exact Hl|].
  clear Hl. induction entries as [|e entries IH]; [constructor|].
  destruct Ha as [He Ha]. constructor; [exact He|exact (IH Ha)].
Qed.

Lemma mirrored_bind (m : M unit) (k : M unit) (w : World)
    (g1 g2 d1 d2 : list CopyFilesSsh.Event) :
  mirrored (m w) g1 d1 ->
  (forall w', mirrored (k w') g2 d2) ->
  mirrored (bind m (fun _ => k) w) (g1 ++ g2) (d1 ++ d2).
Proof.
  unfold mirrored, bind, outcome, events.
  intros (Ho & Hg & Hd & Hc) Hk.
  destruct (m w) as [[r w1] t1]. simpl in *. subst r.
  specialize (Hk w1). destruct (k w1) as [[r2 w2] t2]. simpl in *.
  destruct Hk as (Ho2 & Hg2 & Hd2 & Hc2).
  rewrite !filter_app, existsb_app, Hg, Hg2, Hd, Hd2, Hc, Hc2.
  repeat split. exact Ho2.
Qed.

Lemma levels_of_cons (e : RemoteEntry) (entries : list RemoteEntry) :
  levels_of (e :: entries) = Nat.max (levels e) (levels_of entries).
Proof. reflexivity. Qed.

Lemma download_directory_mirrors (depth : nat) :
  (forall r l w', fst (sftp_get r l w') = inr tt) ->
  (forall p w', fst (path_mkdir p w') = inr tt) ->
  forall (remote local : Path) (entries : list RemoteEntry) (w : World),
    shows_all remote entries ->
    (levels_of entries < depth)%nat ->
    mirrored (download_directory depth remote local w)
      (flat_map (mirror_gets remote local) entries)
      (flat_map (mirror_mkdirs local) entries).
Proof.
  intros Hget Hmk.
  induction depth as [|depth IH]; intros remote local entries w Hs Hl; [lia|].
  destruct Hs as [Hls Hall].
  assert (Hloop : forall es w',
             Forall (shows remote) es -> (levels_of es <= depth)%nat ->
             mirrored
               (for_each (map attributes es)
                  (fun item =>
                     if S_ISDIR (st_mode item)
                     then local_mkdir (joinpath local (Path_of (filename item))) ;;
                          download_directory depth
                            (joinpath remote (Path_of (filename item)))
                            (joinpath local (Path_of (filename item)))
                     else get_ (as_posix (joinpath remote (Path_of (filename item))))
                               (as_posix (joinpath local (Path_of (filename item)))))
                  w')
               (flat_map (mirror_gets remote local) es)
               (flat_map (mirror_mkdirs local) es)).
  { induction es as [|e es IHes]; intros w' Hf Hle.
    - repeat split.
    - inversion Hf as [|? ? He Hf']; subst.
      rewrite levels_of_cons in Hle.
      simpl map. simpl for_each. simpl flat_map.
      apply mirrored_bind; [|intros w2; apply IHes; [exact Hf'|lia]].
      destruct e as [n m|n m cs]; simpl.
      + simpl in He. rewrite He.
        unfold mirrored, get_, call_lib, bind, emit, outcome, events.
        specialize (Hget (as_posix (joinpath remote (Path_of n)))
                         (as_posix (joinpath local (Path_of n))) w').
        destruct (sftp_get _ _ w') as [r w2]. simpl in *. subst r.
        repeat split.
      + destruct (shows_entries He) as [Hm Hcs]. rewrite Hm.
        change (LocalMkdir (as_posix (joinpath local (Path_of n)))
                :: flat_map (mirror_mkdirs (joinpath local (Path_of n))) cs)
          with ([LocalMkdir (as_posix (joinpath local (Path_of n)))]
                ++ flat_map (mirror_mkdirs (joinpath local (Path_of n))) cs).
        change (flat_map (mirror_gets (joinpath remote (Path_of n))
                            (joinpath local (Path_of n))) cs)
          with ([] ++ flat_map (mirror_gets (joinpath remote (Path_of n))
                                   (joinpath local (Path_of n))) cs).
        apply mirrored_bind.
        * unfold mirrored, local_mkdir, call_lib, bind, emit, outcome, events.
          specialize (Hmk (joinpath local (Path_of n)) w').
          destruct (path_mkdir _ w') as [r w2]. simpl in *. subst r.
          repeat split.
        * intros w2. apply IH; [exact Hcs|].
          change (levels (RemoteDir n m cs)) with (S (levels_of cs)) in Hle. lia. }
  simpl download_directory.
  change (flat_map (mirror_gets remote local) entries)
    with ([] ++ flat_map (mirror_gets remote local) entries).
  change (flat_map (mirror_mkdirs local) entries)
    with ([] ++ flat_map (mirror_mkdirs local) entries).
  apply mirrored_bind; [repeat split|]. intros w1.
  unfold bind, listdir_attr, call_lib, bind, emit.
  specialize (Hls w1).
  destruct (sftp_listdir_attr (as_posix remote) w1) as [r w2]. simpl in Hls. subst r.
  simpl.
  specialize (Hloop entries w2 Hall ltac:(lia)).
  unfold mirrored, outcome, events in *.
  destruct (for_each _ _ w2) as [[r3 w3] t3]. simpl in *.
  exact Hloop.
Qed.

End DownloadFacts.

Section TraceInvariants.
Context {S E : Type}.

Lemma never_bind (p : E -> bool) {A B} (m : Exec S E A) (k : A -> Exec S E B) :
  never p m -> (forall a, never p (k a)) -> never p (bind m k).
Proof.
  intros Hm Hk s. unfold bind. specialize (Hm s). unfold events in *.
  destruct (m s) as [[[e|a] s1] t1]; simpl in *; [exact Hm|].
  specialize (Hk a s1). unfold events in Hk.
  destruct (k a s1) as [[r s2] t2]. simpl in *.
  rewrite existsb_app, Hm, Hk. reflexivity.
Qed.

Lemma never_ret (p : E -> bool) {A} (a : A) : never p (ret a : Exec S E A).
Proof. intros s. reflexivity. Qed.

Lemma never_raise (p : E -> bool) {A} (e : PyExn) : never p (raise e : Exec S E A).
Proof. intros s. reflexivity. Qed.

Lemma never_assert (p : E -> bool) (b : bool) (msg : AssertMsg) :
  never p (py_assert b msg : Exec S E unit).
Proof. intros s. destruct b; reflexivity. Qed.

Lemma never_emit (p : E -> bool) (ev : E) :
  p ev = false -> never p (emit ev : Exec S E unit).
Proof. intros Hp s. unfold emit, events. simpl. rewrite Hp. reflexivity. Qed.

Lemma never_try_except (p : E -> bool) {A} (m : Exec S E A) (caught : PyExn -> bool)
    (h : PyExn -> Exec S E A) :
  never p m -> (forall e, never p (h e)) -> never p (try_except m caught h).
Proof.
  intros Hm Hh s. unfold try_except. specialize (Hm s). unfold events in *.
  destruct (m s) as [[[e|a] s1] t1]; simpl in *; [|exact Hm].
  destruct (caught e); [|exact Hm].
  specialize (Hh e s1). unfold events in Hh.
  destruct (h e s1) as [[r s2] t2]. simpl in *.
  rewrite existsb_app, Hm, Hh. reflexivity.
Qed.

Lemma never_try_finally (p : E -> bool) {A} (m : Exec S E A) (fin : Exec S E unit) :
  never p m -> never p fin -> never p (try_finally m fin).
Proof.
  intros Hm Hf s. unfold try_finally. specialize (Hm s). unfold events in *.
  destruct (m s) as [[r s1] t1]. simpl in *.
  specialize (Hf s1). unfold events in Hf.
  destruct (fin s1) as [[[e|u] s2] t2]; simpl in *;
    rewrite existsb_app, Hm, Hf; reflexivity.
Qed.

Lemma never_for_each (p : E -> bool) {A} (xs : list A) (body : A -> Exec S E unit) :
  (forall x, never p (body x)) -> never p (for_each xs body).
Proof.
  intros Hb. induction xs as [|x xs IH]; simpl.
  - apply never_ret.
  - apply never_bind; [apply Hb|intros _; exact IH].
Qed.

End TraceInvariants.

Section DirectionFacts.
Import CopyFilesSsh.
Context {paths : Pathlib} {paramiko : Paramiko}.

Local Abbreviation M := (Exec World CopyFilesSsh.Event).

Lemma never_call_lib (p : CopyFilesSsh.Event -> bool) {A} (ev : CopyFilesSsh.Event)
    (op : World -> (PyExn + A) * World) :
  p ev = false -> never p (call_lib ev op).
Proof.
  intros Hp w. unfold call_lib, bind, emit, events. simpl.
  destruct (op w) as [r w1]. simpl. rewrite Hp. reflexivity.
Qed.

Lemma never_is_dir (p : CopyFilesSsh.Event -> bool) (q : Path) : never p (is_dir q).
Proof. intros w. reflexivity. Qed.

Lemma never_remote_posix (p : CopyFilesSsh.Event -> bool) (r : option Path) :
  never p (remote_posix r).
Proof. intros w. destruct r; reflexivity. Qed.

Lemma download_directory_reads_only (depth : nat) :
  forall remote local, never changes_remote (download_directory depth remote local).
Proof.
  induction depth as [|depth IH]; intros remote local; simpl.
  - apply never_raise.
  - apply never_bind; [apply never_emit; reflexivity|intros _].
    apply never_bind; [apply never_call_lib; reflexivity|intros entries].
    apply never_for_each. intros item.
    destruct (S_ISDIR (st_mode item)).
    + apply never_bind; [apply never_call_lib; reflexivity|intros _]. apply IH.
    + apply never_call_lib. reflexivity.
Qed.

Lemma with_sftp_run {A} (body : M A) (w : World) :
  with_sftp body w
  = match ssh_open_sftp w with
    | (inl e, w1) => (inl e, w1, [OpenSftp])
    | (inr _, w1) =>
        (outcome (body w1), sftp_close (final (body w1)),
         OpenSftp :: events (body w1) ++ [CloseSftp])
    end.
Proof.
  unfold with_sftp, try_finally, call_lib, bind, emit, outcome, final, events.
  simpl. destruct (ssh_open_sftp w) as [[e|u] w1]; simpl; [reflexivity|].
  destruct (body w1) as [[r w2] t2]. reflexivity.
Qed.

Lemma never_with_sftp (p : CopyFilesSsh.Event -> bool) {A} (body : M A) :
  p OpenSftp = false -> p CloseSftp = false -> never p body ->
  never p (with_sftp body).
Proof.
  intros Ho Hc Hb. unfold with_sftp.
  apply never_bind; [apply never_call_lib; exact Ho|intros _].
  apply never_try_finally; [exact Hb|apply never_call_lib; exact Hc].
Qed.

Lemma never_run_with_ssh_client (p : CopyFilesSsh.Event -> bool)
    (user_ host_ password_ : string) (callable : M unit) :
  (forall msg, p (Info msg) = false) ->
  (forall h u pw, p (Connect h u pw) = false) -> p Close = false ->
  never p callable ->
  never p (run_with_ssh_client user_ host_ password_ callable).
Proof.
  intros Hi Hc Hcl Hb. unfold run_with_ssh_client.
  apply never_bind; [apply never_emit; apply Hi|intros _].
  apply never_try_finally.
  - apply never_bind; [apply never_call_lib; apply Hc|intros _; exact Hb].
  - apply never_call_lib. exact Hcl.
Qed.

(** X22. A transfer goes one way. A download asks the remote host for
    nothing but listings, attributes and file contents: it never puts a
    file there nor makes a directory there. An upload never fetches a file
    nor makes a local directory. *)
Theorem transfers_go_one_way (call : CopyFilesSshCall) (w : World) :
  if download call
  then existsb changes_remote (events (make_copy_files_ssh_call call w)) = false
  else existsb changes_local (events (make_copy_files_ssh_call call w)) = false.
Proof.
  unfold make_copy_files_ssh_call.
  destruct (download call).
  - apply never_run_with_ssh_client; try reflexivity.
    unfold copy_remote_file. simpl.
    apply never_with_sftp; try reflexivity.
    apply never_bind; [apply never_remote_posix|intros r].
    apply never_bind; [apply never_emit; reflexivity|intros _].
    apply never_bind; [apply never_call_lib; reflexivity|intros _].
    apply never_bind; [apply never_call_lib; reflexivity|intros mode].
    destruct (remote_path call) as [rp|]; [|apply never_raise].
    destruct (S_ISDIR mode);
      [apply download_directory_reads_only|apply never_call_lib; reflexivity].
  - apply never_run_with_ssh_client; try reflexivity.
    unfold copy_remote_file. simpl.
    apply never_with_sftp; try reflexivity.
    apply never_bind; [apply never_remote_posix|intros r].
    apply never_bind; [apply never_emit; reflexivity|intros _].
    apply never_bind.
    + apply never_try_except.
      * apply never_bind; [apply never_call_lib; reflexivity|intros _].
        apply never_ret.
      * intros e. apply never_call_lib. reflexivity.
    + intros _. apply never_bind; [apply never_is_dir|intros d].
      destruct d.
      * apply never_bind; [apply never_emit; reflexivity|intros _].
        first [apply never_assert|apply never_raise].
      * destruct (remote_path call); [apply never_call_lib; reflexivity|].
        apply never_raise.
Qed.

(** X23. The SFTP session is scoped like the client: when it cannot be
    opened nothing is closed but the client; once it is open, it is closed
    after the transfer, whatever the transfer did, and before the client
    is. *)
Theorem sftp_session_closed_before_client (call : CopyFilesSshCall) (w w1 : World) :
  ssh_connect (host call) (user call) (password call) w = (inr tt, w1) ->
  match ssh_open_sftp w1 with
  | (inl e, _) =>
      outcome (make_copy_files_ssh_call call w) = inl e
      /\ events (make_copy_files_ssh_call call w)
         = [Info ("Connect to " ++ user call ++ "@" ++ host call)%string;
            Connect (host call) (user call) (password call); OpenSftp; Close]
  | (inr _, _) =>
      exists transfer,
        events (make_copy_files_ssh_call call w)
        = [Info ("Connect to " ++ user call ++ "@" ++ host call)%string;
           Connect (host call) (user call) (password call); OpenSftp]
          ++ transfer ++ [CloseSftp; Close]
        /\ existsb (fun ev => match ev with
                              | OpenSftp | CloseSftp | Close | Connect _ _ _ => true
                              | _ => false
                              end) transfer = false
  end.
Proof.
  intros Hc. unfold make_copy_files_ssh_call.
  rewrite run_with_ssh_client_run, connect_then_run, Hc.
  unfold copy_remote_file. rewrite with_sftp_run.
  destruct (ssh_open_sftp w1) as [[e|u] w2].
  - split; reflexivity.
  - match goal with
    | |- context [events (?b w2)] => set (body := b)
    end.
    exists (events (body w2)). split.
    + unfold outcome, final, events. simpl. rewrite <- app_assoc. reflexivity.
    + assert (Hn : never (fun ev => match ev with
                                    | OpenSftp | CloseSftp | Close | Connect _ _ _ => true
                                    | _ => false
                                    end) body).
      { subst body. destruct (negb (download call)).
        - apply never_bind; [apply never_remote_posix|intros r].
          apply never_bind; [apply never_emit; reflexivity|intros _].
          apply never_bind.
          + apply never_try_except.
            * apply never_bind; [apply never_call_lib; reflexivity|intros _].
              apply never_ret.
            * intros e. apply never_call_lib. reflexivity.
          + intros _. apply never_bind; [apply never_is_dir|intros d].
            destruct d.
            * apply never_bind; [apply never_emit; reflexivity|intros _].
              first [apply never_assert|apply never_raise].
            * destruct (remote_path call); [apply never_call_lib; reflexivity|].
              apply never_raise.
        - apply never_bind; [apply never_remote_posix|intros r].
          apply never_bind; [apply never_emit; reflexivity|intros _].
          apply never_bind; [apply never_call_lib; reflexivity|intros _].
          apply never_bind; [apply never_call_lib; reflexivity|intros mode].
          destruct (remote_path call) as [rp|]; [|apply never_raise].
          destruct (S_ISDIR mode); [|apply never_call_lib; reflexivity].
          generalize recursion_limit. intros depth. revert rp.
          generalize (local_path call).
          induction depth as [|depth IH]; intros local rp; simpl.
          + apply never_raise.
          + apply never_bind; [apply never_emit; reflexivity|intros _].
            apply never_bind; [apply never_call_lib; reflexivity|intros entries].
            apply never_for_each. intros item.
            destruct (S_ISDIR (st_mode item)).
            * apply never_bind; [apply never_call_lib; reflexivity|intros _].
              apply IH.
            * apply never_call_lib. reflexivity. }
      apply Hn.
Qed.

End DirectionFacts.

Section TransferFacts.
Import CopyFilesSsh.
Context {paths : Pathlib} {paramiko : Paramiko}.

Local Abbreviation M := (Exec World CopyFilesSsh.Event).

(** X21. Downloading a remote directory mirrors it: when the host shows
    the tree [entries] under [remote], transfers and local [mkdir]s
    succeed, and the tree is less deep than the calls still allowed, the
    download returns normally, fetches every file of the tree once into
    the same place under [local], depth first in listing order, and makes
    the local directory of every remote directory before going into it. *)
Theorem download_mirrors_the_remote_tree (depth : nat) (remote local : Path)
    (entries : list RemoteEntry) (w : World) :
  (forall r l w', fst (sftp_get r l w') = inr tt) ->
  (forall p w', fst (path_mkdir p w') = inr tt) ->
  shows_all remote entries ->
  (levels_of entries < depth)%nat ->
  outcome (download_directory depth remote local w) = inr tt
  /\ filter is_Get (events (download_directory depth remote local w))
     = flat_map (mirror_gets remote local) entries
  /\ filter is_LocalMkdir (events (download_directory depth remote local w))
     = flat_map (mirror_mkdirs local) entries.
Proof.
  intros Hg Hm Hs Hl.
  destruct (@download_directory_mirrors _ _ depth Hg Hm remote local entries w Hs Hl)
    as (H1 & H2 & H3 & _).
  repeat split; assumption.
Qed.

(** X24. Uploading a file: the remote directory is probed first and made
    only when the probe says it is not there; the file is then put into
    it under its own name, and the outcome of the upload is that of the
    transfer. *)
Theorem upload_makes_the_remote_directory_when_missing
    (local rp : Path) (w w1 : World) :
  ssh_open_sftp w = (inr tt, w1) ->
  (forall w', path_is_dir local w' = false) ->
  (forall mode w2,
     sftp_stat (as_posix rp) w1 = (inr mode, w2) ->
     events (copy_remote_file local (Some rp) false w)
     = [OpenSftp;
        Info ("Copy the file " ++ as_posix local ++ " to " ++ as_posix rp)%string;
        Stat (as_posix rp);
        Put (as_posix local) (as_posix (joinpath rp (Path_of (path_name local))));
        CloseSftp]
     /\ outcome (copy_remote_file local (Some rp) false w)
        = fst (sftp_put (as_posix local)
                 (as_posix (joinpath rp (Path_of (path_name local)))) w2))
  /\ (forall w2 w3,
        sftp_stat (as_posix rp) w1 = (inl FileNotFoundError, w2) ->
        sftp_mkdir (as_posix rp) w2 = (inr tt, w3) ->
        events (copy_remote_file local (Some rp) false w)
        = [OpenSftp;
           Info ("Copy the file " ++ as_posix local ++ " to " ++ as_posix rp)%string;
           Stat (as_posix rp); Mkdir (as_posix rp);
           Put (as_posix local) (as_posix (joinpath rp (Path_of (path_name local))));
           CloseSftp]
        /\ outcome (copy_remote_file local (Some rp) false w)
           = fst (sftp_put (as_posix local)
                    (as_posix (joinpath rp (Path_of (path_name local)))) w3)).
Proof.
  intros Ho Hd. split.
  - intros mode w2 Hs.
    unfold copy_remote_file. rewrite with_sftp_run, Ho.
    unfold try_except, remote_posix, stat, mkdir, put, is_dir, call_lib, bind,
      emit, ret, outcome, final, events. simpl.
    rewrite Hs. simpl. rewrite Hd.
    destruct (sftp_put _ _ w2) as [r w3]. split; reflexivity.
  - intros w2 w3 Hs Hm.
    unfold copy_remote_file. rewrite with_sftp_run, Ho.
    unfold try_except, remote_posix, stat, mkdir, put, is_dir, call_lib, bind,
      emit, ret, outcome, final, events. simpl.
    rewrite Hs. simpl. rewrite Hm. simpl. rewrite Hd.
    destruct (sftp_put _ _ w3) as [r w4]. split; reflexivity.
Qed.

(** X25. An upload stops before any transfer when the probe of the
    remote directory fails for another reason than its absence, and when
    the directory cannot be made: the error is raised to the caller and
    the SFTP session closed. *)
Theorem upload_stops_when_the_remote_directory_fails
    (local rp : Path) (w w1 : World) :
  ssh_open_sftp w = (inr tt, w1) ->
  (forall e w2,
     sftp_stat (as_posix rp) w1 = (inl e, w2) ->
     is_FileNotFoundError e = false ->
     outcome (copy_remote_file local (Some rp) false w) = inl e
     /\ events (copy_remote_file local (Some rp) false w)
        = [OpenSftp;
           Info ("Copy the file " ++ as_posix local ++ " to " ++ as_posix rp)%string;
           Stat (as_posix rp); CloseSftp])
  /\ (forall e w2 w3,
        sftp_stat (as_posix rp) w1 = (inl FileNotFoundError, w2) ->
        sftp_mkdir (as_posix rp) w2 = (inl e, w3) ->
        outcome (copy_remote_file local (Some rp) false w) = inl e
        /\ events (copy_remote_file local (Some rp) false w)
           = [OpenSftp;
              Info ("Copy the file " ++ as_posix local ++ " to " ++ as_posix rp)%string;
              Stat (as_posix rp); Mkdir (as_posix rp); CloseSftp]).
Proof.
  intros Ho. split.
  - intros e w2 Hs He.
    unfold copy_remote_file. rewrite with_sftp_run, Ho.
    unfold try_except, remote_posix, stat, mkdir, put, is_dir, call_lib, bind,
      emit, ret, outcome, final, events. simpl.
    rewrite Hs. simpl. rewrite He. split; reflexivity.
  - intros e w2 w3 Hs Hm.
    unfold copy_remote_file. rewrite with_sftp_run, Ho.
    unfold try_except, remote_posix, stat, mkdir, put, is_dir, call_lib, bind,
      emit, ret, outcome, final, events. simpl.
    rewrite Hs. simpl. rewrite Hm. split; reflexivity.
Qed.

(** X26. A download makes the local directory before it looks at the
    remote path: when the remote path cannot be probed the error is
    raised, nothing is fetched, and the local directory has been made. *)
Theorem download_makes_the_local_directory_first
    (local rp : Path) (w w1 w2 w3 : World) (e : PyExn) :
  ssh_open_sftp w = (inr tt, w1) ->
  path_mkdir local w1 = (inr tt, w2) ->
  sftp_stat (as_posix rp) w2 = (inl e, w3) ->
  outcome (copy_remote_file local (Some rp) true w) = inl e
  /\ events (copy_remote_file local (Some rp) true w)
     = [OpenSftp;
        Info ("Copy the file " ++ as_posix rp ++ " to " ++ as_posix local)%string;
        LocalMkdir (as_posix local); Stat (as_posix rp); CloseSftp].
Proof.
  intros Ho Hm Hs.
  unfold copy_remote_file. rewrite with_sftp_run, Ho.
  unfold remote_posix, stat, local_mkdir, call_lib, bind, emit, ret, outcome,
    final, events. simpl.
  rewrite Hm. simpl. rewrite Hs. split; reflexivity.
Qed.

(** X27. A call without [remote_path] passes augmentation. Its execution
    connects, opens the SFTP session, raises the [AttributeError] of
    calling [as_posix] on [None] before anything is asked of the session,
    and closes session and client. *)
Theorem absent_remote_path_fails_only_in_execution
    (raw : RawCopyFilesSshCall) (project : Path) (s : string) :
  raw_local_path raw = Some s -> raw_remote_path raw = None ->
  exists call,
    augment_copy_files_ssh_call raw project = inr call
    /\ remote_path call = None
    /\ forall w w1 w2,
         ssh_connect (host call) (user call) (password call) w = (inr tt, w1) ->
         ssh_open_sftp w1 = (inr tt, w2) ->
         outcome (make_copy_files_ssh_call call w)
         = inl (AttributeError "'NoneType' object has no attribute 'as_posix'")
         /\ events (make_copy_files_ssh_call call w)
            = [Info ("Connect to " ++ user call ++ "@" ++ host call)%string;
               Connect (host call) (user call) (password call);
               OpenSftp; CloseSftp; Close].
Proof.
  intros Hl Hr. unfold augment_copy_files_ssh_call. rewrite Hl, Hr. simpl.
  eexists. split; [reflexivity|]. split; [reflexivity|].
  intros w w1 w2 Hc Ho. simpl in *.
  unfold make_copy_files_ssh_call. simpl.
  rewrite run_with_ssh_client_run, connect_then_run, Hc.
  unfold copy_remote_file. rewrite with_sftp_run, Ho.
  destruct (negb (raw_download raw)); split; reflexivity.
Qed.

End TransferFacts.

Section TransferFacts2.
Import CopyFilesSsh.
Context {paths : Pathlib} {paramiko : Paramiko}.

Local Abbreviation M := (Exec World CopyFilesSsh.Event).

Lemma download_loop_stops (depth : nat) (remote local : Path)
    (pre post : list SFTPAttributes) (it : SFTPAttributes) (e : PyExn) :
  Forall (fun x => S_ISDIR (st_mode x) = false) (pre ++ [it]) ->
  (forall x, In x pre ->
     forall w', fst (sftp_get (as_posix (joinpath remote (Path_of (filename x))))
                       (as_posix (joinpath local (Path_of (filename x)))) w') = inr tt) ->
  (forall w', fst (sftp_get (as_posix (joinpath remote (Path_of (filename it))))
                     (as_posix (joinpath local (Path_of (filename it)))) w') = inl e) ->
  forall w,
    exists w2,
      for_each (pre ++ it :: post)
        (fun item =>
           if S_ISDIR (st_mode item)
           then local_mkdir (joinpath local (Path_of (filename item))) ;;
                download_directory depth
                  (joinpath remote (Path_of (filename item)))
                  (joinpath local (Path_of (filename item)))
           else get_ (as_posix (joinpath remote (Path_of (filename item))))
                     (as_posix (joinpath local (Path_of (filename item)))))
        w
      = (inl e, w2, map (get_of remote local) (pre ++ [it])).
Proof.
  intros Hfiles Hpre Hit.
  induction pre as [|x pre IH]; intros w; simpl.
  - inversion Hfiles as [|? ? Hx _]; subst. unfold bind. rewrite Hx.
    unfold get_, call_lib, bind, emit.
    specialize (Hit w). destruct (sftp_get _ _ w) as [r w1]. simpl in *. subst r.
    eexists. reflexivity.
  - inversion Hfiles as [|? ? Hx Hrest]; subst. unfold bind at 1. rewrite Hx.
    unfold get_ at 1, call_lib, bind at 1, emit.
    pose proof (Hpre x (or_introl eq_refl) w) as Hgx.
    destruct (sftp_get _ _ w) as [r w1]. simpl in Hgx. subst r. simpl.
    destruct (IH Hrest (fun y Hy => Hpre y (or_intror Hy)) w1) as [w2 ->].
    eexists. reflexivity.
Qed.

(** X28. A transfer that fails ends the download of a directory: the
    files listed before it have been fetched, the error of the transfer
    is raised, and the files listed after it are not asked for. *)
Theorem download_stops_at_the_first_failed_transfer (depth : nat) (remote local : Path)
    (pre post : list SFTPAttributes) (it : SFTPAttributes) (e : PyExn) (w w1 : World) :
  sftp_listdir_attr (as_posix remote) w = (inr (pre ++ it :: post), w1) ->
  Forall (fun x => S_ISDIR (st_mode x) = false) (pre ++ [it]) ->
  (forall x, In x pre ->
     forall w', fst (sftp_get (as_posix (joinpath remote (Path_of (filename x))))
                       (as_posix (joinpath local (Path_of (filename x)))) w') = inr tt) ->
  (forall w', fst (sftp_get (as_posix (joinpath remote (Path_of (filename it))))
                     (as_posix (joinpath local (Path_of (filename it)))) w') = inl e) ->
  outcome (download_directory (S depth) remote local w) = inl e
  /\ filter is_Get (events (download_directory (S depth) remote local w))
     = map (get_of remote local) (pre ++ [it]).
Proof.
  intros Hls Hfiles Hpre Hit.
  destruct (@download_loop_stops depth remote local pre post it e Hfiles Hpre Hit w1)
    as [w2 Hloop].
  simpl download_directory.
  unfold bind, emit, listdir_attr, call_lib, bind, emit.
  rewrite Hls. simpl. unfold bind in Hloop. rewrite Hloop.
  unfold outcome, events. simpl. split; [reflexivity|].
  clear. induction (pre ++ [it]) as [|x l IH]; simpl; [reflexivity|].
  rewrite IH. reflexivity.
Qed.

End TransferFacts2.

(** * The unused upload of a directory *)

Section UploadFacts.
Import CopyFilesSsh Upload.
Context {paths : Pathlib} {paramiko : Paramiko} {dirs : LocalDirs}.

Local Abbreviation U := (Exec World Upload.Event).

Lemma upload_directory_run (depth : nat) (local remote : Path) (w : World) :
  exists printed,
    upload_directory (S depth) local remote w
    = (inr tt,
       final (upload_entries (upload_directory depth) local remote w),
       Lib (Debug ("Upload directory " ++ as_posix local ++ " to "
                     ++ as_posix remote)%string)
       :: events (upload_entries (upload_directory depth) local remote w) ++ printed)
    /\ printed
       = match outcome (upload_entries (upload_directory depth) local remote w) with
         | inl e => [Print (if is_FileNotFoundError e
                            then LocalDirectoryNotFound (as_posix local)
                            else ErrorUploading e)]
         | inr _ => []
         end.
Proof.
  cbn [upload_directory].
  unfold bind at 1. unfold lib at 1, emit at 1. cbn [map app].
  unfold try_except, outcome, final, events.
  destruct (upload_entries (upload_directory depth) local remote w)
    as [[[e|[]] w1] t1]; cbn [fst snd].
  - unfold report. destruct (is_FileNotFoundError e); eexists; split; reflexivity.
  - exists []. rewrite app_nil_r. split; reflexivity.
Qed.

(** X29. [upload_directory] never raises: whatever the remote host and
    the local file system answer, and even when a nested call exceeds the
    recursion limit, the call returns normally; what failed is printed,
    as a missing local directory when it is a [FileNotFoundError]. *)
Theorem upload_directory_never_raises (depth : nat) (local remote : Path) (w : World) :
  outcome (upload_directory (S depth) local remote w) = inr tt
  /\ forall e,
       outcome (upload_entries (upload_directory depth) local remote w) = inl e ->
       exists before,
         events (upload_directory (S depth) local remote w)
         = before ++ [Print (if is_FileNotFoundError e
                             then LocalDirectoryNotFound (as_posix local)
                             else ErrorUploading e)].
Proof.
  destruct (upload_directory_run depth local remote w) as [printed [-> Hp]].
  split; [reflexivity|].
  intros e He. rewrite He in Hp. subst printed.
  eexists (_ :: _). unfold events at 1. cbn [snd]. reflexivity.
Qed.

Lemma upload_entries_probe_first (nested : Path -> Path -> U unit)
    (local remote : Path) (w : World) :
  exists rest,
    events (upload_entries nested local remote w) = Lib (Stat (as_posix remote)) :: rest.
Proof.
  unfold upload_entries. unfold bind at 1. unfold try_except at 1.
  unfold bind at 1. unfold lib at 1, stat at 1, call_lib, bind at 1, emit at 1.
  cbn [app map].
  destruct (sftp_stat (as_posix remote) w) as [[e|m] w1]; cbn [map app].
  - destruct (is_FileNotFoundError e).
    + match goal with
      | |- context [lib ?m w1] => destruct (lib m w1) as [[[e2|u] w2] t2]
      end.
      * eexists. reflexivity.
      * match goal with
        | |- context [bind ?m ?k w2] => destruct (bind m k w2) as [[r3 w3] t3]
        end.
        eexists. reflexivity.
    + eexists. reflexivity.
  - unfold ret at 1. cbn [app].
    match goal with
    | |- context [bind ?m ?k w1] => destruct (bind m k w1) as [[r3 w3] t3]
    end.
    eexists. reflexivity.
Qed.

(** X30. In the nested call for a sub-directory the two paths change
    places: the call takes [remote/name] for the local directory and the
    local sub-directory for the remote one, so the next thing asked of the
    remote host is the attributes of the local path. *)
Theorem upload_directory_swaps_the_paths_of_a_subdirectory
    (depth : nat) (local remote item : Path) (mode : Z) (w w1 w2 : World) :
  sftp_stat (as_posix remote) w = (inr mode, w1) ->
  path_iterdir local w1 = (inr [item], w2) ->
  path_is_file item w2 = false ->
  path_is_dir item w2 = true ->
  exists rest,
    events (upload_directory (S (S depth)) local remote w)
    = [Lib (Debug ("Upload directory " ++ as_posix local ++ " to "
                     ++ as_posix remote)%string);
       Lib (Stat (as_posix remote));
       Lib (Debug ("Upload directory "
                     ++ as_posix (joinpath remote (Path_of (path_name item)))
                     ++ " to " ++ as_posix item)%string);
       Lib (Stat (as_posix item))] ++ rest.
Proof.
  intros Hs Hi Hf Hd.
  destruct (upload_directory_run (S depth) local remote w) as [printed [-> _]].
  unfold events at 1. cbn [snd].
  assert (He : events (upload_entries (upload_directory (S depth)) local remote w)
               = Lib (Stat (as_posix remote))
                 :: events (upload_directory (S depth)
                              (joinpath remote (Path_of (path_name item))) item w2)).
  { unfold upload_entries. unfold bind at 1. unfold try_except at 1.
    unfold bind at 1. unfold lib at 1, stat at 1, call_lib, bind at 1, emit at 1.
    rewrite Hs. cbn [map app]. unfold ret at 1. cbn [app].
    unfold bind at 1. unfold iterdir at 1. rewrite Hi.
    cbn [for_each]. unfold bind at 1. unfold bind at 1.
    unfold is_file at 1. rewrite Hf.
    unfold bind at 1. unfold lib at 1, is_dir at 1. rewrite Hd. cbn [map app].
    unfold events.
    destruct (upload_directory (S depth)
                (joinpath remote (Path_of (path_name item))) item w2)
      as [[[e|[]] w3] t3]; unfold ret; cbn [snd fst app];
      rewrite ?app_nil_r; reflexivity. }
  rewrite He.
  destruct (upload_directory_run depth
              (joinpath remote (Path_of (path_name item))) item w2)
    as [printed2 [-> _]].
  unfold events at 1. cbn [snd].
  destruct (upload_entries_probe_first (upload_directory depth)
              (joinpath remote (Path_of (path_name item))) item w2) as [rest ->].
  eexists. cbn [app]. reflexivity.
Qed.

End UploadFacts.

(** * The further properties on concrete calls *)

Section RestScenarios.
Import Rest Fixture Scenario.
Existing Instance plain.

Lemma status_is_checked_first_witness :
  outcome (assert_response (requests := server (text_response 204 ""))
             (rest_call GET 0 [] None None JSON None))
  = inl (AssertionError NoMessage).
Proof.
  apply (proj1 (@status_is_checked_first posix plain (server (text_response 204 ""))
                  (rest_call GET 0 [] None None JSON None)
                  (text_response 204 "") eq_refl)).
  simpl. intros [H|[]]. discriminate.
Defined.

Lemma text_assertion_is_exact_witness :
  outcome (assert_response (requests := server (text_response 200 "ok "))
             (rest_call GET 0 [] None None TEXT (expect (PStr "ok") false)))
  = inl (AssertionError NoMessage).
Proof.
  apply (proj2 (@text_assertion_is_exact posix plain (server (text_response 200 "ok "))
                  (rest_call GET 0 [] None None TEXT (expect (PStr "ok") false))
                  (text_response 200 "ok ")
                  {| value := PStr "ok"; only_defined := false |} "ok"
                  eq_refl (or_introl eq_refl) eq_refl eq_refl)).
  simpl. discriminate.
Defined.

Lemma request_contents_witness :
  exists kwargs,
    Sent POST "http://localhost/status"
      [("timeout", KwTimeout 10); ("headers", KwHeaders []);
       ("files", KwFiles a_part); ("verify", KwVerify false)]
    = Sent POST "http://localhost/status" kwargs
    /\ dict_get "files" kwargs = Some (KwFiles a_part)
    /\ dict_get "data" kwargs = None.
Proof.
  destruct (@request_contents posix plain (server (ok200 PNone))
              (rest_call POST 0 content_type None (Some a_part) JSON None)
              (Sent POST "http://localhost/status"
                 [("timeout", KwTimeout 10); ("headers", KwHeaders []);
                  ("files", KwFiles a_part); ("verify", KwVerify false)])
              (or_intror (or_introl eq_refl)) eq_refl)
    as (kwargs & He & _ & _ & _ & Hf & Hd).
  exists kwargs. repeat split; assumption.
Defined.

Lemma only_assertion_failures_are_handled_witness :
  make_rest_call (requests := offline) (rest_call GET 0 [] None None JSON None)
  = assert_response (requests := offline) (rest_call GET 0 [] None None JSON None).
Proof.
  apply (@only_assertion_failures_are_handled posix plain offline).
  intros msg. discriminate.
Defined.

Lemma transport_failure_propagates_witness :
  outcome (assert_response (requests := offline)
             (rest_call GET 0 [] None None JSON None))
  = inl (LibraryError "ConnectionError").
Proof.
  apply (@transport_failure_propagates posix plain offline
           (rest_call GET 0 [] None None JSON None)
           (LibraryError "ConnectionError") eq_refl).
  - discriminate.
  - reflexivity.
Defined.

Lemma second_execution_raises_key_error_witness :
  outcome (make_rest_call (requests := server (ok200 PNone))
             (final (make_rest_call (requests := server (ok200 PNone))
                       (rest_call POST 0 content_type (Some a_file) None JSON None))))
  = inl (KeyError "Content-Type").
Proof.
  apply (@second_execution_raises_key_error posix plain (server (ok200 PNone))
           (rest_call POST 0 content_type (Some a_file) None JSON None)).
  reflexivity.
Defined.

Lemma multipart_fields_replace_files_witness :
  exists f,
    files (final (make_rest_call (requests := server (ok200 PNone))
                    (rest_call POST 0 content_type (Some a_file) (Some a_part)
                       JSON None)))
    = Some f
    /\ dict_get "meta" f = Some (EmptyFile "{}" "application/json")
    /\ dict_get "file" f = dict_get "file" a_file.
Proof.
  destruct (@multipart_fields_replace_files posix plain (server (ok200 PNone))
              (rest_call POST 0 content_type (Some a_file) (Some a_part) JSON None)
              [] "meta" (EmptyFile "{}" "application/json") eq_refl)
    as (f & Hf & Hin & Hout).
  - repeat constructor. intros [].
  - exists f. split; [exact Hf|]. split.
    + apply Hin. reflexivity.
    + apply (Hout "file"). reflexivity.
Defined.

Lemma hide_logs_hides_the_body_only_witness :
  In (Info (ResponseStatus 200))
     (events (make_rest_call (requests := server (ok200 PNone))
                (rest_call GET 0 [] None None JSON None))).
Proof.
  apply (@hide_logs_hides_the_body_only posix plain (server (ok200 PNone))
           (rest_call GET 0 [] None None JSON None) (ok200 PNone) eq_refl).
Defined.

Lemma unparsable_body_raises_decode_error_witness :
  outcome (make_rest_call (requests := server (text_response 200 "<html>"))
             (rest_call GET 0 [] None None JSON (expect (PDict [("a", PInt 1)]) true)))
  = inl JSONDecodeError.
Proof.
  apply (@unparsable_body_raises_decode_error posix plain
           (server (text_response 200 "<html>"))
           (rest_call GET 0 [] None None JSON (expect (PDict [("a", PInt 1)]) true))
           (text_response 200 "<html>")
           {| value := PDict [("a", PInt 1)]; only_defined := true |}
           eq_refl (or_introl eq_refl) eq_refl).
  - left. eexists. reflexivity.
  - reflexivity.
Defined.

Lemma only_defined_needs_a_mapping_body_witness :
  outcome (assert_response (requests := server (ok200 (PList [])))
             (rest_call GET 0 [] None None JSON (expect (PDict []) true)))
  = inl (AssertionError NoMessage).
Proof.
  apply (proj1 (@only_defined_needs_a_mapping_body posix plain
                  (server (ok200 (PList [])))
                  (rest_call GET 0 [] None None JSON (expect (PDict []) true))
                  (ok200 (PList []))
                  {| value := PDict []; only_defined := true |} [] (PList [])
                  eq_refl (or_introl eq_refl) eq_refl eq_refl eq_refl eq_refl)).
  intros body. discriminate.
Defined.

Lemma unsupported_assertion_kind_fails_witness :
  outcome (assert_response (requests := server (ok200 (PInt 7)))
             (rest_call GET 0 [] None None JSON (expect (PInt 7) false)))
  = inl (AssertionError NoMessage).
Proof.
  apply (@unsupported_assertion_kind_fails posix plain (server (ok200 (PInt 7)))
           (rest_call GET 0 [] None None JSON (expect (PInt 7) false))
           (ok200 (PInt 7)) {| value := PInt 7; only_defined := false |}
           eq_refl (or_introl eq_refl) eq_refl I).
Defined.

End RestScenarios.

Section AugmentScenarios.
Import Rest Fixture Scenario.
Existing Instance plain.

(** [good_raw_call], augmented under [/project]. *)
Lemma good_raw_call_augmented :
  { c : RestCall (paths := posix)
  | outcome (augment_rest_call (fs := disk) good_raw_call (Path_of "/project") tt)
    = inr c }.
Proof. eexists. vm_compute. reflexivity. Defined.

Lemma augmented_url_witness :
  url (proj1_sig good_raw_call_augmented) = "http://localhost/upload".
Proof.
  destruct (@augmented_url posix plain disk good_raw_call (Path_of "/project")
              (proj1_sig good_raw_call_augmented)
              (proj2_sig good_raw_call_augmented))
    as (_ & _ & [[_ Hu]|Hu]).
  - exact Hu.
  - discriminate.
Defined.

Lemma augmented_enumerations_witness :
  PStr "POST" = PStr (Method_name (method (proj1_sig good_raw_call_augmented))).
Proof.
  exact (proj1 (@augmented_enumerations posix plain disk good_raw_call
                  (Path_of "/project") (proj1_sig good_raw_call_augmented)
                  (proj2_sig good_raw_call_augmented))).
Defined.

Lemma augmented_multipart_witness :
  exists parts,
    PDict [("meta", PDict [("k", PInt 1)])] = PDict parts
    /\ multipart (proj1_sig good_raw_call_augmented)
       = Some (map (fun kv => (fst kv, EmptyFile (dumps (snd kv)) "application/json"))
                   parts).
Proof.
  destruct (@augmented_multipart posix plain disk good_raw_call (Path_of "/project")
              (proj1_sig good_raw_call_augmented)
              (proj2_sig good_raw_call_augmented))
    as [[Hn _]|H].
  - discriminate.
  - exact H.
Defined.

Lemma augmented_assertion_witness :
  exists a,
    assertion (proj1_sig good_raw_call_augmented) = Some a
    /\ ((exists s, value a = PStr s) \/ (exists m, value a = PDict m)).
Proof.
  destruct (@augmented_assertion posix plain disk good_raw_call (Path_of "/project")
              (proj1_sig good_raw_call_augmented)
              (proj2_sig good_raw_call_augmented))
    as [[Hn _]|(d & a & _ & Ha & _ & Hk & _)].
  - discriminate.
  - exists a. split; assumption.
Defined.



Lemma late_rejection_leaves_files_open_witness :
  outcome (augment_rest_call (fs := disk)
             (raw_call (PStr "POST") PNone (PStr "soon") PNone) (Path_of "/project") tt)
  = inl (ValueError "Timeout must be an integer, set 0 to disable.")
  /\ events (augment_rest_call (fs := disk)
               (raw_call (PStr "POST") PNone (PStr "soon") PNone)
               (Path_of "/project") tt)
     = [FileObject "/project/a.txt" "r"].
Proof.
  apply (@late_rejection_leaves_files_open posix plain disk
           (raw_call (PStr "POST") PNone (PStr "soon") PNone) (Path_of "/project")
           "http://localhost" "/upload" POST
           (Some [("file", LoadedFile (PStr "a.txt") (FileObject "/project/a.txt" "r")
                             (PStr "text/plain"))])
           eq_refl eq_refl (or_introl eq_refl) eq_refl eq_refl).
  - right. eexists. reflexivity.
  - reflexivity.
Defined.

Lemma unsupported_method_opens_nothing_witness :
  events (augment_rest_call (fs := disk)
            (raw_call (PStr "get") PNone (PInt 0) PNone) (Path_of "/project") tt)
  = [].
Proof.
  apply (@unsupported_method_opens_nothing posix plain disk
           (raw_call (PStr "get") PNone (PInt 0) PNone) (Path_of "/project")).
  intros m. destruct m; discriminate.
Defined.

End AugmentScenarios.

Section HostScenarios.
Import CopyFilesSsh Fixture Scenario.

Lemma download_mirrors_the_remote_tree_witness :
  filter is_Get
    (events (download_directory (paramiko := data_host) 1000
               (Path_of "/srv/data") (Path_of "/project/in") tt))
  = [Get "/srv/data/a.txt" "/project/in/a.txt";
     Get "/srv/data/sub/b.txt" "/project/in/sub/b.txt"].
Proof.
  apply (@download_mirrors_the_remote_tree posix data_host 1000
           (Path_of "/srv/data") (Path_of "/project/in") data_tree tt).
  - intros r l w'. reflexivity.
  - intros p w'. reflexivity.
  - split.
    + intros w'. reflexivity.
    + repeat constructor; intros w'; reflexivity.
  - vm_compute. lia.
Defined.

Lemma sftp_session_closed_before_client_witness :
  exists transfer,
    events (make_copy_files_ssh_call (paramiko := host_of_directories)
              upload_of_a_directory tt)
    = [Info "Connect to tester@example.org";
       Connect "example.org" "tester" "secret"; OpenSftp]
      ++ transfer ++ [CloseSftp; Close].
Proof.
  destruct (@sftp_session_closed_before_client posix host_of_directories
              upload_of_a_directory tt tt eq_refl) as (transfer & He & _).
  exists transfer. exact He.
Defined.

Lemma upload_makes_the_remote_directory_when_missing_witness :
  events (copy_remote_file (paramiko := empty_host)
            (Path_of "report.txt") (Some (Path_of "/srv/in")) false tt)
  = [OpenSftp; Info "Copy the file report.txt to /srv/in";
     Stat "/srv/in"; Mkdir "/srv/in";
     Put "report.txt" "/srv/in/report.txt"; CloseSftp].
Proof.
  apply (proj1 (proj2 (@upload_makes_the_remote_directory_when_missing posix empty_host
                         (Path_of "report.txt") (Path_of "/srv/in") tt tt
                         eq_refl (fun _ => eq_refl)) tt tt eq_refl eq_refl)).
Defined.

Lemma upload_stops_when_the_remote_directory_fails_witness :
  events (copy_remote_file (paramiko := locked_host)
            (Path_of "report.txt") (Some (Path_of "/srv/in")) false tt)
  = [OpenSftp; Info "Copy the file report.txt to /srv/in"; Stat "/srv/in"; CloseSftp].
Proof.
  apply (proj2 (proj1 (@upload_stops_when_the_remote_directory_fails posix locked_host
                         (Path_of "report.txt") (Path_of "/srv/in") tt tt eq_refl)
                  (LibraryError "PermissionError") tt eq_refl eq_refl)).
Defined.

Lemma download_makes_the_local_directory_first_witness :
  events (copy_remote_file (paramiko := empty_host)
            (Path_of "/project/in") (Some (Path_of "/srv/data")) true tt)
  = [OpenSftp; Info "Copy the file /srv/data to /project/in";
     LocalMkdir "/project/in"; Stat "/srv/data"; CloseSftp].
Proof.
  apply (proj2 (@download_makes_the_local_directory_first posix empty_host
                  (Path_of "/project/in") (Path_of "/srv/data") tt tt tt tt
                  FileNotFoundError eq_refl eq_refl eq_refl)).
Defined.

Lemma absent_remote_path_fails_only_in_execution_witness :
  exists call,
    augment_copy_files_ssh_call (paths := posix) (raw_copy_call None) (Path_of "/project")
    = inr call
    /\ remote_path call = None.
Proof.
  destruct (@absent_remote_path_fails_only_in_execution posix host_of_directories
              (raw_copy_call None) (Path_of "/project") "out/report.txt"
              eq_refl eq_refl) as (call & Ha & Hr & _).
  exists call. split; assumption.
Defined.

Lemma download_stops_at_the_first_failed_transfer_witness :
  outcome (download_directory (paramiko := flaky_host) 1
             (Path_of "/srv/in") (Path_of "/project/in") tt)
  = inl (LibraryError "IOError").
Proof.
  apply (fun H1 H2 H3 => proj1 (@download_stops_at_the_first_failed_transfer posix flaky_host 0
           (Path_of "/srv/in") (Path_of "/project/in")
           [file_attr "a.txt"] [file_attr "c.txt"] (file_attr "b.txt")
           (LibraryError "IOError") tt tt eq_refl H1 H2 H3)).
  - repeat constructor.
  - intros x [<-|[]] w'. reflexivity.
  - intros w'. reflexivity.
Defined.

Lemma upload_directory_never_raises_witness :
  outcome (Upload.upload_directory (dirs := nested_dirs) 1
             (Path_of "/project/out") (Path_of "/srv/in") tt)
  = inr tt.
Proof.
  apply (proj1 (@upload_directory_never_raises posix host_of_directories
                  nested_dirs 0 (Path_of "/project/out") (Path_of "/srv/in") tt)).
Defined.

Lemma upload_directory_swaps_the_paths_of_a_subdirectory_witness :
  exists rest,
    events (Upload.upload_directory (dirs := nested_dirs) 2
              (Path_of "/project/out") (Path_of "/srv/in") tt)
    = [Upload.Lib (Debug "Upload directory /project/out to /srv/in");
       Upload.Lib (Stat "/srv/in");
       Upload.Lib (Debug "Upload directory /srv/in/sub to sub");
       Upload.Lib (Stat "sub")] ++ rest.
Proof.
  apply (@upload_directory_swaps_the_paths_of_a_subdirectory posix
           host_of_directories nested_dirs 0
           (Path_of "/project/out") (Path_of "/srv/in") (Path_of "sub")
           16877 tt tt tt eq_refl eq_refl eq_refl eq_refl).
Defined.

End HostScenarios.
